(** * gocron-ui: the server package (REST control API, snapshot builder,
      schedule descriptor, connection registry, broadcast loop)

    A shallow embedding of [server] (types.go and server.go) and the
    properties of the repository's specification that are checked on it. *)

From Stdlib Require Import ZArith Lia Bool List Ascii String.
From Stdlib Require Import Floats.SpecFloat.
From Stdlib Require Import DecimalString Sorting.Sorted.
From stdpp Require Import base option list gmap strings.

Local Open Scope string_scope.
Local Open Scope Z_scope.

(* ===================================================================== *)
(** ** Go strings: [strings.Contains] and [fmt.Sprintf] with [%d]        *)
(* ===================================================================== *)

Module GoStrings.

(** [strings.HasPrefix s p]. *)
Fixpoint HasPrefix (s p : string) : bool :=
  match p, s with
  | EmptyString, _ => true
  | String _ _, EmptyString => false
  | String b p', String a s' => if Ascii.eqb a b then HasPrefix s' p' else false
  end.

(** [strings.Contains s substr]: [substr] occurs in [s] at some offset. *)
Fixpoint Contains (s substr : string) : bool :=
  HasPrefix s substr ||
  match s with
  | EmptyString => false
  | String _ s' => Contains s' substr
  end.

(** The verb [%d] of [fmt.Sprintf] on an integer: decimal digits, with a
    leading minus sign for a negative number. *)
Definition fmt_d (n : Z) : string := NilZero.string_of_int (Z.to_int n).

(** What "contains the substring" means, independently of the search. *)
Definition occurs_in (substr s : string) : Prop :=
  exists pre post : string, s = pre +:+ substr +:+ post.

End GoStrings.
Import GoStrings.

(* ===================================================================== *)
(** ** Go values used by the server: errors, UUIDs, [time], float64      *)
(* ===================================================================== *)

(** A Go [error] is observed by the server only through [err.Error()]. *)
Definition error := string.

(** [uuid.UUID] is a 16-byte array, read here as a 128-bit number. *)
Definition UUID := N.

Module GoTime.

(** [time.Duration]: a signed 64-bit count of nanoseconds. *)
Definition Duration := Z.

Definition Nanosecond : Duration := 1.
Definition Second : Duration := 1000000000.
Definition Minute : Duration := 60 * Second.
Definition Hour : Duration := 60 * Minute.

Definition minDuration : Duration := - 2 ^ 63.
Definition maxDuration : Duration := 2 ^ 63 - 1.

(** Two's complement wrap-around of 64-bit signed arithmetic. *)
Definition wrap64 (z : Z) : Z := (z + 2 ^ 63) mod 2 ^ 64 - 2 ^ 63.

(** [time.Time]: an instant, as nanoseconds since January 1, year 1,
    00:00:00 UTC (the zero Time).  Location and monotonic-clock readings
    are left out: no code of the server inspects them. *)
Definition Time := Z.

Definition zeroTime : Time := 0.

Definition IsZero (t : Time) : bool := t =? 0.

(** [t.Sub(u)]: the duration [t - u], saturated at the largest and
    smallest [Duration] when it does not fit. *)
Definition Sub (t u : Time) : Duration :=
  let d := t - u in
  if d <? minDuration then minDuration
  else if maxDuration <? d then maxDuration
  else d.

(** Wall-clock fields of an instant, in UTC. *)
Definition Hour_of (t : Time) : Z := ((t / Second) mod 86400) / 3600.
Definition Minute_of (t : Time) : Z := ((t / Second) mod 3600) / 60.
Definition Second_of (t : Time) : Z := (t / Second) mod 60.

(** *** float64 (IEEE 754 binary64, round to nearest even) *)

Definition float64 := spec_float.

Definition f64_of_int (z : Z) : float64 := binary_normalize 53 1024 z 0 false.
Definition f64_add : float64 -> float64 -> float64 := SFadd 53 1024.
Definition f64_div : float64 -> float64 -> float64 := SFdiv 53 1024.

(** The conversion [int(f)]: the fraction is discarded (truncation towards
    zero).  For an infinity or a NaN the result is the smallest integer. *)
Definition int_of_f64 (f : float64) : Z :=
  match f with
  | S754_zero _ => 0
  | S754_finite s m e =>
      let a := if 0 <=? e then Z.pos m * 2 ^ e else Z.pos m / 2 ^ (- e) in
      if s then - a else a
  | _ => - 2 ^ 63
  end.

(** [d.Seconds()], [d.Minutes()], [d.Hours()]: the integer part and the
    rest are converted separately and added. *)
Definition Seconds (d : Duration) : float64 :=
  let sec := Z.quot d Second in
  let nsec := Z.rem d Second in
  f64_add (f64_of_int sec) (f64_div (f64_of_int nsec) (f64_of_int 1000000000)).

Definition Minutes (d : Duration) : float64 :=
  let min := Z.quot d Minute in
  let nsec := Z.rem d Minute in
  f64_add (f64_of_int min) (f64_div (f64_of_int nsec) (f64_of_int (60 * 1000000000))).

Definition Hours (d : Duration) : float64 :=
  let h := Z.quot d Hour in
  let nsec := Z.rem d Hour in
  f64_add (f64_of_int h) (f64_div (f64_of_int nsec) (f64_of_int (60 * 60 * 1000000000))).

End GoTime.
Import GoTime.

(* ===================================================================== *)
(** ** types.go                                                           *)
(* ===================================================================== *)

(** [JobData]: the job information sent to clients. *)
Record JobData := mkJobData {
  jd_ID : string;
  jd_Name : string;
  jd_Tags : list string;
  jd_NextRun : string;
  jd_LastRun : string;
  jd_NextRuns : list string;
  jd_Schedule : string;
  jd_ScheduleDetail : string
}.

(** [CreateJobRequest]: the request to create a new job. *)
Record CreateJobRequest := mkCreateJobRequest {
  req_Name : string;
  req_Type : string;
  req_Interval : Z;
  req_CronExpression : string;
  req_AtTime : string;
  req_Tags : list string
}.

(** [gocron.Job], as the values its methods return when the server calls
    them.  A method returning [(T, error)] is a pair: the server discards
    the error of [NextRun], [LastRun] and [NextRuns] and keeps the value. *)
Record Job := mkJob {
  job_ID : UUID;
  job_Name : string;
  job_Tags : list string;
  job_NextRun : Time * option error;
  job_LastRun : Time * option error;
  job_NextRuns : Z -> list Time * option error
}.

(* ===================================================================== *)
(** ** The schedule descriptor: [inferSchedule]                           *)
(* ===================================================================== *)

(** Lines 379-428: the table of name patterns, first match wins. *)
Definition inferFromName (name : string) : option (string * string) :=
  if (0 <? String.length name)%nat then
    match
      (if Contains name "every" || Contains name "interval" then
         if Contains name "10s" || Contains name "10-s" then
           Some ("Every 10 seconds", "Duration: 10s")
         else if Contains name "5s" then
           Some ("Every 5 seconds", "Duration: 5s")
         else if Contains name "minute" then
           Some ("Every minute", "Duration: 1m")
         else None
       else None)
    with
    | Some r => Some r
    | None =>
      if Contains name "cron" then Some ("Cron schedule", "Cron: * * * * *")
      else if Contains name "daily" then Some ("Daily", "Daily schedule")
      else if Contains name "weekly" then Some ("Weekly", "Weekly: Mon, Wed, Fri")
      else if Contains name "random" then Some ("Random interval", "Random: 5-15s")
      else if Contains name "singleton" then
        Some ("Every 5 seconds (singleton)", "Duration: 5s, Mode: Singleton")
      else if Contains name "limited" then
        Some ("Every 7 seconds (limited)", "Duration: 7s, Max runs: 3")
      else if Contains name "parameter" then Some ("Every 12 seconds", "Duration: 12s")
      else if Contains name "context" then Some ("Every 8 seconds", "Duration: 8s")
      else if Contains name "one-time" || Contains name "onetime" then
        Some ("One time only", "OneTime job")
      else None
    end
  else None.

(** Lines 431-447: the label from the distance of the first two runs. *)
Definition inferFromInterval (interval : Duration) : string * string :=
  if interval <? Minute then
    let seconds := int_of_f64 (Seconds interval) in
    ("Every " +:+ fmt_d seconds +:+ " seconds", "Duration: " +:+ fmt_d seconds +:+ "s")
  else if interval <? Hour then
    let minutes := int_of_f64 (Minutes interval) in
    ("Every " +:+ fmt_d minutes +:+ " minutes", "Duration: " +:+ fmt_d minutes +:+ "m")
  else if interval <? 24 * Hour then
    let hours := int_of_f64 (Hours interval) in
    ("Every " +:+ fmt_d hours +:+ " hours", "Duration: " +:+ fmt_d hours +:+ "h")
  else
    let days := int_of_f64 (f64_div (Hours interval) (f64_of_int 24)) in
    ("Every " +:+ fmt_d days +:+ " days", "Duration: " +:+ fmt_d days +:+ "d").

Definition inferSchedule (job : Job) (nextRuns : list Time) : string * string :=
  let name := job_Name job in
  match inferFromName name with
  | Some r => r
  | None =>
    match nextRuns with
    | t0 :: t1 :: _ => inferFromInterval (Sub t1 t0)
    | _ => ("Scheduled", "Custom schedule")
    end
  end.

(* ===================================================================== *)
(** ** Vocabulary of the schedule descriptor's properties                 *)
(* ===================================================================== *)

(** A row of the pattern table that is tried before the "daily" row. *)
Definition matches_before_daily (name : string) : Prop :=
  occurs_in "cron" name \/
  ((occurs_in "every" name \/ occurs_in "interval" name) /\
   (occurs_in "10s" name \/ occurs_in "10-s" name \/
    occurs_in "5s" name \/ occurs_in "minute" name)).

(** No row of the pattern table applies to the name. *)
Definition matches_no_pattern (name : string) : Prop :=
  ~ ((occurs_in "every" name \/ occurs_in "interval" name) /\
     (occurs_in "10s" name \/ occurs_in "10-s" name \/
      occurs_in "5s" name \/ occurs_in "minute" name)) /\
  ~ occurs_in "cron" name /\ ~ occurs_in "daily" name /\
  ~ occurs_in "weekly" name /\ ~ occurs_in "random" name /\
  ~ occurs_in "singleton" name /\ ~ occurs_in "limited" name /\
  ~ occurs_in "parameter" name /\ ~ occurs_in "context" name /\
  ~ occurs_in "one-time" name /\ ~ occurs_in "onetime" name.

(** The two strings the interval stage prints for a count and a unit. *)
Definition interval_label (n : Z) (unit letter : string) : string * string :=
  ("Every " +:+ fmt_d n +:+ " " +:+ unit, "Duration: " +:+ fmt_d n +:+ letter).

(** The interval stage, run on [k] whole units for every [k] from [lo]
    to [lo + n - 1], prints the count [k] itself. *)
Definition whole_units_ok (unit : Duration) (word letter : string) (lo n : nat) : bool :=
  forallb (fun k : nat =>
    bool_decide (inferFromInterval (Z.of_nat k * unit)
                 = interval_label (Z.of_nat k) word letter)) (seq lo n).


(* ===================================================================== *)
(** ** [time.Parse] on the layouts of [parseTime]                         *)
(* ===================================================================== *)

(** A call that returns [(T, error)] and whose value is used only when the
    error is nil. *)
Inductive result (A : Type) : Type :=
| Ok (a : A)
| Err (e : error).
Arguments Ok {A} a.
Arguments Err {A} e.

Module GoTimeParse.

(** The layout codes that occur in the server's layouts: "15" (hour),
    "04" (minute, two digits) and "05" (second, two digits). *)
Inductive stdChunk := stdHour | stdZeroMinute | stdZeroSecond.

Definition drop2 (s : string) : string :=
  match s with
  | String _ (String _ r) => r
  | _ => EmptyString
  end.

(** [nextStdChunk layout]: the literal text before the first layout code,
    the code, and the rest of the layout. *)
Fixpoint nextStdChunk (layout : string) : string * option stdChunk * string :=
  match layout with
  | EmptyString => (EmptyString, None, EmptyString)
  | String c rest =>
    if HasPrefix layout "15" then (EmptyString, Some stdHour, drop2 layout)
    else if HasPrefix layout "04" then (EmptyString, Some stdZeroMinute, drop2 layout)
    else if HasPrefix layout "05" then (EmptyString, Some stdZeroSecond, drop2 layout)
    else let '(prefix, std, suffix) := nextStdChunk rest in (String c prefix, std, suffix)
  end.

(** [skip value prefix]: the literal text of the layout has to be next in
    the value (the layouts here hold no space). *)
Fixpoint skip (value prefix : string) {struct prefix} : option string :=
  match prefix with
  | EmptyString => Some value
  | String p prefix' =>
    match value with
    | EmptyString => None
    | String v value' => if Ascii.eqb v p then skip value' prefix' else None
    end
  end.

Definition isDigit (c : ascii) : bool :=
  let n := Z.of_nat (nat_of_ascii c) in (48 <=? n) && (n <=? 57).

Definition digit (c : ascii) : Z := Z.of_nat (nat_of_ascii c) - 48.

(** [getnum s fixed]: one or two leading digits, exactly two when [fixed]. *)
Definition getnum (s : string) (fixed : bool) : option (Z * string) :=
  match s with
  | EmptyString => None
  | String a s1 =>
    if isDigit a then
      match s1 with
      | String b s2 =>
        if isDigit b then Some (digit a * 10 + digit b, s2)
        else if fixed then None else Some (digit a, s1)
      | EmptyString => if fixed then None else Some (digit a, s1)
      end
    else None
  end.

Definition commaOrPeriod (c : ascii) : bool :=
  Ascii.eqb c "."%char || Ascii.eqb c ","%char.

(** The leading digits of a string and what follows them. *)
Fixpoint spanDigits (s : string) : list Z * string :=
  match s with
  | String c r =>
    if isDigit c then let '(ds, r') := spanDigits r in (digit c :: ds, r')
    else ([], s)
  | EmptyString => ([], s)
  end.

(** [parseNanoseconds]: at most nine digits of the fraction count, scaled
    to nanoseconds. *)
Definition parseNanoseconds (ds : list Z) : Z :=
  let ds9 := firstn 9 ds in
  fold_left (fun acc d => acc * 10 + d) ds9 0 * 10 ^ (9 - Z.of_nat (List.length ds9)).

(** The fields that a layout of hours, minutes and seconds sets. *)
Record fields := mkFields { f_hour : Z; f_min : Z; f_sec : Z; f_nsec : Z }.

(** [time.Date(0, January, 1, hour, min, sec, nsec, UTC)]: the date given
    to a value without year, month and day; year 0 has 366 days. *)
Definition Date0 (f : fields) : Time :=
  - (366 * 86400) * Second
  + ((f_hour f * 60 + f_min f) * 60 + f_sec f) * Second + f_nsec f.

(** The loop of [time.Parse]; [fuel] bounds the number of layout codes. *)
Fixpoint parseLoop (fuel : nat) (layout value : string) (f : fields) : result fields :=
  match fuel with
  | O => Err "parsing time: layout too long"
  | Datatypes.S fuel' =>
    let '(prefix, std, suffix) := nextStdChunk layout in
    match skip value prefix with
    | None => Err "parsing time: cannot parse value as layout"
    | Some value =>
      match std with
      | None =>
        match value with
        | EmptyString => Ok f
        | _ => Err "parsing time: extra text"
        end
      | Some stdHour =>
        match getnum value false with
        | None => Err "parsing time: cannot parse value as layout"
        | Some (hour, value) =>
          if (hour <? 0) || (24 <=? hour) then Err "parsing time: hour out of range"
          else parseLoop fuel' suffix value (mkFields hour (f_min f) (f_sec f) (f_nsec f))
        end
      | Some stdZeroMinute =>
        match getnum value true with
        | None => Err "parsing time: cannot parse value as layout"
        | Some (min, value) =>
          if (min <? 0) || (60 <=? min) then Err "parsing time: minute out of range"
          else parseLoop fuel' suffix value (mkFields (f_hour f) min (f_sec f) (f_nsec f))
        end
      | Some stdZeroSecond =>
        match getnum value true with
        | None => Err "parsing time: cannot parse value as layout"
        | Some (sec, value) =>
          if (sec <? 0) || (60 <=? sec) then Err "parsing time: second out of range"
          else
            (* a fraction in the value that the layout does not mention *)
            match value with
            | String c0 (String c1 r) =>
              if commaOrPeriod c0 && isDigit c1 then
                let '(ds, value') := spanDigits (String c1 r) in
                parseLoop fuel' suffix value'
                  (mkFields (f_hour f) (f_min f) sec (parseNanoseconds ds))
              else parseLoop fuel' suffix value (mkFields (f_hour f) (f_min f) sec (f_nsec f))
            | _ => parseLoop fuel' suffix value (mkFields (f_hour f) (f_min f) sec (f_nsec f))
            end
        end
      end
    end
  end.

(** [time.Parse(layout, value)] for a layout made of the codes above and
    literal text.  The text of the error is not observed by the server and
    is shortened. *)
Definition Parse (layout value : string) : result Time :=
  match parseLoop (Datatypes.S (String.length layout)) layout value (mkFields 0 0 0 0) with
  | Ok f => Ok (Date0 f)
  | Err e => Err e
  end.

End GoTimeParse.

(** [gocron.AtTime], built by [gocron.NewAtTime(hours, minutes, seconds)]. *)
Inductive AtTime := NewAtTime (hours minutes seconds : Z).

Definition parseTime (timeStr : string) : result AtTime :=
  let r :=
    match GoTimeParse.Parse "15:04:05" timeStr with
    | Ok t => Ok t
    | Err _ =>
      (* try without seconds *)
      GoTimeParse.Parse "15:04" timeStr
    end in
  match r with
  | Err e => Err e
  | Ok t => Ok (NewAtTime (Hour_of t) (Minute_of t) (Second_of t))
  end.

(** Two decimal digits, as in "HH", "MM" and "SS". *)
Definition two_digits (n : Z) : string :=
  String (ascii_of_nat (Z.to_nat (48 + n / 10)))
    (String (ascii_of_nat (Z.to_nat (48 + n mod 10))) EmptyString).

Definition clock_hm (h m : Z) : string := two_digits h +:+ ":" +:+ two_digits m.
Definition clock_hms (h m s : Z) : string :=
  two_digits h +:+ ":" +:+ two_digits m +:+ ":" +:+ two_digits s.

(* ===================================================================== *)
(** ** The collaborators of the server                                    *)
(* ===================================================================== *)

(** Library calls whose code is outside the repository: [uuid.Parse],
    [UUID.String] (github.com/google/uuid) and [Time.Format]. *)
Record GoLibs := mkGoLibs {
  uuid_Parse : string -> result UUID;
  uuid_String : UUID -> string;
  time_Format : Time -> string -> string
}.

(** [time.RFC3339]. *)
Definition RFC3339 : string := "2006-01-02T15:04:05Z07:00".

(** [gocron.JobDefinition], as built by the three constructors in use. *)
Inductive JobDefinition :=
| DurationJob (duration : Duration)
| CronJob (crontab : string) (withSeconds : bool)
| DailyJob (interval : Z) (atTimes : list AtTime).

(** [gocron.Task]: the only task the server builds logs the job's name. *)
Inductive Task := NewTask_log (name : string).

(** [gocron.JobOption]. *)
Inductive JobOption :=
| WithName (name : string)
| WithTags (tags : list string).

(** [gocron.Scheduler], over a state [S] that belongs to the scheduler:
    every method reads the state and may change it. *)
Record Scheduler (S : Type) := mkScheduler {
  sched_Jobs : S -> list Job;
  sched_NewJob : JobDefinition -> Task -> list JobOption -> S -> result Job * S;
  sched_RemoveJob : UUID -> S -> option error * S;
  sched_RunNow : Job -> S -> option error * S;
  sched_StopJobs : S -> option error * S;
  sched_Start : S -> S
}.
Arguments sched_Jobs {S} _ _.
Arguments sched_NewJob {S} _ _ _ _ _.
Arguments sched_RemoveJob {S} _ _ _.
Arguments sched_RunNow {S} _ _ _.
Arguments sched_StopJobs {S} _ _.
Arguments sched_Start {S} _ _.

(** A call into the scheduler, as recorded in the trace of a run. *)
Inductive SchedCall :=
| CallJobs
| CallNewJob (def : JobDefinition) (task : Task) (options : list JobOption)
| CallRemoveJob (id : UUID)
| CallRunNow (id : UUID)
| CallStopJobs
| CallStart.

(** A [*websocket.Conn]: only the identity of the pointer matters. *)
Definition Conn := positive.

(** The value pushed to observers: [{"type": "jobs", "data": jobs}]. *)
Inductive Message := MsgJobs (data : list JobData).

Inductive Event :=
| EvSched (c : SchedCall)
| EvWrite (conn : Conn) (m : Message)
| EvClose (conn : Conn).

(** The mutable state a handler can reach: the scheduler, the registry
    [wsClients] of the [Server], and the trace of outside calls so far. *)
Record World (S : Type) := mkWorld {
  w_sched : S;
  wsClients : gmap Conn bool;
  w_trace : list Event
}.
Arguments mkWorld {S} _ _ _.
Arguments w_sched {S} _.
Arguments wsClients {S} _.
Arguments w_trace {S} _.

(** *** HTTP responses *)

Definition StatusOK : Z := 200.
Definition StatusCreated : Z := 201.
Definition StatusBadRequest : Z := 400.
Definition StatusNotFound : Z := 404.
Definition StatusInternalServerError : Z := 500.

(** The value handed to the JSON encoder. *)
Inductive Body :=
| BodyMap (m : gmap string string)
| BodyJob (j : JobData)
| BodyJobs (js : list JobData).

Record Response := mkResponse { resp_status : Z; resp_body : Body }.

Definition respondJSON (status : Z) (data : Body) : Response :=
  mkResponse status data.

Definition respondError (status : Z) (message : string) : Response :=
  respondJSON status (BodyMap {[ "error" := message ]}).

(** The error message of a response, when its body is an error object. *)
Definition error_message (r : Response) : option string :=
  match resp_body r with
  | BodyMap m => m !! "error"
  | _ => None
  end.

(* ===================================================================== *)
(** ** server.go                                                          *)
(* ===================================================================== *)

Section Server.

Context {S : Type}.
Variable L : GoLibs.
Variable sch : Scheduler S.

(** Handlers are state transformers over the world. *)
Definition M (A : Type) : Type := World S -> A * World S.

Definition ret {A : Type} (a : A) : M A := fun w => (a, w).

Definition bind {A B : Type} (c : M A) (k : A -> M B) : M B :=
  fun w => let '(a, w') := c w in k a w'.

Notation "x <- c ;; k" := (bind c (fun x => k))
  (at level 100, c at next level, right associativity).
Notation "c ;;; k" := (bind c (fun _ => k))
  (at level 100, right associativity).

Definition emit (e : Event) : M unit :=
  fun w => (tt, mkWorld (w_sched w) (wsClients w) (w_trace w ++ [e])%list).

(** Calls into the scheduler. *)
Definition call_Jobs : M (list Job) :=
  emit (EvSched CallJobs) ;;;
  fun w => (sched_Jobs sch (w_sched w), w).

Definition call_NewJob (def : JobDefinition) (task : Task) (options : list JobOption)
  : M (result Job) :=
  emit (EvSched (CallNewJob def task options)) ;;;
  fun w => let '(r, s') := sched_NewJob sch def task options (w_sched w) in
           (r, mkWorld s' (wsClients w) (w_trace w)).

Definition call_RemoveJob (id : UUID) : M (option error) :=
  emit (EvSched (CallRemoveJob id)) ;;;
  fun w => let '(r, s') := sched_RemoveJob sch id (w_sched w) in
           (r, mkWorld s' (wsClients w) (w_trace w)).

Definition call_RunNow (job : Job) : M (option error) :=
  emit (EvSched (CallRunNow (job_ID job))) ;;;
  fun w => let '(r, s') := sched_RunNow sch job (w_sched w) in
           (r, mkWorld s' (wsClients w) (w_trace w)).

Definition call_StopJobs : M (option error) :=
  emit (EvSched CallStopJobs) ;;;
  fun w => let '(r, s') := sched_StopJobs sch (w_sched w) in
           (r, mkWorld s' (wsClients w) (w_trace w)).

Definition call_Start : M unit :=
  emit (EvSched CallStart) ;;;
  fun w => (tt, mkWorld (sched_Start sch (w_sched w)) (wsClients w) (w_trace w)).

(** *** Helper functions *)

Definition formatTime (t : Time) : string :=
  if IsZero t then "" else time_Format L t RFC3339.

Definition formatTimes (times : list Time) : list string :=
  map formatTime times.

Definition convertJobToData (job : Job) : JobData :=
  let nextRun := fst (job_NextRun job) in
  let lastRun := fst (job_LastRun job) in
  (* get next 5 runs *)
  let nextRuns := fst (job_NextRuns job 5) in
  let '(schedule, scheduleDetail) := inferSchedule job nextRuns in
  {| jd_ID := uuid_String L (job_ID job);
     jd_Name := job_Name job;
     jd_Tags := job_Tags job;
     jd_NextRun := formatTime nextRun;
     jd_LastRun := formatTime lastRun;
     jd_NextRuns := formatTimes nextRuns;
     jd_Schedule := schedule;
     jd_ScheduleDetail := scheduleDetail |}.

Definition getJobsData : M (list JobData) :=
  jobs <- call_Jobs ;;
  ret (map convertJobToData jobs).

(** The loop [for _, job := range jobs { if job.ID() == id ... }]. *)
Fixpoint findJob (id : UUID) (jobs : list Job) : option Job :=
  match jobs with
  | [] => None
  | job :: rest => if N.eqb (job_ID job) id then Some job else findJob id rest
  end.

(** *** REST handlers *)

Definition GetJobs : M Response :=
  jobs <- getJobsData ;;
  ret (respondJSON StatusOK (BodyJobs jobs)).

Definition GetJob (idStr : string) : M Response :=
  match uuid_Parse L idStr with
  | Err _ => ret (respondError StatusBadRequest "Invalid job ID")
  | Ok id =>
    jobs <- call_Jobs ;;
    match findJob id jobs with
    | Some job => ret (respondJSON StatusOK (BodyJob (convertJobToData job)))
    | None => ret (respondError StatusNotFound "Job not found")
    end
  end.

(** The [switch req.Type] of [CreateJob]: the job definition, or the
    response of the branch that returns early. *)
Definition jobDefinitionOf (req : CreateJobRequest) : Response + JobDefinition :=
  if String.eqb (req_Type req) "duration" then
    if req_Interval req <=? 0 then
      inl (respondError StatusBadRequest "Interval must be positive for duration jobs")
    else inr (DurationJob (wrap64 (req_Interval req * Second)))
  else if String.eqb (req_Type req) "cron" then
    if String.eqb (req_CronExpression req) "" then
      inl (respondError StatusBadRequest "Cron expression is required for cron jobs")
    else inr (CronJob (req_CronExpression req) false)
  else if String.eqb (req_Type req) "daily" then
    if req_Interval req <=? 0 then
      inl (respondError StatusBadRequest "Interval must be positive for daily jobs")
    else if String.eqb (req_AtTime req) "" then
      inl (respondError StatusBadRequest "AtTime is required for daily jobs")
    else
      match parseTime (req_AtTime req) with
      | Err _ => inl (respondError StatusBadRequest "Invalid time format. Use HH:MM:SS")
      | Ok atTime => inr (DailyJob (req_Interval req) [atTime])
      end
  else
    inl (respondError StatusBadRequest "Invalid job type. Supported: duration, cron, daily").

(** The job options of [CreateJob]: the name, and the tags when there
    are any. *)
Definition jobOptionsOf (req : CreateJobRequest) : list JobOption :=
  let options := [WithName (req_Name req)] in
  if (0 <? List.length (req_Tags req))%nat
  then (options ++ [WithTags (req_Tags req)])%list else options.

(** [CreateJob]; [decoded] is the outcome of decoding the request body
    into a [CreateJobRequest]. *)
Definition CreateJob (decoded : result CreateJobRequest) : M Response :=
  match decoded with
  | Err _ => ret (respondError StatusBadRequest "Invalid request body")
  | Ok req =>
    if String.eqb (req_Name req) "" then
      ret (respondError StatusBadRequest "Job name is required")
    else
      match jobDefinitionOf req with
      | inl early => ret early
      | inr jobDef =>
        let task := NewTask_log (req_Name req) in
        let options := jobOptionsOf req in
        r <- call_NewJob jobDef task options ;;
        match r with
        | Err e => ret (respondError StatusInternalServerError e)
        | Ok job => ret (respondJSON StatusCreated (BodyJob (convertJobToData job)))
        end
      end
  end.

Definition DeleteJob (idStr : string) : M Response :=
  match uuid_Parse L idStr with
  | Err _ => ret (respondError StatusBadRequest "Invalid job ID")
  | Ok id =>
    err <- call_RemoveJob id ;;
    match err with
    | Some _ => ret (respondError StatusNotFound "Job not found")
    | None =>
      ret (respondJSON StatusOK (BodyMap {[ "message" := "Job deleted successfully" ]}))
    end
  end.

Definition RunJob (idStr : string) : M Response :=
  match uuid_Parse L idStr with
  | Err _ => ret (respondError StatusBadRequest "Invalid job ID")
  | Ok id =>
    jobs <- call_Jobs ;;
    match findJob id jobs with
    | Some job =>
      err <- call_RunNow job ;;
      match err with
      | Some e => ret (respondError StatusInternalServerError e)
      | None => ret (respondJSON StatusOK (BodyMap {[ "message" := "Job executed" ]}))
      end
    | None => ret (respondError StatusNotFound "Job not found")
    end
  end.

Definition StopScheduler : M Response :=
  err <- call_StopJobs ;;
  match err with
  | Some e => ret (respondError StatusInternalServerError e)
  | None => ret (respondJSON StatusOK (BodyMap {[ "message" := "Scheduler stopped" ]}))
  end.

Definition StartScheduler : M Response :=
  call_Start ;;;
  ret (respondJSON StatusOK (BodyMap {[ "message" := "Scheduler started" ]})).

(** *** The connection registry and the broadcast loop *)

(** [s.wsClients[conn] = true]. *)
Definition addClient (conn : Conn) : M unit :=
  fun w => (tt, mkWorld (w_sched w) (<[conn := true]> (wsClients w)) (w_trace w)).

(** [delete(s.wsClients, conn)]. *)
Definition removeClient (conn : Conn) : M unit :=
  fun w => (tt, mkWorld (w_sched w) (delete conn (wsClients w)) (w_trace w)).

Definition getClients : M (gmap Conn bool) := fun w => (wsClients w, w).

(** [HandleWebSocket] after the upgrade: the connection is registered and
    sent the current jobs. *)
Definition wsConnect (conn : Conn) : M unit :=
  addClient conn ;;;
  jobs <- getJobsData ;;
  emit (EvWrite conn (MsgJobs jobs)).

(** [HandleWebSocket] when [ReadMessage] fails: the connection leaves the
    registry, and the deferred [conn.Close()] runs. *)
Definition wsReadError (conn : Conn) : M unit :=
  removeClient conn ;;;
  emit (EvClose conn).

(** The [for client := range s.wsClients] of the broadcast; [writeFails]
    tells for which clients [WriteJSON] returns an error. *)
Fixpoint broadcastTo (writeFails : Conn -> bool) (message : Message)
    (clients : list Conn) : M unit :=
  match clients with
  | [] => ret tt
  | client :: rest =>
    emit (EvWrite client message) ;;;
    (if writeFails client
     then removeClient client ;;; emit (EvClose client)
     else ret tt) ;;;
    broadcastTo writeFails message rest
  end.

(** One iteration of [for range ticker.C] in [broadcastJobUpdates]. *)
Definition broadcastTick (writeFails : Conn -> bool) : M unit :=
  clients <- getClients ;;
  if (size clients =? 0)%nat then ret tt
  else
    jobs <- getJobsData ;;
    let message := MsgJobs jobs in
    clients <- getClients ;;
    broadcastTo writeFails message (map fst (map_to_list clients)).

(** [broadcastJobUpdates] over the first ticks of its ticker, each given
    with the outcome of the writes made during it. *)
Fixpoint broadcastJobUpdates (ticks : list (Conn -> bool)) : M unit :=
  match ticks with
  | [] => ret tt
  | writeFails :: rest => broadcastTick writeFails ;;; broadcastJobUpdates rest
  end.

(** [HandleWebSocket] from the upgrade to the return, when the read that
    fails is the first one. *)
Definition HandleWebSocket (upgraded : result Conn) : M unit :=
  match upgraded with
  | Err _ => ret tt
  | Ok conn => wsConnect conn ;;; wsReadError conn
  end.

End Server.

(** How often the snapshot source ([Scheduler.Jobs]) was queried. *)
Fixpoint count_Jobs (trace : list Event) : nat :=
  match trace with
  | [] => 0
  | EvSched CallJobs :: rest => Datatypes.S (count_Jobs rest)
  | _ :: rest => count_Jobs rest
  end.

(** The calls into the scheduler among the events of a trace. *)
Fixpoint sched_calls (trace : list Event) : list SchedCall :=
  match trace with
  | [] => []
  | EvSched c :: rest => c :: sched_calls rest
  | _ :: rest => sched_calls rest
  end.

(* ===================================================================== *)
(** ** Reference collaborators, to run the handlers on concrete inputs    *)
(* ===================================================================== *)

Module Reference.

(** *** UUIDs in the canonical form xxxxxxxx-xxxx-xxxx-xxxx-xxxxxxxxxxxx *)

Definition hexval (c : ascii) : option N :=
  let n := N.of_nat (nat_of_ascii c) in
  if ((48 <=? n) && (n <=? 57))%N then Some (n - 48)%N
  else if ((97 <=? n) && (n <=? 102))%N then Some (n - 87)%N
  else if ((65 <=? n) && (n <=? 70))%N then Some (n - 55)%N
  else None.

Fixpoint parseCanonical (pos : nat) (s : string) (acc : N) : option N :=
  match s with
  | EmptyString => if (pos =? 36)%nat then Some acc else None
  | String c r =>
    if ((pos =? 8) || (pos =? 13) || (pos =? 18) || (pos =? 23))%nat then
      if Ascii.eqb c "-"%char then parseCanonical (Datatypes.S pos) r acc else None
    else
      match hexval c with
      | Some v => parseCanonical (Datatypes.S pos) r (acc * 16 + v)%N
      | None => None
      end
  end.

Definition Parse (s : string) : result UUID :=
  if (String.length s =? 36)%nat then
    match parseCanonical 0 s 0%N with
    | Some u => Ok u
    | None => Err "invalid UUID format"
    end
  else Err "invalid UUID length".

Definition hexdigit (v : N) : ascii :=
  ascii_of_N (if (v <? 10)%N then 48 + v else 87 + v)%N.

Fixpoint hexString (n : nat) (u : N) (acc : string) : string :=
  match n with
  | O => acc
  | Datatypes.S n' => hexString n' (u / 16)%N (String (hexdigit (u mod 16)%N) acc)
  end.

Definition UString (u : UUID) : string :=
  let h := hexString 32 u EmptyString in
  substring 0 8 h +:+ "-" +:+ substring 8 4 h +:+ "-" +:+ substring 12 4 h +:+ "-" +:+
  substring 16 4 h +:+ "-" +:+ substring 20 12 h.

(** *** RFC 3339 timestamps in UTC *)

Fixpoint zeros (n : nat) : string :=
  match n with
  | O => EmptyString
  | Datatypes.S n' => String "0"%char (zeros n')
  end.

Definition pad (width : nat) (s : string) : string :=
  zeros (width - String.length s) +:+ s.

Definition num (width : nat) (n : Z) : string := pad width (fmt_d n).

(** Year, month and day of a count of days since January 1 of year 1. *)
Definition civil (days : Z) : Z * Z * Z :=
  let z := days + 306 in
  let era := z / 146097 in
  let doe := z mod 146097 in
  let yoe := (doe - doe / 1460 + doe / 36524 - doe / 146096) / 365 in
  let doy := doe - (365 * yoe + yoe / 4 - yoe / 100) in
  let mp := (5 * doy + 2) / 153 in
  let d := doy - (153 * mp + 2) / 5 + 1 in
  let m := if mp <? 10 then mp + 3 else mp - 9 in
  let y := yoe + era * 400 + (if m <=? 2 then 1 else 0) in
  (y, m, d).

(** [t.Format(time.RFC3339)] for an instant in UTC. *)
Definition Format (t : Time) (layout : string) : string :=
  let secs := t / Second in
  let '(y, m, d) := civil (secs / 86400) in
  num 4 y +:+ "-" +:+ num 2 m +:+ "-" +:+ num 2 d +:+ "T" +:+
  num 2 (Hour_of t) +:+ ":" +:+ num 2 (Minute_of t) +:+ ":" +:+
  num 2 (Second_of t) +:+ "Z".

Definition libs : GoLibs := mkGoLibs Parse UString Format.

(** *** A scheduler that keeps its jobs in a list *)

Record State := mkState {
  rs_jobs : list Job;
  rs_nextID : N;
  rs_started : bool
}.

Definition ErrJobNotFound : error := "gocron: job not found".

Fixpoint nameOf (options : list JobOption) : string :=
  match options with
  | [] => EmptyString
  | WithName n :: _ => n
  | _ :: rest => nameOf rest
  end.

Fixpoint tagsOf (options : list JobOption) : list string :=
  match options with
  | [] => []
  | WithTags ts :: _ => ts
  | _ :: rest => tagsOf rest
  end.

Definition hasJob (id : UUID) (jobs : list Job) : bool :=
  existsb (fun j => N.eqb (job_ID j) id) jobs.

Definition NewJob (def : JobDefinition) (task : Task) (options : list JobOption)
    (s : State) : result Job * State :=
  match def with
  | DurationJob d =>
    if d <=? 0 then (Err "gocron: DurationJob: time interval is 0", s)
    else
      let job := mkJob (rs_nextID s) (nameOf options) (tagsOf options)
                   (0, None) (0, None) (fun _ => ([], None)) in
      (Ok job, mkState (rs_jobs s ++ [job])%list (rs_nextID s + 1)%N (rs_started s))
  | _ =>
    let job := mkJob (rs_nextID s) (nameOf options) (tagsOf options)
                 (0, None) (0, None) (fun _ => ([], None)) in
    (Ok job, mkState (rs_jobs s ++ [job])%list (rs_nextID s + 1)%N (rs_started s))
  end.

Definition RemoveJob (id : UUID) (s : State) : option error * State :=
  if hasJob id (rs_jobs s) then
    (None, mkState (List.filter (fun j => negb (N.eqb (job_ID j) id)) (rs_jobs s))
             (rs_nextID s) (rs_started s))
  else (Some ErrJobNotFound, s).

Definition RunNow (job : Job) (s : State) : option error * State :=
  if hasJob (job_ID job) (rs_jobs s) then
    if rs_started s then (None, s) else (Some "gocron: scheduler not started", s)
  else (Some ErrJobNotFound, s).

Definition StopJobs (s : State) : option error * State :=
  if rs_started s then (None, mkState (rs_jobs s) (rs_nextID s) false)
  else (Some "gocron: timed out waiting for jobs to finish", s).

Definition Start (s : State) : State := mkState (rs_jobs s) (rs_nextID s) true.

Definition scheduler : Scheduler State :=
  mkScheduler State rs_jobs NewJob RemoveJob RunNow StopJobs Start.

(** A job that runs every ten seconds from instant [t0] on. *)
Definition tenSecondJob (id : UUID) (name : string) (t0 : Time) : Job :=
  mkJob id name ["demo"] (t0, None) (0, None)
    (fun n => (firstn (Z.to_nat n)
                 [t0; t0 + 10 * Second; t0 + 20 * Second; t0 + 30 * Second;
                  t0 + 40 * Second; t0 + 50 * Second; t0 + 60 * Second], None)).

(** November 2, 2026, 12:00:00 UTC. *)
Definition noon : Time := (739921 * 86400 + 12 * 3600) * Second.

Definition idA : string := "00000000-0000-0000-0000-00000000002a".

Definition world0 : World State :=
  mkWorld (mkState [tenSecondJob 42%N "heartbeat" noon] 43%N true) ∅ [].

(** A scheduler that was never started: run-now and stop fail. *)
Definition stoppedWorld : World State :=
  mkWorld (mkState [tenSecondJob 42%N "heartbeat" noon] 43%N false) ∅ [].

(** A world with two observers, the second of which has gone away. *)
Definition watchedWorld : World State :=
  mkWorld (w_sched world0) {[ 1%positive := true; 2%positive := true ]} [].

Definition secondGone (conn : Conn) : bool := Pos.eqb conn 2.

End Reference.

(* ===================================================================== *)
(** ** Vocabulary of the properties of the control API                    *)
(* ===================================================================== *)

(** The requests that [CreateJob] has to refuse. *)
Definition invalid_create_request (req : CreateJobRequest) : Prop :=
  req_Name req = "" \/
  (req_Type req = "duration" /\ req_Interval req <= 0) \/
  (req_Type req = "cron" /\ req_CronExpression req = "") \/
  (req_Type req = "daily" /\
   (req_Interval req <= 0 \/ req_AtTime req = "" \/
    exists e, parseTime (req_AtTime req) = Err e)) \/
  (req_Type req <> "duration" /\ req_Type req <> "cron" /\ req_Type req <> "daily").

(** No job of the list has the identifier. *)
Definition no_job_with (id : UUID) (jobs : list Job) : Prop :=
  Forall (fun j => job_ID j <> id) jobs.

(** What the server expects of [Scheduler.RemoveJob]: removing an unknown
    job is an error, and a removed job is no longer among the jobs. *)
Definition RemoveJob_contract {S : Type} (sch : Scheduler S) : Prop :=
  (forall id s, no_job_with id (sched_Jobs sch s) ->
                exists e, fst (sched_RemoveJob sch id s) = Some e) /\
  (forall id s, fst (sched_RemoveJob sch id s) = None ->
                no_job_with id (sched_Jobs sch (snd (sched_RemoveJob sch id s)))).

(** What the snapshot builder expects of [Job.NextRuns]: at most the
    requested number of instants, soonest first. *)
Definition NextRuns_contract (job : Job) : Prop :=
  forall n, 0 <= n ->
    (List.length (fst (job_NextRuns job n)) <= Z.to_nat n)%nat /\
    Sorted Z.le (fst (job_NextRuns job n)).

(* ===================================================================== *)
(** ** Vocabulary of further properties                                   *)
(* ===================================================================== *)

(** The rows of the name stage of [inferSchedule], in the order in which
    they are tried: the test on the name and the label of the row. *)
Definition every_or_interval (name : string) : bool :=
  Contains name "every" || Contains name "interval".

Definition pattern_table : list ((string -> bool) * (string * string)) :=
  [ (fun n => every_or_interval n && (Contains n "10s" || Contains n "10-s"),
     ("Every 10 seconds", "Duration: 10s"));
    (fun n => every_or_interval n && Contains n "5s",
     ("Every 5 seconds", "Duration: 5s"));
    (fun n => every_or_interval n && Contains n "minute",
     ("Every minute", "Duration: 1m"));
    (fun n => Contains n "cron", ("Cron schedule", "Cron: * * * * *"));
    (fun n => Contains n "daily", ("Daily", "Daily schedule"));
    (fun n => Contains n "weekly", ("Weekly", "Weekly: Mon, Wed, Fri"));
    (fun n => Contains n "random", ("Random interval", "Random: 5-15s"));
    (fun n => Contains n "singleton",
     ("Every 5 seconds (singleton)", "Duration: 5s, Mode: Singleton"));
    (fun n => Contains n "limited",
     ("Every 7 seconds (limited)", "Duration: 7s, Max runs: 3"));
    (fun n => Contains n "parameter", ("Every 12 seconds", "Duration: 12s"));
    (fun n => Contains n "context", ("Every 8 seconds", "Duration: 8s"));
    (fun n => Contains n "one-time" || Contains n "onetime",
     ("One time only", "OneTime job")) ].

(** The label of the first row whose test the name passes. *)
Definition first_match (name : string) : option (string * string) :=
  match List.find (fun row => fst row name) pattern_table with
  | Some row => Some (snd row)
  | None => None
  end.

(** The messages written to observers, and the connections closed, among
    the events of a trace. *)
Fixpoint writes_of (trace : list Event) : list (Conn * Message) :=
  match trace with
  | [] => []
  | EvWrite c m :: rest => (c, m) :: writes_of rest
  | _ :: rest => writes_of rest
  end.

Fixpoint closes_of (trace : list Event) : list Conn :=
  match trace with
  | [] => []
  | EvClose c :: rest => c :: closes_of rest
  | _ :: rest => closes_of rest
  end.

(** A handler that leaves the registry alone and whose only outside
    effects are calls into the scheduler, at most [n] of them. *)
Definition scheduler_only {S A : Type} (n : nat) (h : World S -> A * World S) : Prop :=
  forall w, wsClients (snd (h w)) = wsClients w /\
    exists calls, w_trace (snd (h w)) = (w_trace w ++ map EvSched calls)%list /\
                  (List.length calls <= n)%nat.




(** One decimal digit as a string, and the strings made of digits only. *)
Definition one_digit (n : Z) : string :=
  String (ascii_of_nat (Z.to_nat (48 + n))) EmptyString.

Fixpoint all_digits (s : string) : bool :=
  match s with
  | EmptyString => true
  | String c r => GoTimeParse.isDigit c && all_digits r
  end.

(* ===================================================================== *)
(** ** exmaples/main.go: the jobs of the example program                  *)
(* ===================================================================== *)

Module Examples.

(** The job definitions that [main] builds. *)
Inductive Definition_ :=
| DurationJob (duration : Duration)
| CronJob (crontab : string) (withSeconds : bool)
| DailyJob (interval : Z) (atTimes : list AtTime)
| WeeklyJob (interval : Z) (weekdays : list string) (atTimes : list AtTime)
| DurationRandomJob (minDuration maxDuration : Duration)
| OneTimeJob (fromNow : Duration).

(** The job options besides the name and the tags. *)
Inductive Option_ :=
| WithSingletonMode_LimitModeReschedule
| WithLimitedRuns (limit : Z)
| WithEventListeners_AfterJobRuns_BeforeJobRuns.

Record Example := mkExample {
  ex_definition : Definition_;
  ex_name : string;
  ex_tags : list string;
  ex_options : list Option_
}.

(** The fourteen calls of [scheduler.NewJob] in [main], in order. *)
Definition examples : list Example :=
  [ mkExample (DurationJob (10 * Second)) "simple-10s-interval" ["interval"; "simple"] [];
    mkExample (DurationJob (5 * Second)) "fast-5s-job" ["interval"; "fast"] [];
    mkExample (CronJob "* * * * *" false) "cron-every-minute" ["cron"; "periodic"] [];
    mkExample (DailyJob 1 [NewAtTime 14 30 0]) "daily-afternoon-report"
      ["daily"; "report"] [];
    mkExample (WeeklyJob 1 ["Monday"; "Wednesday"; "Friday"] [NewAtTime 9 0 0])
      "weekly-mwf-morning" ["weekly"; "morning"; "report"] [];
    mkExample (DurationJob (12 * Second)) "parameterized-job" ["parameters"; "demo"] [];
    mkExample (DurationJob (8 * Second)) "context-aware-job" ["context"; "advanced"] [];
    mkExample (DurationRandomJob (5 * Second) (15 * Second)) "random-interval-job"
      ["random"; "variable"] [];
    mkExample (DurationJob (5 * Second)) "singleton-mode-job" ["singleton"; "long-running"]
      [WithSingletonMode_LimitModeReschedule];
    mkExample (DurationJob (7 * Second)) "limited-run-job" ["limited"; "demo"]
      [WithLimitedRuns 3];
    mkExample (DurationJob (15 * Second)) "event-listener-job" ["events"; "monitoring"]
      [WithEventListeners_AfterJobRuns_BeforeJobRuns];
    mkExample (OneTimeJob (30 * Second)) "one-time-job" ["onetime"; "scheduled"] [];
    mkExample (DurationJob (20 * Second)) "data-processor-job" ["processing"; "batch"] [];
    mkExample (DurationJob (30 * Second)) "health-check-job" ["monitoring"; "health"] [] ].

(** Two consecutive runs as the definition schedules them, where the
    definition fixes their distance. *)
Definition consecutive (ex : Example) (t0 t1 : Time) : Prop :=
  match ex_definition ex with
  | DurationJob d => t1 = t0 + d
  | CronJob _ _ => t1 = t0 + Minute
  | DailyJob interval _ => t1 = t0 + interval * (24 * Hour)
  | _ => True
  end.

(** A label that says what the definition says. *)
Definition describes (ex : Example) (label : string * string) : Prop :=
  match ex_definition ex with
  | DurationJob d =>
    exists suffix, fst label = "Every " +:+ fmt_d (d / Second) +:+ " seconds" +:+ suffix
  | CronJob _ _ => label = ("Every minute", "Duration: 1m")
  | DailyJob _ _ => label = ("Daily", "Daily schedule")
  | WeeklyJob _ _ _ => label = ("Weekly", "Weekly: Mon, Wed, Fri")
  | DurationRandomJob lo hi =>
    label = ("Random interval",
             "Random: " +:+ fmt_d (lo / Second) +:+ "-" +:+ fmt_d (hi / Second) +:+ "s")
  | OneTimeJob _ => label = ("One time only", "OneTime job")
  end.

End Examples.

(* ===================================================================== *)
(** ** server/static/app.js: the expanded schedules of the page           *)
(* ===================================================================== *)

Module WebUI.

(** What the script keeps between two renderings: its variables [jobs]
    and [expandedSchedules], and of the document the elements that
    [renderJobCard] writes for a job with upcoming runs, by job id: the
    [style.display] of [schedule-<id>] and the text of [toggle-icon-<id>];
    [jobCount] is the text of the element [job-count], when the page has
    one.  Job ids are taken to reach the document as they are (they are
    UUIDs, without characters that mean something in HTML). *)
Record Page := mkPage {
  jobs : list JobData;
  expandedSchedules : gset string;
  scheduleDisplay : gmap string string;
  toggleIcon : gmap string string;
  jobCount : option nat
}.

Definition expandedIcon : string := "🔽".
Definition collapsedIcon : string := "▶️".

(** The clean-up of the expanded state in [renderJobs]: with jobs, every
    expanded id is visited and deleted when no job has it; without jobs
    the set is cleared. *)
Definition cleanUp (jobs : list JobData) (expanded : gset string) : gset string :=
  if (0 <? List.length jobs)%nat then
    let currentJobIds : gset string := list_to_set (map jd_ID jobs) in
    fold_left (fun acc id => if bool_decide (id ∈ currentJobIds) then acc else acc ∖ {[ id ]})
      (elements expanded) expanded
  else ∅.

(** The jobs for which [renderJobCard] writes the list of upcoming runs. *)
Definition hasUpcoming (job : JobData) : bool :=
  (0 <? List.length (jd_NextRuns job))%nat.

Definition renderJobs (p : Page) : Page :=
  let expanded := cleanUp (jobs p) (expandedSchedules p) in
  let cards := List.filter hasUpcoming (jobs p) in
  mkPage (jobs p) expanded
    (list_to_map
       (map (fun job => (jd_ID job,
                         if bool_decide (jd_ID job ∈ expanded) then "block" else "none"))
          cards))
    (list_to_map
       (map (fun job => (jd_ID job,
                         if bool_decide (jd_ID job ∈ expanded)
                         then expandedIcon else collapsedIcon))
          cards))
    (match jobCount p with
     | Some _ => Some (List.length (jobs p))
     | None => None
     end).

(** [toggleSchedule(jobId)]; [None] stands for the TypeError raised when
    one of the two elements is not in the document. *)
Definition toggleSchedule (jobId : string) (p : Page) : option Page :=
  match scheduleDisplay p !! jobId, toggleIcon p !! jobId with
  | Some display, Some _ =>
    if String.eqb display "none" then
      Some (mkPage (jobs p) ({[ jobId ]} ∪ expandedSchedules p)
              (<[jobId := "block"]> (scheduleDisplay p))
              (<[jobId := expandedIcon]> (toggleIcon p)) (jobCount p))
    else
      Some (mkPage (jobs p) (expandedSchedules p ∖ {[ jobId ]})
              (<[jobId := "none"]> (scheduleDisplay p))
              (<[jobId := collapsedIcon]> (toggleIcon p)) (jobCount p))
  | _, _ => None
  end.

(** What [ws.onmessage] receives: text that is not JSON, a message of
    another type, or a message of type "jobs" with its data, if any. *)
Inductive Incoming :=
| NotJSON
| OtherType
| JobsMessage (data : option (list JobData)).

Definition onmessage (event : Incoming) (p : Page) : Page :=
  match event with
  | JobsMessage data =>
    let jobs := match data with Some js => js | None => [] end in
    renderJobs (mkPage jobs (expandedSchedules p) (scheduleDisplay p) (toggleIcon p)
                  (jobCount p))
  | _ => p
  end.

(** The job has upcoming runs in the list. *)
Definition listed (jobId : string) (jobs : list JobData) : Prop :=
  exists job, In job jobs /\ jd_ID job = jobId /\ jd_NextRuns job <> [].

(** A page that has just received one job with two upcoming runs. *)
Definition sampleJob : JobData :=
  mkJobData "00000000-0000-0000-0000-00000000002a" "heartbeat" ["demo"]
    "2026-11-02T12:00:00Z" "" ["2026-11-02T12:00:00Z"; "2026-11-02T12:00:10Z"]
    "Every 10 seconds" "Duration: 10s".

Definition samplePage : Page :=
  renderJobs (mkPage [sampleJob] ∅ ∅ ∅ (Some 0%nat)).

End WebUI.
(* ===================================================================== *)
(** ** Substring search is what it says                                   *)
(* ===================================================================== *)

Section ContainsSpec.

Lemma HasPrefix_spec (p s : string) :
  HasPrefix s p = true <-> exists post, s = p +:+ post.
Proof.
  revert s. induction p as [|b p IH]; intros s; simpl.
  - split; [intros _; exists s; reflexivity | intros _; destruct s; reflexivity].
  - destruct s as [|a s]; simpl.
    + split; [discriminate | intros [post H]; discriminate].
    + destruct (Ascii.eqb_spec a b) as [->|Hne].
      * rewrite IH. split; intros [post H]; exists post.
        -- now rewrite H.
        -- now injection H.
      * split; [discriminate | intros [post H]; injection H; congruence].
Qed.

Lemma Contains_nil (substr : string) :
  Contains "" substr = HasPrefix "" substr || false.
Proof. reflexivity. Qed.

Lemma Contains_cons (a : ascii) (s substr : string) :
  Contains (String a s) substr = HasPrefix (String a s) substr || Contains s substr.
Proof. reflexivity. Qed.

Lemma Contains_spec (s substr : string) :
  Contains s substr = true <-> occurs_in substr s.
Proof.
  unfold occurs_in. induction s as [|a s IH].
  - rewrite Contains_nil, orb_false_r, HasPrefix_spec. split.
    + intros [post H]. exists "", post. exact H.
    + intros [pre [post H]]. destruct pre; [exists post; exact H | discriminate].
  - rewrite Contains_cons, orb_true_iff, HasPrefix_spec, IH. split.
    + intros [[post H] | [pre [post H]]].
      * exists "", post. exact H.
      * exists (String a pre), post. simpl. now rewrite H.
    + intros [pre [post H]]. destruct pre as [|b pre]; simpl in H.
      * left. exists post. exact H.
      * right. exists pre, post. now injection H.
Qed.

Lemma Contains_false_spec (s substr : string) :
  Contains s substr = false <-> ~ occurs_in substr s.
Proof.
  rewrite <- Contains_spec. destruct (Contains s substr); split; intros H;
    try reflexivity; try discriminate; try (intros; discriminate).
  now elim H.
Qed.

Lemma occurs_in_nonempty (substr s : string) :
  occurs_in substr s -> (0 < String.length substr)%nat -> (0 < String.length s)%nat.
Proof.
  intros [pre [post ->]] Hlen.
  induction pre as [|a pre IH]; simpl; [|lia].
  destruct substr; simpl in *; lia.
Qed.

End ContainsSpec.

(** Turn every substring fact of the context into the value of the
    corresponding [Contains] test and rewrite with it. *)
Ltac contains_to_bool :=
  repeat match goal with
  | H : occurs_in _ _ |- _ => apply Contains_spec in H
  | H : ~ occurs_in _ _ |- _ => apply Contains_false_spec in H
  end.

Ltac case_contains name pat :=
  let E := fresh "E" in
  destruct (Contains name pat) eqn:E;
  [apply Contains_spec in E | apply Contains_false_spec in E].

(* ===================================================================== *)
(** ** Properties of the schedule descriptor                              *)
(* ===================================================================== *)

Lemma inferFromName_none (name : string) :
  matches_no_pattern name -> inferFromName name = None.
Proof.
  unfold matches_no_pattern, inferFromName.
  intros (Hiv & Hc & Hd & Hw & Hr & Hs & Hl & Hp & Hx & Ho1 & Ho2).
  contains_to_bool. rewrite Hc, Hd, Hw, Hr, Hs, Hl, Hp, Hx, Ho1, Ho2. simpl.
  destruct (0 <? String.length name)%nat; [|reflexivity].
  case_contains name "every"; case_contains name "interval"; simpl;
    try reflexivity;
    (case_contains name "10s"; [exfalso; apply Hiv; tauto|]);
    (case_contains name "10-s"; [exfalso; apply Hiv; tauto|]);
    (case_contains name "5s"; [exfalso; apply Hiv; tauto|]);
    (case_contains name "minute"; [exfalso; apply Hiv; tauto|]);
    reflexivity.
Qed.

Lemma Sub_add (t0 : Time) (d : Duration) :
  minDuration <= d <= maxDuration -> Sub (t0 + d) t0 = d.
Proof.
  intros H. unfold Sub. replace (t0 + d - t0) with d by (unfold Time, Duration in *; lia).
  destruct (Z.ltb_spec d minDuration); [lia|].
  destruct (Z.ltb_spec maxDuration d); [lia|reflexivity].
Qed.

Lemma whole_units_ok_spec unit word letter lo n k :
  whole_units_ok unit word letter lo n = true ->
  Z.of_nat lo <= k < Z.of_nat lo + Z.of_nat n ->
  inferFromInterval (k * unit) = interval_label k word letter.
Proof.
  unfold whole_units_ok. rewrite forallb_forall. intros Hall Hk.
  assert (Hin : In (Z.to_nat k) (seq lo n)) by (apply in_seq; lia).
  apply Hall in Hin. apply bool_decide_eq_true in Hin.
  rewrite Z2Nat.id in Hin by lia. exact Hin.
Qed.

Lemma whole_seconds k :
  0 <= k < 60 -> inferFromInterval (k * Second) = interval_label k "seconds" "s".
Proof.
  intros H. apply (whole_units_ok_spec Second "seconds" "s" 0 60);
    [vm_compute; reflexivity | simpl; lia].
Qed.

Lemma whole_minutes k :
  1 <= k < 60 -> inferFromInterval (k * Minute) = interval_label k "minutes" "m".
Proof.
  intros H. apply (whole_units_ok_spec Minute "minutes" "m" 1 59);
    [vm_compute; reflexivity | simpl; lia].
Qed.

Lemma whole_hours k :
  1 <= k < 24 -> inferFromInterval (k * Hour) = interval_label k "hours" "h".
Proof.
  intros H. apply (whole_units_ok_spec Hour "hours" "h" 1 23);
    [vm_compute; reflexivity | simpl; lia].
Qed.

Lemma whole_days k :
  1 <= k <= 366 -> inferFromInterval (k * (24 * Hour)) = interval_label k "days" "d".
Proof.
  intros H. apply (whole_units_ok_spec (24 * Hour) "days" "d" 1 366);
    [vm_compute; reflexivity | simpl; lia].
Qed.

Lemma inferFromName_daily (name : string) :
  occurs_in "daily" name -> ~ matches_before_daily name ->
  inferFromName name = Some ("Daily", "Daily schedule").
Proof.
  intros Hd Hb. unfold inferFromName.
  assert (Hlen : (0 <? String.length name)%nat = true).
  { apply Nat.ltb_lt. apply (occurs_in_nonempty "daily"); [exact Hd | simpl; lia]. }
  rewrite Hlen.
  assert (Hc : ~ occurs_in "cron" name) by (intros H; apply Hb; left; exact H).
  contains_to_bool. rewrite Hc, Hd.
  case_contains name "every"; case_contains name "interval"; simpl;
    try reflexivity;
    (case_contains name "10s"; [exfalso; apply Hb; right; tauto|]);
    (case_contains name "10-s"; [exfalso; apply Hb; right; tauto|]);
    (case_contains name "5s"; [exfalso; apply Hb; right; tauto|]);
    (case_contains name "minute"; [exfalso; apply Hb; right; tauto|]);
    reflexivity.
Qed.

(** C1, as the specification states it, fails: the job named
    "daily-cron-report" contains "daily", yet the "cron" row of the table
    comes first and the label is "Cron schedule". *)
Lemma daily_name_counterexample :
  let job := mkJob 7%N "daily-cron-report" [] (0, None) (0, None) (fun _ => ([], None)) in
  occurs_in "daily" (job_Name job) /\
  inferSchedule job [] = ("Cron schedule", "Cron: * * * * *") /\
  inferSchedule job [] <> ("Daily", "Daily schedule").
Proof.
  cbv zeta. split; [|split].
  - exists "", "-cron-report". reflexivity.
  - reflexivity.
  - discriminate.
Qed.

(** C1 (amended): a job whose name contains "daily" and matches no earlier
    row of the pattern table ("cron", or "every"/"interval" together with
    "10s", "10-s", "5s" or "minute") is labelled ("Daily", "Daily schedule")
    whatever its future run timestamps are. *)
Theorem daily_name_short_circuits (job : Job) (nextRuns : list Time) :
  occurs_in "daily" (job_Name job) ->
  ~ matches_before_daily (job_Name job) ->
  inferSchedule job nextRuns = ("Daily", "Daily schedule").
Proof.
  intros Hd Hb. unfold inferSchedule.
  now rewrite (inferFromName_daily _ Hd Hb).
Qed.

Lemma not_matches_before_daily_by_search (name : string) :
  Contains name "cron" = false ->
  (Contains name "every" || Contains name "interval") &&
  (Contains name "10s" || Contains name "10-s" ||
   Contains name "5s" || Contains name "minute") = false ->
  ~ matches_before_daily name.
Proof.
  intros Hc Hiv [H | [[H1 | H1] H2]]; contains_to_bool; try congruence;
    rewrite H1 in Hiv; simpl in Hiv; rewrite ?orb_true_l in Hiv;
    destruct H2 as [H2 | [H2 | [H2 | H2]]]; contains_to_bool;
    rewrite H2 in Hiv; rewrite ?orb_true_r in Hiv; simpl in Hiv;
    rewrite ?orb_true_r in Hiv; discriminate.
Qed.

Lemma daily_name_short_circuits_witness :
  let job := mkJob 7%N "daily-backup" [] (0, None) (0, None) (fun _ => ([], None)) in
  inferSchedule job [0; 10 * Second] = ("Daily", "Daily schedule").
Proof.
  cbv zeta. apply daily_name_short_circuits.
  - exists "", "-backup". reflexivity.
  - apply not_matches_before_daily_by_search; reflexivity.
Defined.

Lemma matches_no_pattern_by_search (name : string) :
  inferFromName name = None -> (0 < String.length name)%nat ->
  matches_no_pattern name.
Proof.
  unfold inferFromName. intros H Hlen.
  apply Nat.ltb_lt in Hlen. rewrite Hlen in H.
  unfold matches_no_pattern.
  case_contains name "cron"; [destruct (if _ : bool then _ else _); discriminate|].
  case_contains name "daily"; [destruct (if _ : bool then _ else _); discriminate|].
  case_contains name "weekly"; [destruct (if _ : bool then _ else _); discriminate|].
  case_contains name "random"; [destruct (if _ : bool then _ else _); discriminate|].
  case_contains name "singleton"; [destruct (if _ : bool then _ else _); discriminate|].
  case_contains name "limited"; [destruct (if _ : bool then _ else _); discriminate|].
  case_contains name "parameter"; [destruct (if _ : bool then _ else _); discriminate|].
  case_contains name "context"; [destruct (if _ : bool then _ else _); discriminate|].
  case_contains name "one-time"; [destruct (if _ : bool then _ else _); discriminate|].
  case_contains name "onetime"; [destruct (if _ : bool then _ else _); discriminate|].
  repeat split; try assumption.
  intros [Hei Hpat].
  assert (Hb : Contains name "every" || Contains name "interval" = true).
  { destruct Hei as [Hx | Hx]; contains_to_bool; rewrite Hx;
      [reflexivity | apply orb_true_r]. }
  rewrite Hb in H.
  destruct Hpat as [Hx | [Hx | [Hx | Hx]]]; contains_to_bool.
  - rewrite Hx in H. discriminate.
  - rewrite Hx, orb_true_r in H. discriminate.
  - rewrite Hx in H. destruct (_ || _); discriminate.
  - rewrite Hx in H. destruct (_ || _); [discriminate|].
    destruct (Contains name "5s"); discriminate.
Qed.

(** C2: for a job whose name matches no row of the pattern table, two or
    more future run timestamps give the label of the distance [d] between
    the first two, in the unit chosen by the thresholds d < 1 minute,
    d < 1 hour, d < 24 hours, else days: ("Every N <unit>",
    "Duration: N<letter>") with the same count N in both strings; whole
    numbers of seconds, minutes, hours and days are counted exactly, so two
    runs 10 seconds apart give ("Every 10 seconds", "Duration: 10s"); with
    fewer than two timestamps the label is ("Scheduled", "Custom schedule"). *)
Theorem interval_inference_fallback (job : Job) (nextRuns : list Time) :
  matches_no_pattern (job_Name job) ->
  (forall t0 t1 rest, nextRuns = t0 :: t1 :: rest ->
     let d := Sub t1 t0 in
     (d < Minute ->
        inferSchedule job nextRuns =
        interval_label (int_of_f64 (Seconds d)) "seconds" "s") /\
     (Minute <= d < Hour ->
        inferSchedule job nextRuns =
        interval_label (int_of_f64 (Minutes d)) "minutes" "m") /\
     (Hour <= d < 24 * Hour ->
        inferSchedule job nextRuns =
        interval_label (int_of_f64 (Hours d)) "hours" "h") /\
     (24 * Hour <= d ->
        inferSchedule job nextRuns =
        interval_label (int_of_f64 (f64_div (Hours d) (f64_of_int 24))) "days" "d")) /\
  (forall t0 rest k, nextRuns = t0 :: (t0 + k * Second) :: rest -> 0 <= k < 60 ->
     inferSchedule job nextRuns = interval_label k "seconds" "s") /\
  (forall t0 rest k, nextRuns = t0 :: (t0 + k * Minute) :: rest -> 1 <= k < 60 ->
     inferSchedule job nextRuns = interval_label k "minutes" "m") /\
  (forall t0 rest k, nextRuns = t0 :: (t0 + k * Hour) :: rest -> 1 <= k < 24 ->
     inferSchedule job nextRuns = interval_label k "hours" "h") /\
  (forall t0 rest k, nextRuns = t0 :: (t0 + k * (24 * Hour)) :: rest -> 1 <= k <= 366 ->
     inferSchedule job nextRuns = interval_label k "days" "d") /\
  (forall t0 rest, nextRuns = t0 :: (t0 + 10 * Second) :: rest ->
     inferSchedule job nextRuns = ("Every 10 seconds", "Duration: 10s")) /\
  ((length nextRuns < 2)%nat ->
     inferSchedule job nextRuns = ("Scheduled", "Custom schedule")).
Proof.
  intros Hno. unfold inferSchedule. rewrite (inferFromName_none _ Hno).
  assert (Hwhole : forall t0 rest k unit,
            minDuration <= k * unit <= maxDuration ->
            nextRuns = t0 :: (t0 + k * unit) :: rest ->
            match nextRuns with
            | t0 :: t1 :: _ => inferFromInterval (Sub t1 t0)
            | _ => ("Scheduled", "Custom schedule")
            end = inferFromInterval (k * unit)).
  { intros t0 rest k unit Hr ->. now rewrite Sub_add. }
  assert (HMH : Minute < Hour) by (vm_compute; reflexivity).
  assert (HHD : Hour < 24 * Hour) by (vm_compute; reflexivity).
  refine (conj _ (conj _ (conj _ (conj _ (conj _ (conj _ _)))))).
  - intros t0 t1 rest E. subst nextRuns. set (d := Sub t1 t0). unfold inferFromInterval.
    repeat split.
    + intros Hd. destruct (Z.ltb_spec d Minute); [reflexivity | lia].
    + intros [Hlo Hhi]. destruct (Z.ltb_spec d Minute); [lia|].
      destruct (Z.ltb_spec d Hour); [reflexivity | lia].
    + intros [Hlo Hhi]. destruct (Z.ltb_spec d Minute); [lia|].
      destruct (Z.ltb_spec d Hour); [lia|].
      destruct (Z.ltb_spec d (24 * Hour)); [reflexivity | lia].
    + intros Hlo. destruct (Z.ltb_spec d Minute); [lia|].
      destruct (Z.ltb_spec d Hour); [lia|].
      destruct (Z.ltb_spec d (24 * Hour)); [lia | reflexivity].
  - intros t0 rest k E Hk. rewrite (Hwhole t0 rest k Second); [now apply whole_seconds| |exact E].
    unfold minDuration, maxDuration, Second. lia.
  - intros t0 rest k E Hk. rewrite (Hwhole t0 rest k Minute); [now apply whole_minutes| |exact E].
    unfold minDuration, maxDuration, Minute, Second. lia.
  - intros t0 rest k E Hk. rewrite (Hwhole t0 rest k Hour); [now apply whole_hours| |exact E].
    unfold minDuration, maxDuration, Hour, Minute, Second. lia.
  - intros t0 rest k E Hk. rewrite (Hwhole t0 rest k (24 * Hour)); [now apply whole_days| |exact E].
    unfold minDuration, maxDuration, Hour, Minute, Second. lia.
  - intros t0 rest E. rewrite (Hwhole t0 rest 10 Second); [reflexivity| |exact E].
    unfold minDuration, maxDuration, Second. lia.
  - intros Hlen. destruct nextRuns as [|t0 [|t1 rest]]; simpl in Hlen; try reflexivity; lia.
Qed.

Lemma interval_inference_fallback_witness :
  let job := mkJob 7%N "heartbeat" [] (0, None) (0, None) (fun _ => ([], None)) in
  inferSchedule job [1000; 1000 + 10 * Second] = ("Every 10 seconds", "Duration: 10s") /\
  inferSchedule job [1000; 1000 + 90 * Second] = ("Every 1 minutes", "Duration: 1m") /\
  inferSchedule job [1000] = ("Scheduled", "Custom schedule").
Proof.
  cbv zeta.
  assert (Hno : matches_no_pattern "heartbeat")
    by (apply matches_no_pattern_by_search; [reflexivity | simpl; lia]).
  split; [|split].
  - destruct (interval_inference_fallback
             (mkJob 7%N "heartbeat" [] (0, None) (0, None) (fun _ => ([], None)))
             [1000; 1000 + 10 * Second] Hno) as (_ & _ & _ & _ & _ & H10 & _).
    exact (H10 1000 [] eq_refl).
  - destruct (interval_inference_fallback
             (mkJob 7%N "heartbeat" [] (0, None) (0, None) (fun _ => ([], None)))
             [1000; 1000 + 90 * Second] Hno) as [H _].
    destruct (H 1000 (1000 + 90 * Second) [] eq_refl) as (_ & Hm & _).
    rewrite Hm; [reflexivity | vm_compute; split; [discriminate | reflexivity]].
  - destruct (interval_inference_fallback
             (mkJob 7%N "heartbeat" [] (0, None) (0, None) (fun _ => ([], None)))
             [1000] Hno) as (_ & _ & _ & _ & _ & _ & Hfew).
    apply Hfew. simpl. lia.
Defined.

(* ===================================================================== *)
(** ** Properties of the control API                                      *)
(* ===================================================================== *)

Section ControlAPI.

Context {S : Type}.
Variable L : GoLibs.
Variable sch : Scheduler S.

Lemma error_message_respondError (status : Z) (message : string) :
  error_message (respondError status message) = Some message.
Proof. unfold error_message, respondError, respondJSON. simpl. apply lookup_singleton_eq. Qed.

Lemma jobDefinitionOf_invalid (req : CreateJobRequest) :
  req_Name req <> "" -> invalid_create_request req ->
  exists message, jobDefinitionOf req = inl (respondError StatusBadRequest message).
Proof.
  intros Hname [H | [[Ht Hi] | [[Ht Hc] | [[Ht Hd] | (Hn1 & Hn2 & Hn3)]]]];
    [contradiction | | | |]; unfold jobDefinitionOf.
  - rewrite Ht. simpl. destruct (Z.leb_spec (req_Interval req) 0); [eauto | lia].
  - rewrite Ht, Hc. simpl. eauto.
  - rewrite Ht. simpl.
    destruct (Z.leb_spec (req_Interval req) 0); [eauto|].
    destruct (String.eqb_spec (req_AtTime req) ""); [eauto|].
    destruct Hd as [Hd | [Hd | [e Hd]]]; [lia | contradiction |].
    rewrite Hd. eauto.
  - destruct (String.eqb_spec (req_Type req) "duration"); [contradiction|].
    destruct (String.eqb_spec (req_Type req) "cron"); [contradiction|].
    destruct (String.eqb_spec (req_Type req) "daily"); [contradiction|].
    eauto.
Qed.

Lemma jobDefinitionOf_unsupported (req : CreateJobRequest) :
  req_Type req <> "duration" -> req_Type req <> "cron" -> req_Type req <> "daily" ->
  jobDefinitionOf req =
  inl (respondError StatusBadRequest "Invalid job type. Supported: duration, cron, daily").
Proof.
  intros Hn1 Hn2 Hn3. unfold jobDefinitionOf.
  destruct (String.eqb_spec (req_Type req) "duration"); [contradiction|].
  destruct (String.eqb_spec (req_Type req) "cron"); [contradiction|].
  destruct (String.eqb_spec (req_Type req) "daily"); [contradiction|].
  reflexivity.
Qed.

(** C3: a create-job request that fails validation (empty name; duration
    with interval <= 0; cron with empty expression; daily with interval <= 0
    or an empty or unparseable atTime; any type other than duration, cron
    and daily, weekly and monthly included) gets status 400 with an error
    body, and the world after the handler is the world before it: no call
    into the scheduler is made, NewJob in particular.  An empty name gets
    the message "Job name is required"; an undecodable body gets 400 too. *)
Theorem create_validation_fails_fast (req : CreateJobRequest) (w : World S) :
  invalid_create_request req ->
  let out := CreateJob L sch (Ok req) w in
  resp_status (fst out) = 400 /\
  (exists message, error_message (fst out) = Some message) /\
  snd out = w /\
  sched_calls (w_trace (snd out)) = sched_calls (w_trace w) /\
  (req_Name req = "" ->
   fst out = respondError 400 "Job name is required" /\
   resp_body (fst out) = BodyMap {[ "error" := "Job name is required" ]}) /\
  (req_Name req <> "" -> req_Type req = "weekly" \/ req_Type req = "monthly" ->
   fst out = respondError 400 "Invalid job type. Supported: duration, cron, daily") /\
  (forall e, CreateJob L sch (Err e) w = (respondError 400 "Invalid request body", w)).
Proof.
  intros Hinv out.
  assert (Hout : exists message, out = (respondError StatusBadRequest message, w)).
  { subst out. unfold CreateJob.
    destruct (String.eqb_spec (req_Name req) "") as [Hn | Hn]; [unfold ret; eauto|].
    destruct (jobDefinitionOf_invalid req Hn Hinv) as [message ->]. unfold ret. eauto. }
  destruct Hout as [message Hout].
  refine (conj _ (conj _ (conj _ (conj _ (conj _ (conj _ _)))))).
  - now rewrite Hout.
  - exists message. rewrite Hout. apply error_message_respondError.
  - now rewrite Hout.
  - now rewrite Hout.
  - intros Hn. subst out. unfold CreateJob. rewrite Hn. split; reflexivity.
  - intros Hn Hty. subst out. unfold CreateJob.
    destruct (String.eqb_spec (req_Name req) ""); [contradiction|].
    rewrite jobDefinitionOf_unsupported; [reflexivity | | |];
      destruct Hty as [-> | ->]; discriminate.
  - reflexivity.
Qed.

(** A request that passes validation reaches the scheduler exactly once. *)
Lemma create_valid_calls_NewJob (req : CreateJobRequest) (jobDef : JobDefinition)
    (w : World S) :
  req_Name req <> "" -> jobDefinitionOf req = inr jobDef ->
  w_trace (snd (CreateJob L sch (Ok req) w)) =
  (w_trace w ++ [EvSched (CallNewJob jobDef (NewTask_log (req_Name req)) (jobOptionsOf req))])%list.
Proof.
  intros Hn Hdef. unfold CreateJob.
  destruct (String.eqb_spec (req_Name req) ""); [contradiction|].
  rewrite Hdef. unfold bind, call_NewJob, bind, emit, ret. simpl.
  destruct (sched_NewJob sch jobDef _ _ (w_sched w)) as [[job | e] s']; reflexivity.
Qed.

Lemma findJob_none (id : UUID) (jobs : list Job) :
  no_job_with id jobs -> findJob id jobs = None.
Proof.
  induction 1 as [|j jobs Hj _ IH]; simpl; [reflexivity|].
  destruct (N.eqb_spec (job_ID j) id); [contradiction | exact IH].
Qed.

Lemma DeleteJob_run (idStr : string) (id : UUID) (w : World S) :
  uuid_Parse L idStr = Ok id ->
  DeleteJob L sch idStr w =
  (match fst (sched_RemoveJob sch id (w_sched w)) with
   | Some _ => respondError StatusNotFound "Job not found"
   | None => respondJSON StatusOK (BodyMap {[ "message" := "Job deleted successfully" ]})
   end,
   mkWorld (snd (sched_RemoveJob sch id (w_sched w))) (wsClients w)
           (w_trace w ++ [EvSched (CallRemoveJob id)])%list).
Proof.
  intros Hp. unfold DeleteJob. rewrite Hp.
  unfold bind, call_RemoveJob, bind, emit, ret. simpl.
  destruct (sched_RemoveJob sch id (w_sched w)) as [[e|] s']; reflexivity.
Qed.

(** C4: get-job and delete-job answer 400 "Invalid job ID" for an
    identifier that [uuid.Parse] refuses, and leave the world as it was (the
    scheduler is not consulted); for a well-formed identifier of no current
    job, get-job answers 404, and delete-job answers 404 when the scheduler
    reports an error for an unknown job; after a delete that succeeded, a
    second delete of the same identifier answers 404. *)
Theorem id_operations_errors (idStr : string) (w : World S) :
  (forall e, uuid_Parse L idStr = Err e ->
     GetJob L sch idStr w = (respondError 400 "Invalid job ID", w) /\
     DeleteJob L sch idStr w = (respondError 400 "Invalid job ID", w)) /\
  (forall id, uuid_Parse L idStr = Ok id ->
     no_job_with id (sched_Jobs sch (w_sched w)) ->
     fst (GetJob L sch idStr w) = respondError 404 "Job not found" /\
     (RemoveJob_contract sch ->
      fst (DeleteJob L sch idStr w) = respondError 404 "Job not found")) /\
  (forall id, uuid_Parse L idStr = Ok id -> RemoveJob_contract sch ->
     let first := DeleteJob L sch idStr w in
     resp_status (fst first) = 200 ->
     fst (DeleteJob L sch idStr (snd first)) = respondError 404 "Job not found").
Proof.
  split; [|split].
  - intros e He. unfold GetJob, DeleteJob. rewrite He. split; reflexivity.
  - intros id Hid Hno. split.
    + unfold GetJob. rewrite Hid. unfold bind, call_Jobs, bind, emit, ret. simpl.
      now rewrite (findJob_none _ _ Hno).
    + intros [Habsent _]. rewrite (DeleteJob_run _ _ _ Hid). simpl.
      destruct (Habsent id (w_sched w) Hno) as [e ->]. reflexivity.
  - intros id Hid [Habsent Hgone] first Hfirst. subst first.
    rewrite (DeleteJob_run _ _ _ Hid) in Hfirst.
    rewrite !(DeleteJob_run _ _ _ Hid). simpl in *.
    destruct (fst (sched_RemoveJob sch id (w_sched w))) eqn:E1;
      [cbv in Hfirst; discriminate Hfirst|].
    destruct (Habsent id _ (Hgone id (w_sched w) E1)) as [e ->]. reflexivity.
Qed.

(** C5 (amended): when the scheduler returns an error to a request that
    passed validation, create-job, run-job and stop-scheduler answer 500
    with the scheduler's own error text, after a single call (no retry:
    the trace gains exactly the one NewJob call, the Jobs query and the one
    RunNow call, or the one StopJobs call); delete-job answers 404 with the fixed message "Job not found" whatever
    the text of the scheduler's error is. *)
Theorem scheduler_errors_surface (w : World S) (e : error) :
  (forall req jobDef, req_Name req <> "" -> jobDefinitionOf req = inr jobDef ->
     fst (sched_NewJob sch jobDef (NewTask_log (req_Name req)) (jobOptionsOf req)
            (w_sched w)) = Err e ->
     fst (CreateJob L sch (Ok req) w) = respondError 500 e /\
     error_message (fst (CreateJob L sch (Ok req) w)) = Some e /\
     w_trace (snd (CreateJob L sch (Ok req) w)) =
     (w_trace w ++ [EvSched (CallNewJob jobDef (NewTask_log (req_Name req))
                               (jobOptionsOf req))])%list) /\
  (forall idStr id job, uuid_Parse L idStr = Ok id ->
     findJob id (sched_Jobs sch (w_sched w)) = Some job ->
     fst (sched_RunNow sch job (w_sched w)) = Some e ->
     fst (RunJob L sch idStr w) = respondError 500 e /\
     error_message (fst (RunJob L sch idStr w)) = Some e /\
     w_trace (snd (RunJob L sch idStr w)) =
     (w_trace w ++ [EvSched CallJobs; EvSched (CallRunNow (job_ID job))])%list) /\
  (fst (sched_StopJobs sch (w_sched w)) = Some e ->
     fst (StopScheduler sch w) = respondError 500 e /\
     error_message (fst (StopScheduler sch w)) = Some e /\
     w_trace (snd (StopScheduler sch w)) =
     (w_trace w ++ [EvSched CallStopJobs])%list /\
     w_sched (snd (StopScheduler sch w)) = snd (sched_StopJobs sch (w_sched w))) /\
  (forall idStr id, uuid_Parse L idStr = Ok id ->
     fst (sched_RemoveJob sch id (w_sched w)) = Some e ->
     fst (DeleteJob L sch idStr w) = respondError 404 "Job not found" /\
     error_message (fst (DeleteJob L sch idStr w)) = Some "Job not found" /\
     w_trace (snd (DeleteJob L sch idStr w)) =
     (w_trace w ++ [EvSched (CallRemoveJob id)])%list).
Proof.
  split; [|split; [|split]].
  - intros req jobDef Hn Hdef Herr.
    assert (Hr : fst (CreateJob L sch (Ok req) w) = respondError 500 e).
    { unfold CreateJob. destruct (String.eqb_spec (req_Name req) ""); [contradiction|].
      rewrite Hdef. unfold bind, call_NewJob, bind, emit, ret. simpl.
      destruct (sched_NewJob sch jobDef _ _ (w_sched w)) as [r s']. simpl in Herr.
      subst r. reflexivity. }
    split; [exact Hr | split].
    + rewrite Hr. apply error_message_respondError.
    + now apply create_valid_calls_NewJob.
  - intros idStr id job Hid Hfind Herr.
    assert (Hr : RunJob L sch idStr w =
                 (respondError 500 e,
                  mkWorld (snd (sched_RunNow sch job (w_sched w))) (wsClients w)
                    (w_trace w ++ [EvSched CallJobs; EvSched (CallRunNow (job_ID job))])%list)).
    { unfold RunJob. rewrite Hid. unfold bind, call_Jobs, bind, emit, ret. simpl.
      rewrite Hfind. unfold call_RunNow, bind, emit. simpl.
      destruct (sched_RunNow sch job (w_sched w)) as [r s']. simpl in Herr. subst r.
      simpl. now rewrite <- app_assoc. }
    rewrite Hr. simpl. split; [reflexivity | split; [|reflexivity]].
    apply error_message_respondError.
  - intros Herr.
    assert (Hr : StopScheduler sch w =
                 (respondError 500 e,
                  mkWorld (snd (sched_StopJobs sch (w_sched w))) (wsClients w)
                    (w_trace w ++ [EvSched CallStopJobs])%list)).
    { unfold StopScheduler, bind, call_StopJobs, bind, emit, ret. simpl.
      destruct (sched_StopJobs sch (w_sched w)) as [r s']. simpl in Herr. subst r.
      reflexivity. }
    rewrite Hr. simpl.
    split; [reflexivity | split; [|split; reflexivity]].
    apply error_message_respondError.
  - intros idStr id Hid Herr. rewrite (DeleteJob_run _ _ _ Hid). simpl. rewrite Herr.
    split; [reflexivity | split; [|reflexivity]].
    apply (error_message_respondError StatusNotFound).
Qed.

(** C10: start-scheduler answers 200 with the message "Scheduler started"
    in every world; stop-scheduler answers 500 exactly when the scheduler's
    StopJobs returns an error, and 200 with "Scheduler stopped" otherwise. *)
Theorem start_never_fails_stop_may (w : World S) :
  fst (StartScheduler sch w) =
    respondJSON 200 (BodyMap {[ "message" := "Scheduler started" ]}) /\
  resp_status (fst (StartScheduler sch w)) = 200 /\
  resp_status (fst (StartScheduler sch w)) <> 500 /\
  (resp_status (fst (StopScheduler sch w)) = 500 <->
   exists e, fst (sched_StopJobs sch (w_sched w)) = Some e) /\
  (resp_status (fst (StopScheduler sch w)) = 200 <->
   fst (sched_StopJobs sch (w_sched w)) = None) /\
  (fst (sched_StopJobs sch (w_sched w)) = None ->
   fst (StopScheduler sch w) =
     respondJSON 200 (BodyMap {[ "message" := "Scheduler stopped" ]})).
Proof.
  split; [reflexivity | split; [reflexivity | split; [discriminate|]]].
  unfold StopScheduler, bind, call_StopJobs, bind, emit, ret. simpl.
  destruct (sched_StopJobs sch (w_sched w)) as [[e|] s']; simpl.
  - split; [|split].
    + split; [eauto | reflexivity].
    + split; discriminate.
    + discriminate.
  - split; [|split].
    + split; [discriminate | intros [e He]; discriminate].
    + split; reflexivity.
    + reflexivity.
Qed.

End ControlAPI.

(* ===================================================================== *)
(** ** Properties of [parseTime]                                          *)
(* ===================================================================== *)

Lemma Date0_clock (h m s ns : Z) :
  0 <= h < 24 -> 0 <= m < 60 -> 0 <= s < 60 -> 0 <= ns < Second ->
  Hour_of (GoTimeParse.Date0 (GoTimeParse.mkFields h m s ns)) = h /\
  Minute_of (GoTimeParse.Date0 (GoTimeParse.mkFields h m s ns)) = m /\
  Second_of (GoTimeParse.Date0 (GoTimeParse.mkFields h m s ns)) = s.
Proof.
  intros Hh Hm Hs Hns.
  unfold Hour_of, Minute_of, Second_of, GoTimeParse.Date0, Second in *. simpl.
  assert (Hq : (- (366 * 86400) * 1000000000 + ((h * 60 + m) * 60 + s) * 1000000000 + ns)
               / 1000000000 = - (366 * 86400) + ((h * 60 + m) * 60 + s)).
  { symmetry. apply (Z.div_unique _ _ _ ns); lia. }
  rewrite Hq. repeat split.
  - assert (Hr : (- (366 * 86400) + ((h * 60 + m) * 60 + s)) mod 86400
                 = (h * 60 + m) * 60 + s).
    { symmetry. apply (Z.mod_unique _ _ (-366)); lia. }
    rewrite Hr. symmetry. apply (Z.div_unique _ _ _ (m * 60 + s)); lia.
  - assert (Hr : (- (366 * 86400) + ((h * 60 + m) * 60 + s)) mod 3600 = m * 60 + s).
    { symmetry. apply (Z.mod_unique _ _ (-366 * 24 + h)); lia. }
    rewrite Hr. symmetry. apply (Z.div_unique _ _ _ s); lia.
  - symmetry. apply (Z.mod_unique _ _ (-366 * 1440 + h * 60 + m)); lia.
Qed.

(** What the layout without seconds accepts sets hours and minutes only. *)
Lemma Parse_hm_inv (value : string) (t : Time) :
  GoTimeParse.Parse "15:04" value = Ok t ->
  exists h m, 0 <= h < 24 /\ 0 <= m < 60 /\
              t = GoTimeParse.Date0 (GoTimeParse.mkFields h m 0 0).
Proof.
  unfold GoTimeParse.Parse. cbn -[GoTimeParse.getnum GoTimeParse.Date0 Z.ltb Z.leb].
  destruct (GoTimeParse.getnum value false) as [[h v]|]; [|discriminate].
  destruct (Z.ltb_spec h 0); [discriminate|].
  destruct (Z.leb_spec 24 h); [discriminate|]. cbn -[GoTimeParse.getnum GoTimeParse.Date0 Z.ltb Z.leb].
  destruct v as [|c v]; [discriminate|].
  destruct (Ascii.eqb c ":"); [|discriminate].
  cbn -[GoTimeParse.getnum GoTimeParse.Date0 Z.ltb Z.leb].
  destruct (GoTimeParse.getnum v true) as [[m v']|]; [|discriminate].
  destruct (Z.ltb_spec m 0); [discriminate|].
  destruct (Z.leb_spec 60 m); [discriminate|]. cbn -[GoTimeParse.Date0].
  destruct v'; [|discriminate].
  intros E. injection E as <-. exists h, m. repeat split; lia.
Qed.

Lemma digit_char (k : Z) :
  0 <= k < 10 ->
  GoTimeParse.isDigit (ascii_of_nat (Z.to_nat (48 + k))) = true /\
  GoTimeParse.digit (ascii_of_nat (Z.to_nat (48 + k))) = k.
Proof.
  intros Hk. unfold GoTimeParse.isDigit, GoTimeParse.digit.
  rewrite nat_ascii_embedding by lia. rewrite Z2Nat.id by lia.
  split; [|lia]. apply andb_true_iff. split; apply Z.leb_le; lia.
Qed.

Lemma append_cons (a : ascii) (s r : string) : String a s +:+ r = String a (s +:+ r).
Proof. reflexivity. Qed.

Lemma append_nil (r : string) : "" +:+ r = r.
Proof. reflexivity. Qed.

Lemma getnum_two_digits (n : Z) (rest : string) (fixed : bool) :
  0 <= n < 100 -> GoTimeParse.getnum (two_digits n +:+ rest) fixed = Some (n, rest).
Proof.
  intros Hn. unfold two_digits. rewrite !append_cons, append_nil.
  unfold GoTimeParse.getnum.
  destruct (digit_char (n / 10)) as [-> ->];
    [split; [apply Z.div_pos; lia | apply Z.div_lt_upper_bound; lia]|].
  destruct (digit_char (n mod 10)) as [-> ->]; [apply Z.mod_pos_bound; lia|].
  do 2 f_equal. pose proof (Z.div_mod n 10). lia.
Qed.

Ltac in_range :=
  match goal with
  | |- context [(?a <? ?b) || (?c <=? ?d)] =>
    destruct (Z.ltb_spec a b); [lia|]; destruct (Z.leb_spec c d); [lia|]
  end.

Ltac parse_step :=
  cbn -[GoTimeParse.getnum GoTimeParse.Date0 Z.ltb Z.leb two_digits].

Ltac next_literal := rewrite append_cons, append_nil; parse_step.

Ltac next_number :=
  rewrite getnum_two_digits by lia; in_range; parse_step.

Ltac last_number n :=
  change (two_digits n) with (two_digits n +:+ ""); next_number.

Lemma Parse_hm_clock (h m : Z) :
  0 <= h < 24 -> 0 <= m < 60 ->
  GoTimeParse.Parse "15:04" (clock_hm h m)
  = Ok (GoTimeParse.Date0 (GoTimeParse.mkFields h m 0 0)).
Proof.
  intros Hh Hm. unfold GoTimeParse.Parse, clock_hm. parse_step.
  next_number. next_literal. last_number m. reflexivity.
Qed.

Lemma Parse_hms_clock_hm (h m : Z) :
  0 <= h < 24 -> 0 <= m < 60 ->
  exists e, GoTimeParse.Parse "15:04:05" (clock_hm h m) = Err e.
Proof.
  intros Hh Hm. unfold GoTimeParse.Parse, clock_hm. parse_step.
  next_number. next_literal. last_number m. eauto.
Qed.

Lemma Parse_hms_clock (h m s : Z) :
  0 <= h < 24 -> 0 <= m < 60 -> 0 <= s < 60 ->
  GoTimeParse.Parse "15:04:05" (clock_hms h m s)
  = Ok (GoTimeParse.Date0 (GoTimeParse.mkFields h m s 0)).
Proof.
  intros Hh Hm Hs. unfold GoTimeParse.Parse, clock_hms. parse_step.
  next_number. next_literal. next_number. next_literal. last_number s. reflexivity.
Qed.

Lemma clock_hm_parses (h m : Z) :
  0 <= h < 24 -> 0 <= m < 60 ->
  (exists e, GoTimeParse.Parse "15:04:05" (clock_hm h m) = Err e) /\
  parseTime (clock_hm h m) = Ok (NewAtTime h m 0).
Proof.
  intros Hh Hm. split; [now apply Parse_hms_clock_hm|].
  destruct (Parse_hms_clock_hm h m Hh Hm) as [e He].
  unfold parseTime. rewrite He, Parse_hm_clock by assumption.
  destruct (Date0_clock h m 0 0 Hh Hm) as (-> & -> & ->);
    [lia | unfold Second; lia | reflexivity].
Qed.

Lemma clock_hms_parses (h m s : Z) :
  0 <= h < 24 -> 0 <= m < 60 -> 0 <= s < 60 ->
  (exists t, GoTimeParse.Parse "15:04:05" (clock_hms h m s) = Ok t) /\
  parseTime (clock_hms h m s) = Ok (NewAtTime h m s).
Proof.
  intros Hh Hm Hs. split; [rewrite Parse_hms_clock by assumption; eauto|].
  unfold parseTime. rewrite Parse_hms_clock by assumption.
  destruct (Date0_clock h m s 0 Hh Hm Hs) as (-> & -> & ->);
    [unfold Second; lia | reflexivity].
Qed.

Section ParseTime.

Context {S : Type}.
Variable L : GoLibs.
Variable sch : Scheduler S.

(** C6: [parseTime] reads the string with the layout with seconds first,
    and its result is that of this attempt whenever it succeeds; only when
    it fails is the layout without seconds tried, and what that one accepts
    has seconds 0; when both fail the error is returned.  Every "HH:MM" is
    refused by the first layout and accepted by the second, every
    "HH:MM:SS" is accepted by the first; so a daily job with atTime "14:30"
    passes validation with the time 14:30:00 and is created when the
    scheduler accepts it. *)
Theorem parseTime_seconds_then_minutes :
  (forall value t, GoTimeParse.Parse "15:04:05" value = Ok t ->
     parseTime value = Ok (NewAtTime (Hour_of t) (Minute_of t) (Second_of t))) /\
  (forall value e t, GoTimeParse.Parse "15:04:05" value = Err e ->
     GoTimeParse.Parse "15:04" value = Ok t ->
     parseTime value = Ok (NewAtTime (Hour_of t) (Minute_of t) 0)) /\
  (forall value e e', GoTimeParse.Parse "15:04:05" value = Err e ->
     GoTimeParse.Parse "15:04" value = Err e' -> parseTime value = Err e') /\
  (forall h m, 0 <= h < 24 -> 0 <= m < 60 ->
     (exists e, GoTimeParse.Parse "15:04:05" (clock_hm h m) = Err e) /\
     parseTime (clock_hm h m) = Ok (NewAtTime h m 0)) /\
  (forall h m s, 0 <= h < 24 -> 0 <= m < 60 -> 0 <= s < 60 ->
     (exists t, GoTimeParse.Parse "15:04:05" (clock_hms h m s) = Ok t) /\
     parseTime (clock_hms h m s) = Ok (NewAtTime h m s)) /\
  (let req := mkCreateJobRequest "x" "daily" 1 "" "14:30" [] in
   parseTime "14:30" = Ok (NewAtTime 14 30 0) /\
   jobDefinitionOf req = inr (DailyJob 1 [NewAtTime 14 30 0]) /\
   forall (w : World S) job s',
     sched_NewJob sch (DailyJob 1 [NewAtTime 14 30 0]) (NewTask_log "x")
       [WithName "x"] (w_sched w) = (Ok job, s') ->
     fst (CreateJob L sch (Ok req) w) =
     respondJSON 201 (BodyJob (convertJobToData L job))).
Proof.
  refine (conj _ (conj _ (conj _ (conj _ (conj _ _))))).
  - intros value t Ht. unfold parseTime. now rewrite Ht.
  - intros value e t He Ht. unfold parseTime. rewrite He, Ht.
    destruct (Parse_hm_inv _ _ Ht) as (h & m & Hh & Hm & ->).
    destruct (Date0_clock h m 0 0 Hh Hm) as (_ & _ & ->);
      [lia | unfold Second; lia | reflexivity].
  - intros value e e' He He'. unfold parseTime. now rewrite He, He'.
  - exact clock_hm_parses.
  - exact clock_hms_parses.
  - cbv zeta.
    assert (Hdef : jobDefinitionOf (mkCreateJobRequest "x" "daily" 1 "" "14:30" [])
                   = inr (DailyJob 1 [NewAtTime 14 30 0])) by (vm_compute; reflexivity).
    split; [vm_compute; reflexivity | split; [exact Hdef|]].
    intros w job s' Hnew. unfold CreateJob. rewrite Hdef.
    change (jobOptionsOf (mkCreateJobRequest "x" "daily" 1 "" "14:30" []))
      with [WithName "x"].
    cbn [req_Name String.eqb Ascii.eqb Bool.eqb].
    unfold bind, call_NewJob, bind, emit, ret.
    cbn [w_sched fst snd]. rewrite Hnew. reflexivity.
Qed.

End ParseTime.

(* ===================================================================== *)
(** ** Properties of the snapshot builder                                 *)
(* ===================================================================== *)

Lemma sorted_lookup_le (l : list Z) (i j : nat) (a b : Z) :
  Sorted Z.le l -> (i <= j)%nat -> l !! i = Some a -> l !! j = Some b -> a <= b.
Proof.
  intros Hs. apply Sorted_StronglySorted in Hs; [|intros x y z; apply Z.le_trans].
  revert i j. induction Hs as [|x l Hs IH Hall]; intros i j Hij Hi Hj; [discriminate|].
  destruct i as [|i], j as [|j]; simpl in *.
  - injection Hi as <-. injection Hj as <-. lia.
  - injection Hi as <-. rewrite Forall_forall in Hall.
    apply Hall, list_elem_of_lookup. eauto.
  - lia.
  - apply (IH i j); [lia | assumption ..].
Qed.

Lemma map_lookup_inv {A B : Type} (f : A -> B) (l : list A) (i : nat) (y : B) :
  map f l !! i = Some y -> exists x, l !! i = Some x /\ y = f x.
Proof.
  revert i. induction l as [|x l IH]; intros [|i] H; simpl in *; try discriminate.
  - injection H as <-. eauto.
  - apply IH, H.
Qed.

Section Snapshot.

Variable L : GoLibs.

Lemma convertJobToData_fields (job : Job) :
  jd_NextRun (convertJobToData L job) = formatTime L (fst (job_NextRun job)) /\
  jd_LastRun (convertJobToData L job) = formatTime L (fst (job_LastRun job)) /\
  jd_NextRuns (convertJobToData L job) = formatTimes L (fst (job_NextRuns job 5)).
Proof.
  unfold convertJobToData. destruct (inferSchedule job _). simpl. repeat split.
Qed.

(** C7: in the snapshot of a job, a zero nextRun or lastRun is rendered
    as the empty string and any other instant with the layout RFC3339; the
    snapshot builder asks for 5 future runs, so with a scheduler that
    returns at most the requested number of instants, soonest first,
    nextRuns has at most 5 entries, each the rendering of the run at the
    same position, and the instants rendered are non-decreasing. *)
Theorem snapshot_timestamps (job : Job) :
  NextRuns_contract job ->
  let d := convertJobToData L job in
  (IsZero (fst (job_NextRun job)) = true -> jd_NextRun d = "") /\
  (IsZero (fst (job_NextRun job)) = false ->
   jd_NextRun d = time_Format L (fst (job_NextRun job)) RFC3339) /\
  (IsZero (fst (job_LastRun job)) = true -> jd_LastRun d = "") /\
  (IsZero (fst (job_LastRun job)) = false ->
   jd_LastRun d = time_Format L (fst (job_LastRun job)) RFC3339) /\
  (List.length (jd_NextRuns d) <= 5)%nat /\
  jd_NextRuns d = map (formatTime L) (fst (job_NextRuns job 5)) /\
  (forall i j si sj, (i <= j)%nat ->
     jd_NextRuns d !! i = Some si -> jd_NextRuns d !! j = Some sj ->
     exists ti tj,
       fst (job_NextRuns job 5) !! i = Some ti /\
       fst (job_NextRuns job 5) !! j = Some tj /\
       si = formatTime L ti /\ sj = formatTime L tj /\ ti <= tj).
Proof.
  intros Hc d. subst d.
  destruct (convertJobToData_fields job) as (-> & -> & ->).
  destruct (Hc 5) as [Hlen Hsorted]; [lia|].
  unfold formatTime, formatTimes.
  refine (conj _ (conj _ (conj _ (conj _ (conj _ (conj _ _)))))).
  - now intros ->.
  - now intros ->.
  - now intros ->.
  - now intros ->.
  - rewrite length_map. exact Hlen.
  - reflexivity.
  - intros i j si sj Hij Hi Hj.
    destruct (map_lookup_inv _ _ _ _ Hi) as (ti & Hti & ->).
    destruct (map_lookup_inv _ _ _ _ Hj) as (tj & Htj & ->).
    exists ti, tj. repeat split; try assumption.
    exact (sorted_lookup_le _ _ _ _ _ Hsorted Hij Hti Htj).
Qed.

End Snapshot.

(* ===================================================================== *)
(** ** Properties of the connection registry and the broadcast loop       *)
(* ===================================================================== *)

Lemma count_Jobs_app (t1 t2 : list Event) :
  count_Jobs (t1 ++ t2) = (count_Jobs t1 + count_Jobs t2)%nat.
Proof.
  induction t1 as [|e t1 IH]; simpl; [reflexivity|].
  destruct e as [[]| |]; simpl; rewrite IH; reflexivity.
Qed.

Section Registry.

Context {S : Type}.
Variable L : GoLibs.
Variable sch : Scheduler S.

Lemma broadcastTo_count_Jobs (writeFails : Conn -> bool) (message : Message)
    (clients : list Conn) (w : World S) :
  count_Jobs (w_trace (snd (broadcastTo writeFails message clients w)))
  = count_Jobs (w_trace w).
Proof.
  revert w. induction clients as [|c clients IH]; intros w; [reflexivity|].
  simpl. unfold bind, emit, removeClient, ret. simpl.
  destruct (writeFails c); simpl; rewrite IH; simpl;
    rewrite !count_Jobs_app; simpl; lia.
Qed.

Lemma broadcastTo_keeps_absent (writeFails : Conn -> bool) (message : Message)
    (clients : list Conn) (w : World S) (conn : Conn) :
  wsClients w !! conn = None ->
  wsClients (snd (broadcastTo writeFails message clients w)) !! conn = None.
Proof.
  revert w. induction clients as [|c clients IH]; intros w Hw; [exact Hw|].
  simpl. unfold bind, emit, removeClient, ret. simpl.
  destruct (writeFails c); simpl; apply IH; simpl; [|exact Hw].
  destruct (decide (c = conn)) as [->|Hne];
    [apply lookup_delete_eq | rewrite lookup_delete_ne; assumption].
Qed.

Lemma broadcastTo_prunes (writeFails : Conn -> bool) (message : Message)
    (clients : list Conn) (w : World S) (conn : Conn) :
  conn ∈ clients -> writeFails conn = true ->
  wsClients (snd (broadcastTo writeFails message clients w)) !! conn = None.
Proof.
  intros Hin Hfail. revert w.
  induction clients as [|c clients IH]; intros w; [inversion Hin|].
  simpl. unfold bind, emit, removeClient, ret. simpl.
  destruct (decide (c = conn)) as [->|Hne].
  - rewrite Hfail. simpl. apply broadcastTo_keeps_absent. simpl. apply lookup_delete_eq.
  - apply elem_of_cons in Hin as [->|Hin]; [contradiction|].
    destruct (writeFails c); simpl; apply (IH Hin).
Qed.

Lemma getJobsData_run (w : World S) :
  getJobsData L sch w =
  (map (convertJobToData L) (sched_Jobs sch (w_sched w)),
   mkWorld (w_sched w) (wsClients w) (w_trace w ++ [EvSched CallJobs])).
Proof. reflexivity. Qed.

Lemma broadcastTick_empty (writeFails : Conn -> bool) (w : World S) :
  wsClients w = ∅ -> broadcastTick L sch writeFails w = (tt, w).
Proof.
  intros He. unfold broadcastTick, bind, getClients. rewrite He. reflexivity.
Qed.

Lemma broadcastTick_nonempty (writeFails : Conn -> bool) (w : World S) :
  wsClients w <> ∅ ->
  broadcastTick L sch writeFails w =
  broadcastTo writeFails (MsgJobs (map (convertJobToData L) (sched_Jobs sch (w_sched w))))
    (map fst (map_to_list (wsClients w)))
    (mkWorld (w_sched w) (wsClients w) (w_trace w ++ [EvSched CallJobs])).
Proof.
  intros Hne. unfold broadcastTick, bind, getClients.
  destruct (Nat.eqb_spec (size (wsClients w)) 0) as [Hz | Hnz].
  - apply map_size_empty_iff in Hz. contradiction.
  - rewrite getJobsData_run. reflexivity.
Qed.

Lemma broadcastTick_count_Jobs (writeFails : Conn -> bool) (w : World S) :
  wsClients w <> ∅ ->
  count_Jobs (w_trace (snd (broadcastTick L sch writeFails w)))
  = Datatypes.S (count_Jobs (w_trace w)).
Proof.
  intros H. rewrite (broadcastTick_nonempty _ w H), broadcastTo_count_Jobs. simpl.
  rewrite count_Jobs_app. simpl. lia.
Qed.

Lemma broadcastTick_count_Jobs_le (writeFails : Conn -> bool) (w : World S) :
  (count_Jobs (w_trace (snd (broadcastTick L sch writeFails w)))
   <= Datatypes.S (count_Jobs (w_trace w)))%nat.
Proof.
  destruct (decide (wsClients w = ∅)) as [He | Hn].
  - rewrite (broadcastTick_empty _ w He). simpl. lia.
  - rewrite (broadcastTick_count_Jobs _ w Hn). lia.
Qed.

(** C8: a broadcast tick that finds the registry empty changes nothing:
    the snapshot source is not queried and nothing is sent, and so for any
    number of ticks in a row; a tick that finds observers queries the
    snapshot source exactly once, so no tick queries it more than once and
    a run of ticks queries it at most once per tick. *)
Theorem idle_tick_builds_no_snapshot (w : World S) :
  (forall writeFails, wsClients w = ∅ ->
     broadcastTick L sch writeFails w = (tt, w) /\
     count_Jobs (w_trace (snd (broadcastTick L sch writeFails w)))
     = count_Jobs (w_trace w) /\
     sched_calls (w_trace (snd (broadcastTick L sch writeFails w)))
     = sched_calls (w_trace w)) /\
  (forall ticks, wsClients w = ∅ -> broadcastJobUpdates L sch ticks w = (tt, w)) /\
  (forall writeFails, wsClients w <> ∅ ->
     count_Jobs (w_trace (snd (broadcastTick L sch writeFails w)))
     = Datatypes.S (count_Jobs (w_trace w))) /\
  (forall writeFails,
     (count_Jobs (w_trace (snd (broadcastTick L sch writeFails w)))
      <= Datatypes.S (count_Jobs (w_trace w)))%nat) /\
  (forall ticks,
     (count_Jobs (w_trace (snd (broadcastJobUpdates L sch ticks w)))
      <= count_Jobs (w_trace w) + List.length ticks)%nat).
Proof.
  refine (conj _ (conj _ (conj _ (conj _ _)))).
  - intros writeFails He. rewrite (broadcastTick_empty _ w He). repeat split.
  - intros ticks He. induction ticks as [|writeFails ticks IH]; [reflexivity|].
    simpl. unfold bind. rewrite (broadcastTick_empty _ w He). exact IH.
  - intros writeFails. apply broadcastTick_count_Jobs.
  - intros writeFails. apply broadcastTick_count_Jobs_le.
  - intros ticks. revert w. induction ticks as [|writeFails ticks IH]; intros w.
    + simpl. lia.
    + simpl. unfold bind.
      destruct (broadcastTick L sch writeFails w) as [u w1] eqn:E.
      pose proof (broadcastTick_count_Jobs_le writeFails w) as H1. rewrite E in H1.
      simpl in H1. specialize (IH w1). lia.
Qed.

(** C9: removing a connection from the registry a second time gives the
    same world as removing it once, and removing a connection that is not
    registered leaves the world as it was, without any error; so after a
    tick that pruned a connection whose write failed, the removal on the
    read failure of the same connection leaves the registry unchanged. *)
Theorem remove_is_idempotent (conn : Conn) (w : World S) :
  removeClient conn (snd (removeClient conn w)) = removeClient conn w /\
  wsClients (snd (removeClient conn w)) !! conn = None /\
  (wsClients w !! conn = None -> removeClient conn w = (tt, w)) /\
  (forall writeFails, writeFails conn = true ->
   let w' := snd (broadcastTick L sch writeFails w) in
   wsClients w' !! conn = None /\
   wsClients (snd (wsReadError conn w')) = wsClients w').
Proof.
  refine (conj _ (conj _ (conj _ _))).
  - unfold removeClient. simpl. now rewrite delete_delete_eq.
  - unfold removeClient. simpl. apply lookup_delete_eq.
  - intros Habs. unfold removeClient. rewrite delete_id by exact Habs.
    destruct w; reflexivity.
  - intros writeFails Hfail w'.
    assert (Hgone : wsClients w' !! conn = None).
    { subst w'. destruct (wsClients w !! conn) as [b|] eqn:Hc.
      - assert (Hne : wsClients w <> ∅) by (intros He; rewrite He in Hc; discriminate).
        rewrite (broadcastTick_nonempty _ w Hne). apply broadcastTo_prunes; [|exact Hfail].
        apply list_elem_of_fmap. exists (conn, b). split; [reflexivity|].
        now apply elem_of_map_to_list.
      - destruct (decide (wsClients w = ∅)) as [He | Hne].
        + now rewrite (broadcastTick_empty _ w He).
        + rewrite (broadcastTick_nonempty _ w Hne).
          now apply broadcastTo_keeps_absent. }
    split; [exact Hgone|].
    unfold wsReadError, bind, removeClient, emit. simpl. now apply delete_id.
Qed.

(** A connection is out of the registry when its handler returns. *)
Lemma HandleWebSocket_unregisters (conn : Conn) (w : World S) :
  wsClients (snd (HandleWebSocket L sch (Ok conn) w)) !! conn = None.
Proof.
  unfold HandleWebSocket, wsConnect, wsReadError, bind, addClient, removeClient, emit.
  rewrite getJobsData_run. simpl. apply lookup_delete_eq.
Qed.

End Registry.

(* ===================================================================== *)
(** ** The properties at concrete inputs                                  *)
(* ===================================================================== *)

Lemma create_validation_fails_fast_witness :
  let req := mkCreateJobRequest "" "duration" 5 "" "" [] in
  let out := CreateJob Reference.libs Reference.scheduler (Ok req) Reference.world0 in
  resp_status (fst out) = 400 /\ snd out = Reference.world0 /\
  fst out = respondError 400 "Job name is required".
Proof.
  cbv zeta.
  destruct (create_validation_fails_fast Reference.libs Reference.scheduler
              (mkCreateJobRequest "" "duration" 5 "" "" []) Reference.world0)
    as (Hs & _ & Hw & _ & Hn & _).
  - left. reflexivity.
  - split; [exact Hs | split; [exact Hw | apply Hn; reflexivity]].
Defined.


Lemma reference_RemoveJob_contract : RemoveJob_contract Reference.scheduler.
Proof.
  split; intros id s; simpl; unfold Reference.RemoveJob.
  - intros Hno. destruct (Reference.hasJob id (Reference.rs_jobs s)) eqn:E; [|eauto].
    unfold Reference.hasJob in E. apply existsb_exists in E as (j & Hin & Hj).
    unfold no_job_with in Hno. rewrite Forall_forall in Hno.
    apply list_elem_of_In in Hin. apply N.eqb_eq in Hj. now elim (Hno j Hin).
  - destruct (Reference.hasJob id (Reference.rs_jobs s)); [|discriminate].
    intros _. simpl. unfold no_job_with. apply Forall_forall. intros j Hin.
    apply list_elem_of_In, filter_In in Hin as [_ Hj].
    apply negb_true_iff, N.eqb_neq in Hj. exact Hj.
Qed.

Lemma id_operations_errors_witness :
  let w := Reference.world0 in
  resp_status (fst (GetJob Reference.libs Reference.scheduler "not-a-uuid" w)) = 400 /\
  resp_status (fst (GetJob Reference.libs Reference.scheduler
                      "00000000-0000-0000-0000-00000000002b" w)) = 404 /\
  resp_status (fst (DeleteJob Reference.libs Reference.scheduler
                      "00000000-0000-0000-0000-00000000002b" w)) = 404 /\
  resp_status (fst (DeleteJob Reference.libs Reference.scheduler Reference.idA
                      (snd (DeleteJob Reference.libs Reference.scheduler Reference.idA w))))
  = 404.
Proof.
  cbv zeta.
  assert (Hno : no_job_with 43%N (Reference.rs_jobs (w_sched Reference.world0))).
  { repeat constructor. discriminate. }
  split; [|split; [|split]].
  - destruct (id_operations_errors Reference.libs Reference.scheduler
                "not-a-uuid" Reference.world0) as (Hbad & _ & _).
    destruct (Hbad "invalid UUID length" eq_refl) as [-> _]. reflexivity.
  - destruct (id_operations_errors Reference.libs Reference.scheduler
                "00000000-0000-0000-0000-00000000002b" Reference.world0) as (_ & Habs & _).
    destruct (Habs 43%N eq_refl Hno) as [-> _]. reflexivity.
  - destruct (id_operations_errors Reference.libs Reference.scheduler
                "00000000-0000-0000-0000-00000000002b" Reference.world0) as (_ & Habs & _).
    destruct (Habs 43%N eq_refl Hno) as [_ Hdel].
    rewrite (Hdel reference_RemoveJob_contract). reflexivity.
  - destruct (id_operations_errors Reference.libs Reference.scheduler
                Reference.idA Reference.world0) as (_ & _ & Htwice).
    rewrite (Htwice 42%N eq_refl reference_RemoveJob_contract); reflexivity.
Defined.

(** C5, as the specification states it, fails for delete: the scheduler's
    error for an unknown job reads "gocron: job not found", and the body of
    the 404 response carries the handler's own "Job not found" instead. *)
Lemma delete_error_text_counterexample :
  let w := Reference.world0 in
  let idStr := "00000000-0000-0000-0000-00000000002b" in
  uuid_Parse Reference.libs idStr = Ok 43%N /\
  fst (sched_RemoveJob Reference.scheduler 43%N (w_sched w))
  = Some "gocron: job not found" /\
  resp_status (fst (DeleteJob Reference.libs Reference.scheduler idStr w)) = 404 /\
  error_message (fst (DeleteJob Reference.libs Reference.scheduler idStr w))
  = Some "Job not found" /\
  error_message (fst (DeleteJob Reference.libs Reference.scheduler idStr w))
  <> Some "gocron: job not found".
Proof.
  cbv zeta. repeat split; try (vm_compute; reflexivity).
  vm_compute. discriminate.
Qed.

Lemma scheduler_errors_surface_witness :
  let tooLong := mkCreateJobRequest "overflow" "duration" 9223372037 "" "" [] in
  error_message (fst (CreateJob Reference.libs Reference.scheduler (Ok tooLong)
                        Reference.world0))
  = Some "gocron: DurationJob: time interval is 0" /\
  error_message (fst (RunJob Reference.libs Reference.scheduler Reference.idA Reference.stoppedWorld))
  = Some "gocron: scheduler not started" /\
  (error_message (fst (StopScheduler Reference.scheduler Reference.stoppedWorld))
   = Some "gocron: timed out waiting for jobs to finish" /\
   w_trace (snd (StopScheduler Reference.scheduler Reference.stoppedWorld))
   = (w_trace Reference.stoppedWorld ++ [EvSched CallStopJobs])%list) /\
  error_message (fst (DeleteJob Reference.libs Reference.scheduler
                        "00000000-0000-0000-0000-00000000002b" Reference.world0))
  = Some "Job not found".
Proof.
  cbv zeta. split; [|split; [|split]].
  - destruct (scheduler_errors_surface Reference.libs Reference.scheduler
                Reference.world0 "gocron: DurationJob: time interval is 0")
      as (Hcreate & _).
    apply (Hcreate (mkCreateJobRequest "overflow" "duration" 9223372037 "" "" [])
             (DurationJob (wrap64 (9223372037 * Second))));
      [discriminate | reflexivity | reflexivity].
  - destruct (scheduler_errors_surface Reference.libs Reference.scheduler
                Reference.stoppedWorld "gocron: scheduler not started") as (_ & Hrun & _).
    apply (Hrun Reference.idA 42%N
             (Reference.tenSecondJob 42%N "heartbeat" Reference.noon));
      reflexivity.
  - destruct (scheduler_errors_surface Reference.libs Reference.scheduler
                Reference.stoppedWorld "gocron: timed out waiting for jobs to finish")
      as (_ & _ & Hstop & _).
    destruct (Hstop eq_refl) as (_ & Hmessage & Htrace & _).
    split; [exact Hmessage | exact Htrace].
  - destruct (scheduler_errors_surface Reference.libs Reference.scheduler
                Reference.world0 "gocron: job not found") as (_ & _ & _ & Hdel).
    apply (Hdel "00000000-0000-0000-0000-00000000002b" 43%N); reflexivity.
Defined.

Lemma parseTime_seconds_then_minutes_witness :
  let req := mkCreateJobRequest "x" "daily" 1 "" "14:30" [] in
  parseTime "09:05" = Ok (NewAtTime 9 5 0) /\
  parseTime "23:59:58" = Ok (NewAtTime 23 59 58) /\
  resp_status (fst (CreateJob Reference.libs Reference.scheduler (Ok req)
                      Reference.world0)) = 201.
Proof.
  cbv zeta.
  destruct (parseTime_seconds_then_minutes Reference.libs Reference.scheduler)
    as (_ & _ & _ & Hhm & Hhms & _ & _ & Hcreate).
  split; [|split].
  - apply (Hhm 9 5); lia.
  - apply (Hhms 23 59 58); lia.
  - rewrite (Hcreate Reference.world0
               (mkJob 43%N "x" [] (0, None) (0, None) (fun _ => ([], None)))
               (Reference.mkState
                  (Reference.rs_jobs (w_sched Reference.world0) ++
                   [mkJob 43%N "x" [] (0, None) (0, None) (fun _ => ([], None))])
                  44%N true) eq_refl).
    reflexivity.
Defined.

Lemma tenSecondJob_contract (id : UUID) (name : string) (t0 : Time) :
  NextRuns_contract (Reference.tenSecondJob id name t0).
Proof.
  intros n Hn. simpl. split.
  - rewrite length_firstn. lia.
  - generalize (Z.to_nat n). intros k. unfold Second.
    do 8 (destruct k as [|k]; [simpl; repeat constructor; lia|]).
    simpl. repeat constructor; lia.
Qed.

Lemma snapshot_timestamps_witness :
  let d := convertJobToData Reference.libs
             (Reference.tenSecondJob 42%N "heartbeat" Reference.noon) in
  jd_LastRun d = "" /\
  jd_NextRun d = "2026-11-02T12:00:00Z" /\
  (List.length (jd_NextRuns d) <= 5)%nat.
Proof.
  cbv zeta.
  destruct (snapshot_timestamps Reference.libs
              (Reference.tenSecondJob 42%N "heartbeat" Reference.noon)
              (tenSecondJob_contract 42%N "heartbeat" Reference.noon))
    as (_ & Hnext & Hlast & _ & Hlen & _).
  split; [apply Hlast; reflexivity | split; [|exact Hlen]].
  rewrite Hnext; reflexivity.
Defined.

Lemma idle_tick_builds_no_snapshot_witness :
  broadcastTick Reference.libs Reference.scheduler Reference.secondGone Reference.world0
  = (tt, Reference.world0) /\
  count_Jobs (w_trace (snd (broadcastTick Reference.libs Reference.scheduler
                              Reference.secondGone Reference.watchedWorld))) = 1%nat.
Proof.
  destruct (idle_tick_builds_no_snapshot Reference.libs Reference.scheduler
              Reference.world0) as (Hidle & _).
  destruct (idle_tick_builds_no_snapshot Reference.libs Reference.scheduler
              Reference.watchedWorld) as (_ & _ & Hbusy & _).
  split.
  - apply (Hidle Reference.secondGone). reflexivity.
  - apply (Hbusy Reference.secondGone).
    intros He. apply (f_equal (fun m => m !! 1%positive)) in He. discriminate He.
Defined.

Lemma remove_is_idempotent_witness :
  removeClient 2%positive Reference.world0 = (tt, Reference.world0) /\
  wsClients (snd (broadcastTick Reference.libs Reference.scheduler Reference.secondGone
                    Reference.watchedWorld))
    !! 2%positive = None.
Proof.
  destruct (remove_is_idempotent Reference.libs Reference.scheduler
              2%positive Reference.world0) as (_ & _ & Habsent & _).
  destruct (remove_is_idempotent Reference.libs Reference.scheduler
              2%positive Reference.watchedWorld) as (_ & _ & _ & Hpruned).
  split; [apply Habsent; reflexivity | apply (Hpruned Reference.secondGone); reflexivity].
Defined.

Lemma start_never_fails_stop_may_witness :
  resp_status (fst (StartScheduler Reference.scheduler Reference.stoppedWorld)) = 200 /\
  resp_status (fst (StopScheduler Reference.scheduler Reference.stoppedWorld)) = 500 /\
  resp_status (fst (StopScheduler Reference.scheduler Reference.world0)) = 200.
Proof.
  split; [|split].
  - apply (start_never_fails_stop_may Reference.scheduler Reference.stoppedWorld).
  - apply (start_never_fails_stop_may Reference.scheduler Reference.stoppedWorld).
    exists "gocron: timed out waiting for jobs to finish". reflexivity.
  - apply (start_never_fails_stop_may Reference.scheduler Reference.world0).
    reflexivity.
Defined.

(* ===================================================================== *)
(** ** Further properties of the schedule descriptor                      *)
(* ===================================================================== *)

Lemma inferFromName_first_match (name : string) :
  inferFromName name = first_match name.
Proof.
  destruct name as [|a name']; [reflexivity|].
  set (name := String a name').
  assert (Hlen : (0 <? String.length name)%nat = true) by reflexivity.
  clearbody name. clear a name'.
  unfold inferFromName, first_match, pattern_table, every_or_interval.
  rewrite Hlen. clear Hlen. cbn [List.find fst snd].
  destruct (Contains name "every"), (Contains name "interval"),
    (Contains name "10s"), (Contains name "10-s"),
    (Contains name "5s"), (Contains name "minute"); simpl; try reflexivity;
    (destruct (Contains name "cron"); [reflexivity|]);
    (destruct (Contains name "daily"); [reflexivity|]);
    (destruct (Contains name "weekly"); [reflexivity|]);
    (destruct (Contains name "random"); [reflexivity|]);
    (destruct (Contains name "singleton"); [reflexivity|]);
    (destruct (Contains name "limited"); [reflexivity|]);
    (destruct (Contains name "parameter"); [reflexivity|]);
    (destruct (Contains name "context"); [reflexivity|]);
    (destruct (Contains name "one-time"); [reflexivity|]);
    (destruct (Contains name "onetime"); reflexivity).
Qed.

Lemma first_match_in_table (name : string) (label : string * string) :
  first_match name = Some label -> In label (map snd pattern_table).
Proof.
  unfold first_match. intros Hl.
  destruct (List.find _ pattern_table) as [row|] eqn:E; [|discriminate].
  injection Hl as <-. apply find_some in E as [Hin _]. now apply in_map.
Qed.

(** X1: the name stage of inferSchedule is a first-match lookup in an
    ordered table of twelve rows: for every name, empty or not, the nested
    tests of the code return the label of the first row of [pattern_table]
    whose test the name passes, and nothing when no row does; a label that
    comes from the name is one of the twelve labels of the table. *)
Theorem name_stage_is_first_match (job : Job) (nextRuns : list Time) :
  inferFromName (job_Name job) = first_match (job_Name job) /\
  (forall label, first_match (job_Name job) = Some label ->
     inferSchedule job nextRuns = label /\ In label (map snd pattern_table)) /\
  (first_match (job_Name job) = None ->
     inferSchedule job nextRuns =
     match nextRuns with
     | t0 :: t1 :: _ => inferFromInterval (Sub t1 t0)
     | _ => ("Scheduled", "Custom schedule")
     end).
Proof.
  split; [apply inferFromName_first_match | split].
  - intros label Hl. unfold inferSchedule. rewrite inferFromName_first_match, Hl.
    split; [reflexivity | now apply (first_match_in_table (job_Name job))].
  - intros Hn. unfold inferSchedule. now rewrite inferFromName_first_match, Hn.
Qed.

Lemma name_stage_is_first_match_witness :
  let job := mkJob 7%N "random-interval-job" [] (0, None) (0, None) (fun _ => ([], None)) in
  inferSchedule job [0; 10 * Second] = ("Random interval", "Random: 5-15s").
Proof.
  cbv zeta.
  destruct (name_stage_is_first_match
              (mkJob 7%N "random-interval-job" [] (0, None) (0, None) (fun _ => ([], None)))
              [0; 10 * Second]) as (_ & Hsome & _).
  apply (Hsome ("Random interval", "Random: 5-15s")). reflexivity.
Defined.

Lemma matches_no_pattern_empty : matches_no_pattern "".
Proof.
  unfold matches_no_pattern.
  repeat split; try (apply Contains_false_spec; reflexivity).
  intros [[H | H] _]; apply Contains_spec in H; discriminate.
Qed.

Lemma inferFromName_none_inv (name : string) :
  inferFromName name = None -> matches_no_pattern name.
Proof.
  intros H. destruct name as [|a name]; [apply matches_no_pattern_empty|].
  apply matches_no_pattern_by_search; [exact H | simpl; lia].
Qed.

(** X2: every row of the name table short-circuits the interval stage: a
    job whose name matches some row gets one and the same label for all
    lists of future run timestamps. *)
Theorem name_match_ignores_runs (job : Job) :
  ~ matches_no_pattern (job_Name job) ->
  exists label, In label (map snd pattern_table) /\
    forall nextRuns, inferSchedule job nextRuns = label.
Proof.
  intros Hm. destruct (first_match (job_Name job)) as [label|] eqn:E.
  - exists label. split.
    + now apply (first_match_in_table (job_Name job)).
    + intros runs. unfold inferSchedule. now rewrite inferFromName_first_match, E.
  - elim Hm. apply inferFromName_none_inv. now rewrite inferFromName_first_match.
Qed.

Lemma name_match_ignores_runs_witness :
  let job := mkJob 7%N "weekly-mwf-morning" [] (0, None) (0, None) (fun _ => ([], None)) in
  exists label, forall nextRuns, inferSchedule job nextRuns = label.
Proof.
  cbv zeta.
  destruct (name_match_ignores_runs
              (mkJob 7%N "weekly-mwf-morning" [] (0, None) (0, None) (fun _ => ([], None))))
    as (label & _ & Hl).
  - intros (_ & _ & _ & Hw & _). apply Hw. exists "", "-mwf-morning". reflexivity.
  - exists label. exact Hl.
Defined.

Lemma Sub_exact (t0 t1 : Time) :
  minDuration <= t1 - t0 <= maxDuration -> Sub t1 t0 = t1 - t0.
Proof.
  intros H. unfold Sub. cbv zeta.
  destruct (Z.ltb_spec (t1 - t0) minDuration); [lia|].
  destruct (Z.ltb_spec maxDuration (t1 - t0)); [lia | reflexivity].
Qed.

(** X3: inferSchedule does not check the order of the run timestamps:
    when the second is not later than the first the gap counts as seconds
    however long it is.  Equal timestamps give ("Every 0 seconds",
    "Duration: 0s"), and a second timestamp k whole seconds before the
    first, for k up to one hour, gives ("Every -k seconds", "Duration: -ks"). *)
Theorem unordered_runs_count_negative_seconds (job : Job) (t0 : Time) (rest : list Time) :
  matches_no_pattern (job_Name job) ->
  inferSchedule job (t0 :: t0 :: rest) = ("Every 0 seconds", "Duration: 0s") /\
  (forall k, 0 <= k <= 3600 ->
     inferSchedule job (t0 :: (t0 - k * Second) :: rest)
     = interval_label (- k) "seconds" "s").
Proof.
  intros Hno. unfold inferSchedule. rewrite (inferFromName_none _ Hno). split.
  - rewrite Sub_exact; replace (t0 - t0) with 0 by (unfold Time in *; lia);
      [reflexivity | vm_compute; split; discriminate].
  - intros k Hk. rewrite Sub_exact;
      replace (t0 - k * Second - t0) with (- k * Second)
        by (unfold Time, Duration in *; lia);
      [|unfold minDuration, maxDuration, Second; lia].
    assert (Hall : forallb (fun n : nat =>
              bool_decide (inferFromInterval (- Z.of_nat n * Second)
                           = interval_label (- Z.of_nat n) "seconds" "s"))
              (seq 0 3601) = true) by (vm_compute; reflexivity).
    rewrite forallb_forall in Hall.
    assert (Hin : In (Z.to_nat k) (seq 0 3601)) by (apply in_seq; lia).
    apply Hall in Hin. apply bool_decide_eq_true in Hin.
    rewrite Z2Nat.id in Hin by lia. exact Hin.
Qed.

Lemma unordered_runs_count_negative_seconds_witness :
  let job := mkJob 7%N "heartbeat" [] (0, None) (0, None) (fun _ => ([], None)) in
  inferSchedule job [5 * Second; 2 * Second] = ("Every -3 seconds", "Duration: -3s").
Proof.
  cbv zeta.
  assert (Hno : matches_no_pattern "heartbeat")
    by (apply matches_no_pattern_by_search; [reflexivity | simpl; lia]).
  destruct (unordered_runs_count_negative_seconds
              (mkJob 7%N "heartbeat" [] (0, None) (0, None) (fun _ => ([], None)))
              (5 * Second) [] Hno) as [_ Hneg].
  apply (Hneg 3). lia.
Defined.

(** X4: the gap between the first two runs is a saturating Duration: for
    every pair of timestamps at least 2^63 - 1 nanoseconds apart the label
    is ("Every 106751 days", "Duration: 106751d"), the largest count
    inferSchedule can print. *)
Theorem far_runs_saturate (job : Job) (t0 t1 : Time) (rest : list Time) :
  matches_no_pattern (job_Name job) ->
  maxDuration <= t1 - t0 ->
  inferSchedule job (t0 :: t1 :: rest) = ("Every 106751 days", "Duration: 106751d").
Proof.
  intros Hno Hfar. unfold inferSchedule. rewrite (inferFromName_none _ Hno).
  assert (Hs : Sub t1 t0 = maxDuration).
  { unfold Sub. cbv zeta.
    destruct (Z.ltb_spec (t1 - t0) minDuration);
      [unfold minDuration, maxDuration in *; lia|].
    destruct (Z.ltb_spec maxDuration (t1 - t0)); [reflexivity | lia]. }
  rewrite Hs. vm_compute. reflexivity.
Qed.

Lemma far_runs_saturate_witness :
  let job := mkJob 7%N "heartbeat" [] (0, None) (0, None) (fun _ => ([], None)) in
  inferSchedule job [0; 2 ^ 64] = ("Every 106751 days", "Duration: 106751d").
Proof.
  cbv zeta. apply far_runs_saturate.
  - apply matches_no_pattern_by_search; [reflexivity | simpl; lia].
  - vm_compute. discriminate.
Defined.

(* ===================================================================== *)
(** ** Further properties of the control API                              *)
(* ===================================================================== *)

Lemma findJob_some (id : UUID) (jobs : list Job) (job : Job) :
  findJob id jobs = Some job -> In job jobs /\ job_ID job = id.
Proof.
  induction jobs as [|j jobs IH]; simpl; [discriminate|].
  destruct (N.eqb_spec (job_ID j) id) as [E|_].
  - intros H. injection H as <-. split; [now left | exact E].
  - intros H. destruct (IH H) as [Hin Hid]. split; [now right | exact Hid].
Qed.

Lemma findJob_exists (id : UUID) (jobs : list Job) :
  (exists job, In job jobs /\ job_ID job = id) -> exists job, findJob id jobs = Some job.
Proof.
  induction jobs as [|j jobs IH]; intros (job & Hin & Hid); simpl; [destruct Hin|].
  destruct (N.eqb_spec (job_ID j) id); [eauto|].
  destruct Hin as [-> | Hin]; [contradiction | apply IH; eauto].
Qed.

Lemma no_job_with_findJob (id : UUID) (jobs : list Job) :
  findJob id jobs = None -> no_job_with id jobs.
Proof.
  unfold no_job_with. induction jobs as [|j jobs IH]; simpl; [constructor|].
  destruct (N.eqb_spec (job_ID j) id); [discriminate|].
  intros H. constructor; [assumption | now apply IH].
Qed.

Section ControlAPIMore.

Context {S : Type}.
Variable L : GoLibs.
Variable sch : Scheduler S.

Lemma convertJobToData_identity (job : Job) :
  jd_ID (convertJobToData L job) = uuid_String L (job_ID job) /\
  jd_Name (convertJobToData L job) = job_Name job /\
  jd_Tags (convertJobToData L job) = job_Tags job.
Proof.
  unfold convertJobToData. destruct (inferSchedule job _). simpl. repeat split.
Qed.

Lemma GetJobs_run (w : World S) :
  GetJobs L sch w =
  (respondJSON StatusOK (BodyJobs (map (convertJobToData L) (sched_Jobs sch (w_sched w)))),
   mkWorld (w_sched w) (wsClients w) (w_trace w ++ [EvSched CallJobs])).
Proof. reflexivity. Qed.

Lemma GetJob_run (idStr : string) (id : UUID) (w : World S) :
  uuid_Parse L idStr = Ok id ->
  GetJob L sch idStr w =
  (match findJob id (sched_Jobs sch (w_sched w)) with
   | Some job => respondJSON StatusOK (BodyJob (convertJobToData L job))
   | None => respondError StatusNotFound "Job not found"
   end,
   mkWorld (w_sched w) (wsClients w) (w_trace w ++ [EvSched CallJobs])).
Proof.
  intros Hid. unfold GetJob. rewrite Hid. unfold bind, call_Jobs, bind, emit, ret. simpl.
  destruct (findJob id (sched_Jobs sch (w_sched w))); reflexivity.
Qed.

(** X5: GetJobs answers 200 with one snapshot per job, in the order in
    which the scheduler lists its jobs, each carrying the job's rendered id,
    its name and its tags; it queries the scheduler's job list once and
    leaves the scheduler and the registry as they were. *)
Theorem GetJobs_lists_in_scheduler_order (w : World S) :
  exists snapshots,
    fst (GetJobs L sch w) = respondJSON 200 (BodyJobs snapshots) /\
    List.length snapshots = List.length (sched_Jobs sch (w_sched w)) /\
    (forall i job, sched_Jobs sch (w_sched w) !! i = Some job ->
       exists d, snapshots !! i = Some d /\
                 jd_ID d = uuid_String L (job_ID job) /\
                 jd_Name d = job_Name job /\ jd_Tags d = job_Tags job) /\
    w_trace (snd (GetJobs L sch w)) = (w_trace w ++ [EvSched CallJobs])%list /\
    w_sched (snd (GetJobs L sch w)) = w_sched w /\
    wsClients (snd (GetJobs L sch w)) = wsClients w.
Proof.
  exists (map (convertJobToData L) (sched_Jobs sch (w_sched w))).
  rewrite GetJobs_run. simpl. repeat split.
  - apply length_map.
  - intros i job Hi. exists (convertJobToData L job). split.
    + change (map (convertJobToData L) (sched_Jobs sch (w_sched w)))
        with (convertJobToData L <$> sched_Jobs sch (w_sched w)).
      now rewrite list_lookup_fmap, Hi.
    + apply convertJobToData_identity.
Qed.

(** X6: for a well-formed identifier, GetJob answers 200 exactly when
    some current job has that identifier and 404 otherwise; the snapshot
    it returns carries the rendered identifier and is one of the snapshots
    that GetJobs returns in the same world, and both handlers leave the
    same world behind. *)
Theorem GetJob_agrees_with_GetJobs (idStr : string) (id : UUID) (w : World S) :
  uuid_Parse L idStr = Ok id ->
  (resp_status (fst (GetJob L sch idStr w)) = 200 <->
   exists job, In job (sched_Jobs sch (w_sched w)) /\ job_ID job = id) /\
  (resp_status (fst (GetJob L sch idStr w)) = 200 \/
   fst (GetJob L sch idStr w) = respondError 404 "Job not found") /\
  (forall d, resp_body (fst (GetJob L sch idStr w)) = BodyJob d ->
     jd_ID d = uuid_String L id /\
     exists snapshots, resp_body (fst (GetJobs L sch w)) = BodyJobs snapshots /\
                       In d snapshots) /\
  snd (GetJob L sch idStr w) = snd (GetJobs L sch w).
Proof.
  intros Hid. rewrite (GetJob_run _ _ _ Hid), GetJobs_run. simpl.
  destruct (findJob id (sched_Jobs sch (w_sched w))) as [job|] eqn:E; simpl.
  - destruct (findJob_some _ _ _ E) as [Hin Hj].
    refine (conj _ (conj _ (conj _ _))).
    + split; [intros _; eauto | reflexivity].
    + now left.
    + intros d Hd. injection Hd as <-. split.
      * rewrite <- Hj. apply convertJobToData_identity.
      * eexists. split; [reflexivity|]. now apply in_map.
    + reflexivity.
  - refine (conj _ (conj _ (conj _ _))).
    + split; [discriminate|].
      intros Hex. apply findJob_exists in Hex as [job Hjob]. congruence.
    + now right.
    + intros d Hd. discriminate Hd.
    + reflexivity.
Qed.

Lemma RunJob_run (idStr : string) (id : UUID) (w : World S) :
  uuid_Parse L idStr = Ok id ->
  RunJob L sch idStr w =
  match findJob id (sched_Jobs sch (w_sched w)) with
  | Some job =>
    (match fst (sched_RunNow sch job (w_sched w)) with
     | Some e => respondError StatusInternalServerError e
     | None => respondJSON StatusOK (BodyMap {[ "message" := "Job executed" ]})
     end,
     mkWorld (snd (sched_RunNow sch job (w_sched w))) (wsClients w)
       (w_trace w ++ [EvSched CallJobs; EvSched (CallRunNow (job_ID job))]))
  | None =>
    (respondError StatusNotFound "Job not found",
     mkWorld (w_sched w) (wsClients w) (w_trace w ++ [EvSched CallJobs]))
  end.
Proof.
  intros Hid. unfold RunJob. rewrite Hid. unfold bind, call_Jobs, bind, emit, ret. simpl.
  destruct (findJob id (sched_Jobs sch (w_sched w))) as [job|]; [|reflexivity].
  unfold call_RunNow, bind, emit. simpl.
  destruct (sched_RunNow sch job (w_sched w)) as [[e|] s']; simpl;
    now rewrite <- app_assoc.
Qed.

(** X7: RunJob answers 400 without any scheduler call for an identifier
    that uuid.Parse refuses; for a well-formed identifier of no current job
    it answers 404 after listing the jobs, without triggering anything and
    without changing the scheduler; when a job has the identifier, RunNow
    is called once, on the first job in the scheduler's list with that
    identifier, and the answer is 200 "Job executed" when RunNow returns
    no error. *)
Theorem RunJob_outcomes (idStr : string) (w : World S) :
  (forall e, uuid_Parse L idStr = Err e ->
     RunJob L sch idStr w = (respondError 400 "Invalid job ID", w)) /\
  (forall id, uuid_Parse L idStr = Ok id ->
     no_job_with id (sched_Jobs sch (w_sched w)) ->
     fst (RunJob L sch idStr w) = respondError 404 "Job not found" /\
     sched_calls (w_trace (snd (RunJob L sch idStr w)))
     = (sched_calls (w_trace w) ++ [CallJobs])%list /\
     w_sched (snd (RunJob L sch idStr w)) = w_sched w) /\
  (forall id before job after, uuid_Parse L idStr = Ok id ->
     sched_Jobs sch (w_sched w) = (before ++ job :: after)%list ->
     no_job_with id before -> job_ID job = id ->
     w_trace (snd (RunJob L sch idStr w))
     = (w_trace w ++ [EvSched CallJobs; EvSched (CallRunNow id)])%list /\
     w_sched (snd (RunJob L sch idStr w)) = snd (sched_RunNow sch job (w_sched w)) /\
     (fst (sched_RunNow sch job (w_sched w)) = None ->
      fst (RunJob L sch idStr w)
      = respondJSON 200 (BodyMap {[ "message" := "Job executed" ]}))).
Proof.
  refine (conj _ (conj _ _)).
  - intros e He. unfold RunJob. now rewrite He.
  - intros id Hid Hno. rewrite (RunJob_run _ _ _ Hid), (findJob_none _ _ Hno). simpl.
    repeat split.
    induction (w_trace w) as [|ev t IH]; [reflexivity|].
    destruct ev as [c| |]; simpl; now rewrite ?IH.
  - intros id before job after Hid Hjobs Hno Hj.
    assert (Hfind : findJob id (sched_Jobs sch (w_sched w)) = Some job).
    { rewrite Hjobs. clear Hjobs. induction Hno as [|j before Hne _ IH]; simpl.
      - apply N.eqb_eq in Hj. now rewrite Hj.
      - destruct (N.eqb_spec (job_ID j) id); [contradiction | exact IH]. }
    rewrite (RunJob_run _ _ _ Hid), Hfind. simpl. rewrite Hj. repeat split.
    intros ->. reflexivity.
Qed.

Lemma jobDefinitionOf_inl (req : CreateJobRequest) (r : Response) :
  jobDefinitionOf req = inl r ->
  invalid_create_request req /\ resp_status r = 400.
Proof.
  unfold jobDefinitionOf, invalid_create_request.
  destruct (String.eqb_spec (req_Type req) "duration") as [Hd|Hd].
  { destruct (Z.leb_spec (req_Interval req) 0) as [Hle|Hgt]; [|discriminate].
    intros Hr. injection Hr as <-. split; [right; left; tauto | reflexivity]. }
  destruct (String.eqb_spec (req_Type req) "cron") as [Hc|Hc].
  { destruct (String.eqb_spec (req_CronExpression req) "") as [He|He]; [|discriminate].
    intros Hr. injection Hr as <-. split; [right; right; left; tauto | reflexivity]. }
  destruct (String.eqb_spec (req_Type req) "daily") as [Hy|Hy].
  { destruct (Z.leb_spec (req_Interval req) 0) as [Hle|Hgt].
    { intros Hr. injection Hr as <-. split; [|reflexivity].
      right; right; right; left. tauto. }
    destruct (String.eqb_spec (req_AtTime req) "") as [He|He].
    { intros Hr. injection Hr as <-. split; [|reflexivity].
      right; right; right; left. tauto. }
    destruct (parseTime (req_AtTime req)) as [a|e] eqn:E; [discriminate|].
    intros Hr. injection Hr as <-. split; [|reflexivity].
    right; right; right; left. split; [assumption|]. right; right. eauto. }
  intros Hr. injection Hr as <-. split; [|reflexivity].
  right; right; right; right. tauto.
Qed.

Lemma invalid_request_status_400 (req : CreateJobRequest) (w : World S) :
  invalid_create_request req ->
  resp_status (fst (CreateJob L sch (Ok req) w)) = 400.
Proof.
  intros Hinv. unfold CreateJob.
  destruct (String.eqb_spec (req_Name req) "") as [Hn | Hn]; [reflexivity|].
  destruct (jobDefinitionOf_invalid req Hn Hinv) as [message ->]. reflexivity.
Qed.

(** X8: CreateJob answers 400 exactly for the requests that fail
    validation or whose body could not be decoded; every other request
    reaches the scheduler with one NewJob call and is answered 201 or 500;
    no other status is produced. *)
Theorem CreateJob_status_characterised (decoded : result CreateJobRequest) (w : World S) :
  (resp_status (fst (CreateJob L sch decoded w)) = 400 <->
   match decoded with
   | Err _ => True
   | Ok req => invalid_create_request req
   end) /\
  (resp_status (fst (CreateJob L sch decoded w)) = 400 \/
   resp_status (fst (CreateJob L sch decoded w)) = 201 \/
   resp_status (fst (CreateJob L sch decoded w)) = 500) /\
  (resp_status (fst (CreateJob L sch decoded w)) <> 400 ->
   exists def task options,
     w_trace (snd (CreateJob L sch decoded w))
     = (w_trace w ++ [EvSched (CallNewJob def task options)])%list).
Proof.
  destruct decoded as [req|e].
  2:{ refine (conj _ (conj _ _)).
      - split; [intros _; exact I | reflexivity].
      - now left.
      - intros Hne. now elim Hne. }
  pose proof (invalid_request_status_400 req w) as Hinv.
  unfold CreateJob in *.
  destruct (String.eqb_spec (req_Name req) "") as [Hn|Hn].
  { refine (conj _ (conj _ _)).
    - split; [intros _; now left | reflexivity].
    - now left.
    - intros Hne. now elim Hne. }
  destruct (jobDefinitionOf req) as [early|jobDef] eqn:Hdef.
  { destruct (jobDefinitionOf_inl _ _ Hdef) as [Hbad Hst].
    refine (conj _ (conj _ _)).
    - split; [intros _; exact Hbad | intros _; exact Hst].
    - left. exact Hst.
    - intros Hne. now elim Hne. }
  unfold bind, call_NewJob, bind, emit, ret in *. simpl in *.
  destruct (sched_NewJob sch jobDef _ _ (w_sched w)) as [[job|e] s']; simpl in *.
  - refine (conj _ (conj _ _)).
    + split; [intros Hst; discriminate Hst | intros Hbad].
      specialize (Hinv Hbad). discriminate Hinv.
    + right; now left.
    + intros _. eauto.
  - refine (conj _ (conj _ _)).
    + split; [intros Hst; discriminate Hst | intros Hbad].
      specialize (Hinv Hbad). discriminate Hinv.
    + right; now right.
    + intros _. eauto.
Qed.

(** X9: a request that passes validation and that the scheduler accepts
    is answered 201 with the snapshot of the job the scheduler returned;
    the scheduler is called once, with the placeholder task that logs the
    requested name, the name as an option, and the tags as a second option
    only when the request has at least one tag; the registry is untouched. *)
Theorem CreateJob_success (req : CreateJobRequest) (jobDef : JobDefinition)
    (job : Job) (s' : S) (w : World S) :
  req_Name req <> "" -> jobDefinitionOf req = inr jobDef ->
  sched_NewJob sch jobDef (NewTask_log (req_Name req)) (jobOptionsOf req) (w_sched w)
  = (Ok job, s') ->
  CreateJob L sch (Ok req) w =
  (respondJSON 201 (BodyJob (convertJobToData L job)),
   mkWorld s' (wsClients w)
     (w_trace w ++ [EvSched (CallNewJob jobDef (NewTask_log (req_Name req))
                               (jobOptionsOf req))])) /\
  (req_Tags req = [] -> jobOptionsOf req = [WithName (req_Name req)]) /\
  (req_Tags req <> [] ->
   jobOptionsOf req = [WithName (req_Name req); WithTags (req_Tags req)]) /\
  jd_ID (convertJobToData L job) = uuid_String L (job_ID job) /\
  jd_Name (convertJobToData L job) = job_Name job.
Proof.
  intros Hn Hdef Hnew. refine (conj _ (conj _ (conj _ _))).
  - unfold CreateJob. destruct (String.eqb_spec (req_Name req) ""); [contradiction|].
    rewrite Hdef. unfold bind, call_NewJob, bind, emit, ret. simpl.
    now rewrite Hnew.
  - unfold jobOptionsOf. now intros ->.
  - unfold jobOptionsOf. destruct (req_Tags req); [intros Hne; now elim Hne | reflexivity].
  - split; apply convertJobToData_identity.
Qed.

Lemma wrap64_small (z : Z) : 0 <= z < 2 ^ 63 -> wrap64 z = z.
Proof.
  intros Hz. unfold wrap64. rewrite Z.mod_small; lia.
Qed.

Lemma wrap64_large (z : Z) : 2 ^ 63 <= z < 2 ^ 64 -> wrap64 z = z - 2 ^ 64.
Proof.
  intros Hz. unfold wrap64.
  replace (z + 2 ^ 63) with ((z - 2 ^ 63) + 1 * 2 ^ 64) by lia.
  rewrite Z.mod_add by lia. rewrite Z.mod_small; lia.
Qed.

(** X10: a duration request with an interval from 1 to 9223372036 seconds
    is handed to the scheduler as exactly that many seconds; validation
    puts no upper bound on the interval, and for the intervals from
    9223372037 to 18446744073 seconds the 64-bit product with time.Second
    wraps around, so the request passes validation and the scheduler
    receives a negative duration. *)
Theorem duration_interval_wraps (req : CreateJobRequest) :
  req_Type req = "duration" ->
  (0 < req_Interval req <= 9223372036 ->
   jobDefinitionOf req = inr (DurationJob (req_Interval req * Second))) /\
  (9223372036 < req_Interval req <= 18446744073 ->
   jobDefinitionOf req = inr (DurationJob (req_Interval req * Second - 2 ^ 64)) /\
   req_Interval req * Second - 2 ^ 64 < 0) /\
  (req_Interval req <= 0 -> exists r, jobDefinitionOf req = inl r).
Proof.
  intros Hty. unfold jobDefinitionOf. rewrite Hty. simpl String.eqb. cbv iota.
  refine (conj _ (conj _ _)).
  - intros Hi. destruct (Z.leb_spec (req_Interval req) 0) as [Hle|Hgt]; [lia|].
    rewrite wrap64_small; [reflexivity | unfold Second; lia].
  - intros Hi. destruct (Z.leb_spec (req_Interval req) 0) as [Hle|Hgt]; [lia|].
    rewrite wrap64_large; [|unfold Second; lia].
    split; [reflexivity | unfold Second; lia].
  - intros Hi. destruct (Z.leb_spec (req_Interval req) 0) as [Hle|Hgt]; [eauto | lia].
Qed.

Lemma clock_not_empty (h : Z) (rest : string) :
  String.eqb (two_digits h +:+ rest) "" = false.
Proof. unfold two_digits. rewrite append_cons. reflexivity. Qed.

(** X11: a daily request with a positive interval and an atTime written
    "HH:MM:SS" or "HH:MM" (hours below 24, minutes and seconds below 60)
    passes validation, and the job definition handed to the scheduler is
    DailyJob(interval, [hours, minutes, seconds]) with exactly the numbers
    written, seconds 0 for "HH:MM". *)
Theorem daily_definition_from_clock (req : CreateJobRequest) (h m s : Z) :
  req_Type req = "daily" -> 0 < req_Interval req ->
  0 <= h < 24 -> 0 <= m < 60 -> 0 <= s < 60 ->
  (req_AtTime req = clock_hms h m s ->
   jobDefinitionOf req = inr (DailyJob (req_Interval req) [NewAtTime h m s])) /\
  (req_AtTime req = clock_hm h m ->
   jobDefinitionOf req = inr (DailyJob (req_Interval req) [NewAtTime h m 0])).
Proof.
  intros Hty Hi Hh Hm Hs. unfold jobDefinitionOf. rewrite Hty. simpl String.eqb. cbv iota.
  destruct (Z.leb_spec (req_Interval req) 0) as [Hle|Hgt]; [lia|].
  split; intros ->.
  - unfold clock_hms at 1. rewrite clock_not_empty.
    destruct (clock_hms_parses h m s Hh Hm Hs) as [_ ->]. reflexivity.
  - unfold clock_hm at 1. rewrite clock_not_empty.
    destruct (clock_hm_parses h m Hh Hm) as [_ ->]. reflexivity.
Qed.

Lemma sched_calls_app (t1 t2 : list Event) :
  sched_calls (t1 ++ t2) = (sched_calls t1 ++ sched_calls t2)%list.
Proof.
  induction t1 as [|ev t1 IH]; [reflexivity|].
  destruct ev; simpl; now rewrite IH.
Qed.

(** X12: DeleteJob answers 200, 400 or 404 and never 500; for a
    well-formed identifier it calls RemoveJob once, without listing the
    jobs first, answers 200 "Job deleted successfully" exactly when
    RemoveJob returns no error, hands on the scheduler state that RemoveJob
    left, and does not touch the registry. *)
Theorem DeleteJob_outcomes (idStr : string) (w : World S) :
  (resp_status (fst (DeleteJob L sch idStr w)) = 200 \/
   resp_status (fst (DeleteJob L sch idStr w)) = 400 \/
   resp_status (fst (DeleteJob L sch idStr w)) = 404) /\
  resp_status (fst (DeleteJob L sch idStr w)) <> 500 /\
  (forall id, uuid_Parse L idStr = Ok id ->
     (resp_status (fst (DeleteJob L sch idStr w)) = 200 <->
      fst (sched_RemoveJob sch id (w_sched w)) = None) /\
     (fst (sched_RemoveJob sch id (w_sched w)) = None ->
      fst (DeleteJob L sch idStr w)
      = respondJSON 200 (BodyMap {[ "message" := "Job deleted successfully" ]})) /\
     sched_calls (w_trace (snd (DeleteJob L sch idStr w)))
     = (sched_calls (w_trace w) ++ [CallRemoveJob id])%list /\
     w_sched (snd (DeleteJob L sch idStr w)) = snd (sched_RemoveJob sch id (w_sched w)) /\
     wsClients (snd (DeleteJob L sch idStr w)) = wsClients w).
Proof.
  destruct (uuid_Parse L idStr) as [id|e] eqn:Hid.
  - rewrite (DeleteJob_run L sch _ _ _ Hid). simpl.
    destruct (fst (sched_RemoveJob sch id (w_sched w))) as [err|] eqn:E; simpl.
    + refine (conj _ (conj _ _)); [right; now right | discriminate |].
      intros id' Hid'. injection Hid' as <-. rewrite E.
      refine (conj _ (conj _ (conj _ (conj _ _)))); try reflexivity.
      * split; discriminate.
      * discriminate.
      * now rewrite sched_calls_app.
    + refine (conj _ (conj _ _)); [now left | discriminate |].
      intros id' Hid'. injection Hid' as <-. rewrite E.
      refine (conj _ (conj _ (conj _ (conj _ _)))); try reflexivity.
      * split; reflexivity.
      * now rewrite sched_calls_app.
  - unfold DeleteJob. rewrite Hid. simpl.
    refine (conj _ (conj _ _)); [right; now left | discriminate |].
    intros id Hid'. discriminate Hid'.
Qed.

Lemma scheduler_only_intro {A : Type} (n : nat) (h : World S -> A * World S) :
  (forall w, exists calls s',
     snd (h w) = mkWorld s' (wsClients w) (w_trace w ++ map EvSched calls) /\
     (List.length calls <= n)%nat) ->
  scheduler_only n h.
Proof.
  intros H w. destruct (H w) as (calls & s' & -> & Hlen). simpl. eauto.
Qed.

Lemma world_eta (w : World S) :
  w = mkWorld (w_sched w) (wsClients w) (w_trace w ++ map EvSched []).
Proof. destruct w. simpl. now rewrite app_nil_r. Qed.

(** X13: no REST handler touches the connection registry, writes to an
    observer or closes a connection: whatever the request and the world,
    GetJobs, GetJob, CreateJob, DeleteJob, StopScheduler and StartScheduler
    leave the registry as it was and add at most one scheduler call to the
    trace, and RunJob at most two. *)
Theorem rest_handlers_are_scheduler_only :
  scheduler_only 1 (GetJobs L sch) /\
  (forall idStr, scheduler_only 1 (GetJob L sch idStr)) /\
  (forall decoded, scheduler_only 1 (CreateJob L sch decoded)) /\
  (forall idStr, scheduler_only 1 (DeleteJob L sch idStr)) /\
  (forall idStr, scheduler_only 2 (RunJob L sch idStr)) /\
  scheduler_only 1 (StopScheduler sch) /\
  scheduler_only 1 (StartScheduler sch).
Proof.
  refine (conj _ (conj _ (conj _ (conj _ (conj _ (conj _ _))))));
    intros; apply scheduler_only_intro; intros w.
  - exists [CallJobs], (w_sched w). rewrite GetJobs_run. simpl. auto.
  - destruct (uuid_Parse L idStr) as [id|e] eqn:Hid.
    + exists [CallJobs], (w_sched w). rewrite (GetJob_run _ _ _ Hid). simpl. auto.
    + exists [], (w_sched w). unfold GetJob. rewrite Hid. simpl.
      split; [apply world_eta | lia].
  - destruct decoded as [req|e];
      [|exists [], (w_sched w); simpl; split; [apply world_eta | lia]].
    unfold CreateJob.
    destruct (String.eqb (req_Name req) "");
      [exists [], (w_sched w); simpl; split; [apply world_eta | lia]|].
    destruct (jobDefinitionOf req) as [early|jobDef];
      [exists [], (w_sched w); simpl; split; [apply world_eta | lia]|].
    unfold bind, call_NewJob, bind, emit, ret. simpl.
    destruct (sched_NewJob sch jobDef _ _ (w_sched w)) as [[job|e] s'];
      eexists [_], s'; simpl; auto.
  - destruct (uuid_Parse L idStr) as [id|e] eqn:Hid.
    + exists [CallRemoveJob id], (snd (sched_RemoveJob sch id (w_sched w))).
      rewrite (DeleteJob_run L sch _ _ _ Hid). simpl. auto.
    + exists [], (w_sched w). unfold DeleteJob. rewrite Hid. simpl.
      split; [apply world_eta | lia].
  - destruct (uuid_Parse L idStr) as [id|e] eqn:Hid.
    + rewrite (RunJob_run _ _ _ Hid).
      destruct (findJob id (sched_Jobs sch (w_sched w))) as [job|].
      * exists [CallJobs; CallRunNow (job_ID job)],
          (snd (sched_RunNow sch job (w_sched w))). simpl. auto.
      * exists [CallJobs], (w_sched w). simpl. auto.
    + exists [], (w_sched w). unfold RunJob. rewrite Hid. simpl.
      split; [apply world_eta | lia].
  - exists [CallStopJobs], (snd (sched_StopJobs sch (w_sched w))).
    unfold StopScheduler, bind, call_StopJobs, bind, emit, ret. simpl.
    destruct (sched_StopJobs sch (w_sched w)) as [[e|] s']; simpl; auto.
  - exists [CallStart], (sched_Start sch (w_sched w)). simpl. auto.
Qed.

End ControlAPIMore.

(* ===================================================================== *)
(** ** Further properties of the registry and the broadcast loop          *)
(* ===================================================================== *)

Section RegistryMore.

Context {S : Type}.
Variable L : GoLibs.
Variable sch : Scheduler S.

Lemma broadcastTo_registry (writeFails : Conn -> bool) (message : Message)
    (clients : list Conn) (w : World S) (conn : Conn) :
  wsClients (snd (broadcastTo writeFails message clients w)) !! conn =
  if bool_decide (conn ∈ clients) && writeFails conn then None
  else wsClients w !! conn.
Proof.
  revert w. induction clients as [|c clients IH]; intros w; [reflexivity|].
  simpl. unfold bind, emit, removeClient, ret. simpl.
  destruct (decide (c = conn)) as [->|Hne].
  - rewrite bool_decide_eq_true_2 by apply list_elem_of_here. simpl.
    destruct (writeFails conn) eqn:Hf; simpl; rewrite IH; simpl.
    + rewrite lookup_delete_eq. now destruct (bool_decide _ && _).
    + now rewrite andb_false_r.
  - assert (Hin : bool_decide (conn ∈ c :: clients) = bool_decide (conn ∈ clients)).
    { apply bool_decide_ext. rewrite elem_of_cons.
      split; [intros [E|Hin']; [congruence | exact Hin'] | intros Hin'; now right]. }
    rewrite Hin. destruct (writeFails c); simpl; rewrite IH; simpl; [|reflexivity].
    now rewrite lookup_delete_ne.
Qed.

Lemma broadcastTo_sched (writeFails : Conn -> bool) (message : Message)
    (clients : list Conn) (w : World S) :
  w_sched (snd (broadcastTo writeFails message clients w)) = w_sched w.
Proof.
  revert w. induction clients as [|c clients IH]; intros w; [reflexivity|].
  simpl. unfold bind, emit, removeClient, ret. simpl.
  destruct (writeFails c); simpl; now rewrite IH.
Qed.

(** X14: after a broadcast tick the registry holds exactly the
    connections it held before whose write did not fail: a connection whose
    write fails is gone, every other connection keeps its entry, and none
    is added; the tick does not change the scheduler. *)
Theorem tick_prunes_exactly_failed (writeFails : Conn -> bool) (w : World S)
    (conn : Conn) :
  wsClients (snd (broadcastTick L sch writeFails w)) !! conn =
    (if writeFails conn then None else wsClients w !! conn) /\
  (size (wsClients (snd (broadcastTick L sch writeFails w))) <= size (wsClients w))%nat /\
  w_sched (snd (broadcastTick L sch writeFails w)) = w_sched w.
Proof.
  assert (Hlook : forall c,
            wsClients (snd (broadcastTick L sch writeFails w)) !! c =
            (if writeFails c then None else wsClients w !! c)).
  { intros c. destruct (decide (wsClients w = ∅)) as [He | Hne].
    - rewrite (broadcastTick_empty L sch _ w He). simpl. rewrite He.
      destruct (writeFails c); [|reflexivity]. apply lookup_empty.
    - rewrite (broadcastTick_nonempty L sch _ w Hne), broadcastTo_registry. simpl.
      destruct (writeFails c); [|now rewrite andb_false_r].
      rewrite andb_true_r. destruct (bool_decide_reflect (c ∈ map fst (map_to_list (wsClients w))))
        as [_|Hnin]; [reflexivity|].
      destruct (wsClients w !! c) as [b|] eqn:Hc; [|reflexivity].
      elim Hnin. apply list_elem_of_fmap. exists (c, b). split; [reflexivity|].
      now apply elem_of_map_to_list. }
  split; [apply Hlook | split].
  - apply map_subseteq_size, map_subseteq_spec. intros c b. rewrite Hlook.
    destruct (writeFails c); [discriminate | tauto].
  - destruct (decide (wsClients w = ∅)) as [He | Hne].
    + now rewrite (broadcastTick_empty L sch _ w He).
    + now rewrite (broadcastTick_nonempty L sch _ w Hne), broadcastTo_sched.
Qed.

Lemma writes_of_app (t1 t2 : list Event) :
  writes_of (t1 ++ t2) = (writes_of t1 ++ writes_of t2)%list.
Proof.
  induction t1 as [|ev t1 IH]; [reflexivity|]. destruct ev; simpl; now rewrite IH.
Qed.

Lemma closes_of_app (t1 t2 : list Event) :
  closes_of (t1 ++ t2) = (closes_of t1 ++ closes_of t2)%list.
Proof.
  induction t1 as [|ev t1 IH]; [reflexivity|]. destruct ev; simpl; now rewrite IH.
Qed.

Lemma broadcastTo_trace (writeFails : Conn -> bool) (message : Message)
    (clients : list Conn) (w : World S) :
  exists events,
    w_trace (snd (broadcastTo writeFails message clients w)) = (w_trace w ++ events)%list /\
    writes_of events = map (fun c => (c, message)) clients /\
    closes_of events = List.filter writeFails clients /\
    sched_calls events = [].
Proof.
  revert w. induction clients as [|c clients IH]; intros w.
  - exists []. simpl. now rewrite app_nil_r.
  - simpl. unfold bind, emit, removeClient, ret. simpl.
    destruct (writeFails c) eqn:Hf; simpl.
    + destruct (IH (mkWorld (w_sched w) (delete c (wsClients w))
                      ((w_trace w ++ [EvWrite c message]) ++ [EvClose c])))
        as (events & Ht & Hw & Hc & Hs).
      exists (EvWrite c message :: EvClose c :: events). simpl in *.
      rewrite Ht, Hw, Hc, Hs, <- !app_assoc. simpl. auto.
    + destruct (IH (mkWorld (w_sched w) (wsClients w) (w_trace w ++ [EvWrite c message])))
        as (events & Ht & Hw & Hc & Hs).
      exists (EvWrite c message :: events). simpl in *.
      rewrite Ht, Hw, Hc, Hs, <- !app_assoc. simpl. auto.
Qed.

(** X15: a tick that finds observers builds one snapshot of the current
    jobs and writes that same message exactly once to every registered
    connection, a failed write not stopping the writes that follow; the
    connections it closes are exactly those whose write failed, and it
    makes no other call into the scheduler. *)
Theorem tick_writes_once_to_each (writeFails : Conn -> bool) (w : World S) :
  wsClients w <> ∅ ->
  exists events clients,
    w_trace (snd (broadcastTick L sch writeFails w))
    = (w_trace w ++ EvSched CallJobs :: events)%list /\
    writes_of events
    = map (fun c => (c, MsgJobs (map (convertJobToData L) (sched_Jobs sch (w_sched w)))))
        clients /\
    closes_of events = List.filter writeFails clients /\
    sched_calls events = [] /\
    NoDup clients /\
    (forall c, c ∈ clients <-> is_Some (wsClients w !! c)).
Proof.
  intros Hne. rewrite (broadcastTick_nonempty L sch _ w Hne).
  destruct (broadcastTo_trace writeFails
              (MsgJobs (map (convertJobToData L) (sched_Jobs sch (w_sched w))))
              (map fst (map_to_list (wsClients w)))
              (mkWorld (w_sched w) (wsClients w) (w_trace w ++ [EvSched CallJobs])))
    as (events & Ht & Hw & Hc & Hs).
  exists events, (map fst (map_to_list (wsClients w))).
  rewrite Ht. simpl. rewrite <- app_assoc. simpl.
  repeat split; try assumption.
  - apply NoDup_fst_map_to_list.
  - intros Hin. apply list_elem_of_fmap in Hin as ([c' b] & -> & Hin).
    apply elem_of_map_to_list in Hin. simpl. eauto.
  - intros [b Hb]. apply list_elem_of_fmap. exists (c, b).
    split; [reflexivity | now apply elem_of_map_to_list].
Qed.

Lemma wsConnect_run (conn : Conn) (w : World S) :
  wsConnect L sch conn w =
  (tt, mkWorld (w_sched w) (<[conn := true]> (wsClients w))
         (w_trace w ++ [EvSched CallJobs;
                        EvWrite conn (MsgJobs (map (convertJobToData L)
                                                 (sched_Jobs sch (w_sched w))))])).
Proof.
  unfold wsConnect, bind, addClient. rewrite getJobsData_run. unfold emit. simpl.
  now rewrite <- app_assoc.
Qed.

(** X16: when an observer connects, its connection is entered in the
    registry and every other entry is kept; the handler lists the jobs once
    and writes one message to the new connection, holding the very
    snapshots that GetJobs returns in the same world; the registry grows by
    one when the connection was not registered yet. *)
Theorem wsConnect_registers_and_pushes (conn : Conn) (w : World S) :
  let w' := snd (wsConnect L sch conn w) in
  wsClients w' !! conn = Some true /\
  (forall c, c <> conn -> wsClients w' !! c = wsClients w !! c) /\
  (wsClients w !! conn = None -> size (wsClients w') = Datatypes.S (size (wsClients w))) /\
  (exists snapshots,
     resp_body (fst (GetJobs L sch w)) = BodyJobs snapshots /\
     w_trace w' = (w_trace w ++ [EvSched CallJobs; EvWrite conn (MsgJobs snapshots)])%list) /\
  w_sched w' = w_sched w.
Proof.
  cbv zeta. rewrite wsConnect_run. simpl.
  refine (conj _ (conj _ (conj _ (conj _ _)))).
  - apply lookup_insert_eq.
  - intros c Hc. now apply lookup_insert_ne.
  - intros Hnone. now apply map_size_insert_None.
  - eexists. split; reflexivity.
  - reflexivity.
Qed.

(** X17: a run of HandleWebSocket whose upgrade fails leaves the world as
    it was; a run for a connection that was not registered before leaves
    the registry exactly as it found it, closes that connection once and
    nothing else, and sends it one message. *)
Theorem HandleWebSocket_round_trip (w : World S) :
  (forall e, HandleWebSocket L sch (Err e) w = (tt, w)) /\
  (forall conn, wsClients w !! conn = None ->
     wsClients (snd (HandleWebSocket L sch (Ok conn) w)) = wsClients w) /\
  (forall conn, exists events,
     w_trace (snd (HandleWebSocket L sch (Ok conn) w)) = (w_trace w ++ events)%list /\
     closes_of events = [conn] /\
     List.length (writes_of events) = 1%nat /\
     sched_calls events = [CallJobs]).
Proof.
  refine (conj _ (conj _ _)).
  - reflexivity.
  - intros conn Hnone. unfold HandleWebSocket, bind. rewrite wsConnect_run.
    unfold wsReadError, bind, removeClient, emit. simpl.
    now apply delete_insert_id.
  - intros conn. unfold HandleWebSocket, bind. rewrite wsConnect_run.
    unfold wsReadError, bind, removeClient, emit. simpl.
    eexists. rewrite <- app_assoc. split; [reflexivity|]. simpl. auto.
Qed.







End RegistryMore.

(* ===================================================================== *)
(** ** Further properties of [parseTime]                                  *)
(* ===================================================================== *)

Ltac parse_step' :=
  cbn -[GoTimeParse.getnum GoTimeParse.Date0 Z.ltb Z.leb two_digits one_digit
        GoTimeParse.spanDigits GoTimeParse.parseNanoseconds
        GoTimeParse.commaOrPeriod GoTimeParse.isDigit].

Lemma digit_range (c : ascii) :
  GoTimeParse.isDigit c = true -> 0 <= GoTimeParse.digit c <= 9.
Proof.
  unfold GoTimeParse.isDigit, GoTimeParse.digit. cbv zeta.
  rewrite andb_true_iff, !Z.leb_le. lia.
Qed.

Lemma spanDigits_range (s : string) :
  List.Forall (fun d => 0 <= d <= 9) (fst (GoTimeParse.spanDigits s)).
Proof.
  induction s as [|c s IH]; simpl; [constructor|].
  destruct (GoTimeParse.isDigit c) eqn:E; [|constructor].
  destruct (GoTimeParse.spanDigits s) as [ds r]. simpl in *.
  constructor; [now apply digit_range | exact IH].
Qed.

Lemma parseNanoseconds_range (ds : list Z) :
  List.Forall (fun d => 0 <= d <= 9) ds ->
  0 <= GoTimeParse.parseNanoseconds ds < Second.
Proof.
  intros H. unfold GoTimeParse.parseNanoseconds, Second.
  do 10 (destruct ds as [|? ds];
         [repeat match goal with
                 | Hf : List.Forall _ (_ :: _) |- _ => inversion Hf; subst; clear Hf
                 end; simpl; lia|]).
  repeat match goal with
         | Hf : List.Forall _ (_ :: _) |- _ => inversion Hf; subst; clear Hf
         end.
  simpl. lia.
Qed.

(** What the layout with seconds accepts. *)
Lemma Parse_hms_inv (value : string) (t : Time) :
  GoTimeParse.Parse "15:04:05" value = Ok t ->
  exists h m s ns, 0 <= h < 24 /\ 0 <= m < 60 /\ 0 <= s < 60 /\ 0 <= ns < Second /\
                   t = GoTimeParse.Date0 (GoTimeParse.mkFields h m s ns).
Proof.
  unfold GoTimeParse.Parse. parse_step'.
  destruct (GoTimeParse.getnum value false) as [[h v]|]; [|discriminate].
  destruct (Z.ltb_spec h 0); [discriminate|].
  destruct (Z.leb_spec 24 h); [discriminate|]. parse_step'.
  destruct v as [|c v]; [discriminate|].
  destruct (Ascii.eqb c ":"); [|discriminate]. parse_step'.
  destruct (GoTimeParse.getnum v true) as [[m v']|]; [|discriminate].
  destruct (Z.ltb_spec m 0); [discriminate|].
  destruct (Z.leb_spec 60 m); [discriminate|]. parse_step'.
  destruct v' as [|c' v']; [discriminate|].
  destruct (Ascii.eqb c' ":"); [|discriminate]. parse_step'.
  destruct (GoTimeParse.getnum v' true) as [[s v'']|]; [|discriminate].
  destruct (Z.ltb_spec s 0); [discriminate|].
  destruct (Z.leb_spec 60 s); [discriminate|]. parse_step'.
  destruct v'' as [|c0 [|c1 r]]; parse_step'.
  - intros E. injection E as <-. exists h, m, s, 0. unfold Second. repeat split; lia.
  - discriminate.
  - destruct (GoTimeParse.commaOrPeriod c0 && GoTimeParse.isDigit c1); [|discriminate].
    pose proof (spanDigits_range (String c1 r)) as Hr.
    destruct (GoTimeParse.spanDigits (String c1 r)) as [ds rest]. simpl in Hr.
    parse_step'. destruct rest; [|discriminate].
    intros E. injection E as <-.
    exists h, m, s, (GoTimeParse.parseNanoseconds ds).
    pose proof (parseNanoseconds_range ds Hr). repeat split; lia.
Qed.

(** X19: whatever string parseTime accepts, the time of day it returns
    has hours from 0 to 23 and minutes and seconds from 0 to 59, so the
    conversions to unsigned numbers in parseTime never see a negative
    value. *)
Theorem parseTime_result_in_range (value : string) (h m s : Z) :
  parseTime value = Ok (NewAtTime h m s) ->
  0 <= h < 24 /\ 0 <= m < 60 /\ 0 <= s < 60.
Proof.
  unfold parseTime.
  destruct (GoTimeParse.Parse "15:04:05" value) as [t|e] eqn:E1.
  - destruct (Parse_hms_inv _ _ E1) as (h' & m' & s' & ns & Hh & Hm & Hs & Hns & ->).
    destruct (Date0_clock h' m' s' ns Hh Hm Hs Hns) as (-> & -> & ->).
    intros E. injection E as <- <- <-. auto.
  - destruct (GoTimeParse.Parse "15:04" value) as [t|e'] eqn:E2; [|discriminate].
    destruct (Parse_hm_inv _ _ E2) as (h' & m' & Hh & Hm & ->).
    destruct (Date0_clock h' m' 0 0 Hh Hm) as (-> & -> & ->);
      [lia | unfold Second; lia |].
    intros E. injection E as <- <- <-. repeat split; lia.
Qed.

Lemma parseTime_result_in_range_witness :
  parseTime "23:59:59" = Ok (NewAtTime 23 59 59) /\ 0 <= 23 < 24.
Proof.
  split; [vm_compute; reflexivity|].
  apply (parseTime_result_in_range "23:59:59" 23 59 59). vm_compute. reflexivity.
Defined.

Ltac range_cases :=
  match goal with
  | |- context [(?a <? ?b) || (?c <=? ?d)] =>
    destruct (Z.ltb_spec a b); [lia|]; destruct (Z.leb_spec c d); parse_step'
  end.

Ltac number_then_range := rewrite getnum_two_digits by lia; range_cases.

Lemma Parse_hms_rejects (h m s : Z) :
  0 <= h < 100 -> 0 <= m < 100 -> 0 <= s < 100 ->
  24 <= h \/ 60 <= m \/ 60 <= s ->
  exists e, GoTimeParse.Parse "15:04:05" (clock_hms h m s) = Err e.
Proof.
  intros Hh Hm Hs Hbad. unfold GoTimeParse.Parse, clock_hms. parse_step'.
  number_then_range; [eauto|]. rewrite append_cons, append_nil. parse_step'.
  number_then_range; [eauto|]. rewrite append_cons, append_nil. parse_step'.
  change (two_digits s) with (two_digits s +:+ "").
  number_then_range; [eauto | lia].
Qed.

Lemma Parse_hm_rejects_hms (h m s : Z) :
  0 <= h < 100 -> 0 <= m < 100 -> 0 <= s < 100 ->
  exists e, GoTimeParse.Parse "15:04" (clock_hms h m s) = Err e.
Proof.
  intros Hh Hm Hs. unfold GoTimeParse.Parse, clock_hms. parse_step'.
  number_then_range; [eauto|]. rewrite append_cons, append_nil. parse_step'.
  number_then_range; [eauto|]. rewrite append_cons. parse_step'. eauto.
Qed.

Lemma Parse_hm_rejects (h m : Z) :
  0 <= h < 100 -> 0 <= m < 100 -> 24 <= h \/ 60 <= m ->
  exists e, GoTimeParse.Parse "15:04" (clock_hm h m) = Err e.
Proof.
  intros Hh Hm Hbad. unfold GoTimeParse.Parse, clock_hm. parse_step'.
  number_then_range; [eauto|]. rewrite append_cons, append_nil. parse_step'.
  change (two_digits m) with (two_digits m +:+ "").
  number_then_range; [eauto | lia].
Qed.

Lemma Parse_hms_rejects_hm (h m : Z) :
  0 <= h < 100 -> 0 <= m < 100 ->
  exists e, GoTimeParse.Parse "15:04:05" (clock_hm h m) = Err e.
Proof.
  intros Hh Hm. unfold GoTimeParse.Parse, clock_hm. parse_step'.
  number_then_range; [eauto|]. rewrite append_cons, append_nil. parse_step'.
  change (two_digits m) with (two_digits m +:+ "").
  number_then_range; eauto.
Qed.

(** X20: a time of day written with two digits per field and a field out
    of range (hours 24 to 99, minutes or seconds 60 to 99) is refused by
    parseTime, with or without seconds, and a daily request carrying it is
    answered 400 "Invalid time format. Use HH:MM:SS". *)
Theorem parseTime_rejects_out_of_range (h m s : Z) :
  0 <= h < 100 -> 0 <= m < 100 -> 0 <= s < 100 ->
  (24 <= h \/ 60 <= m \/ 60 <= s -> exists e, parseTime (clock_hms h m s) = Err e) /\
  (24 <= h \/ 60 <= m -> exists e, parseTime (clock_hm h m) = Err e) /\
  (forall req, req_Type req = "daily" -> 0 < req_Interval req ->
     (req_AtTime req = clock_hms h m s /\ (24 <= h \/ 60 <= m \/ 60 <= s)) \/
     (req_AtTime req = clock_hm h m /\ (24 <= h \/ 60 <= m)) ->
     jobDefinitionOf req
     = inl (respondError 400 "Invalid time format. Use HH:MM:SS")).
Proof.
  intros Hh Hm Hs.
  assert (H1 : 24 <= h \/ 60 <= m \/ 60 <= s -> exists e, parseTime (clock_hms h m s) = Err e).
  { intros Hbad. unfold parseTime.
    destruct (Parse_hms_rejects h m s Hh Hm Hs Hbad) as [e ->].
    destruct (Parse_hm_rejects_hms h m s Hh Hm Hs) as [e' ->]. eauto. }
  assert (H2 : 24 <= h \/ 60 <= m -> exists e, parseTime (clock_hm h m) = Err e).
  { intros Hbad. unfold parseTime.
    destruct (Parse_hms_rejects_hm h m Hh Hm) as [e ->].
    destruct (Parse_hm_rejects h m Hh Hm Hbad) as [e' ->]. eauto. }
  refine (conj H1 (conj H2 _)).
  intros req Hty Hi Hat. unfold jobDefinitionOf. rewrite Hty. simpl String.eqb. cbv iota.
  destruct (Z.leb_spec (req_Interval req) 0) as [Hle|Hgt]; [lia|].
  destruct Hat as [[-> Hbad] | [-> Hbad]].
  - unfold clock_hms at 1. rewrite clock_not_empty.
    destruct (H1 Hbad) as [e ->]. reflexivity.
  - unfold clock_hm at 1. rewrite clock_not_empty.
    destruct (H2 Hbad) as [e ->]. reflexivity.
Qed.

Lemma parseTime_rejects_out_of_range_witness :
  (exists e, parseTime "24:00:00" = Err e) /\ (exists e, parseTime "12:60" = Err e).
Proof.
  destruct (parseTime_rejects_out_of_range 24 0 0) as (H1 & _ & _); try lia.
  destruct (parseTime_rejects_out_of_range 12 60 0) as (_ & H2 & _); try lia.
  split; [apply H1; lia | apply H2; lia].
Defined.

Lemma append_assoc_r (a b c : string) : (a +:+ b) +:+ c = a +:+ (b +:+ c).
Proof.
  induction a as [|x a IH]; [reflexivity|]. rewrite !append_cons. now rewrite IH.
Qed.

Lemma getnum_one_digit (n : Z) (c : ascii) (rest : string) (fixed : bool) :
  0 <= n < 10 -> GoTimeParse.isDigit c = false ->
  GoTimeParse.getnum (one_digit n +:+ String c rest) fixed =
  if fixed then None else Some (n, String c rest).
Proof.
  intros Hn Hc. unfold one_digit. rewrite append_cons, append_nil.
  unfold GoTimeParse.getnum.
  destruct (digit_char n Hn) as [-> ->]. rewrite Hc. reflexivity.
Qed.

Lemma spanDigits_all (s : string) :
  all_digits s = true -> snd (GoTimeParse.spanDigits s) = "".
Proof.
  induction s as [|c s IH]; simpl; [reflexivity|].
  rewrite andb_true_iff. intros [-> Hs].
  destruct (GoTimeParse.spanDigits s) as [ds r]. simpl in *. now apply IH.
Qed.

(** X21: parseTime accepts more than the "HH:MM:SS" its error message
    asks for: an hour written with a single digit ("H:MM" and "H:MM:SS"),
    and a fraction of digits after the seconds, introduced by a period or a
    comma, which is dropped; a minute written with a single digit is
    refused. *)
Theorem parseTime_accepts_variants (h m s : Z) (frac : string) :
  0 <= h < 10 -> 0 <= m < 60 -> 0 <= s < 60 ->
  parseTime (one_digit h +:+ ":" +:+ two_digits m) = Ok (NewAtTime h m 0) /\
  parseTime (one_digit h +:+ ":" +:+ two_digits m +:+ ":" +:+ two_digits s)
  = Ok (NewAtTime h m s) /\
  (frac <> "" -> all_digits frac = true ->
   parseTime (clock_hms h m s +:+ "." +:+ frac) = Ok (NewAtTime h m s) /\
   parseTime (clock_hms h m s +:+ "," +:+ frac) = Ok (NewAtTime h m s)) /\
  (0 <= m < 10 -> exists e, parseTime (two_digits h +:+ ":" +:+ one_digit m) = Err e).
Proof.
  intros Hh Hm Hs.
  assert (Hh24 : 0 <= h < 24) by lia.
  refine (conj _ (conj _ (conj _ _))).
  - assert (E1 : exists e, GoTimeParse.Parse "15:04:05"
                   (one_digit h +:+ ":" +:+ two_digits m) = Err e).
    { unfold GoTimeParse.Parse. parse_step'.
      rewrite append_cons, append_nil.
      rewrite (getnum_one_digit h ":" _ false Hh eq_refl). range_cases; [lia|].
      change (two_digits m) with (two_digits m +:+ ""). number_then_range; eauto. }
    destruct E1 as [e E1]. unfold parseTime. rewrite E1.
    assert (E2 : GoTimeParse.Parse "15:04" (one_digit h +:+ ":" +:+ two_digits m)
                 = Ok (GoTimeParse.Date0 (GoTimeParse.mkFields h m 0 0))).
    { unfold GoTimeParse.Parse. parse_step'.
      rewrite append_cons, append_nil.
      rewrite (getnum_one_digit h ":" _ false Hh eq_refl). range_cases; [lia|].
      change (two_digits m) with (two_digits m +:+ ""). number_then_range; [lia|].
      reflexivity. }
    rewrite E2. destruct (Date0_clock h m 0 0 Hh24 Hm) as (-> & -> & ->);
      [lia | unfold Second; lia | reflexivity].
  - assert (E1 : GoTimeParse.Parse "15:04:05"
                   (one_digit h +:+ ":" +:+ two_digits m +:+ ":" +:+ two_digits s)
                 = Ok (GoTimeParse.Date0 (GoTimeParse.mkFields h m s 0))).
    { unfold GoTimeParse.Parse. parse_step'.
      rewrite append_cons, append_nil.
      rewrite (getnum_one_digit h ":" _ false Hh eq_refl). range_cases; [lia|].
      number_then_range; [lia|]. rewrite append_cons, append_nil. parse_step'.
      change (two_digits s) with (two_digits s +:+ ""). number_then_range; [lia|].
      reflexivity. }
    unfold parseTime. rewrite E1.
    destruct (Date0_clock h m s 0 Hh24 Hm Hs) as (-> & -> & ->);
      [unfold Second; lia | reflexivity].
  - intros Hne Hall.
    assert (Hfrac : forall sep, GoTimeParse.commaOrPeriod sep = true ->
              parseTime (clock_hms h m s +:+ String sep frac) = Ok (NewAtTime h m s)).
    { intros sep Hsep.
      destruct frac as [|c1 r]; [now elim Hne|].
      pose proof Hall as Hall'. simpl in Hall'. apply andb_true_iff in Hall' as [Hc1 _].
      pose proof (spanDigits_all _ Hall) as Hrest.
      pose proof (spanDigits_range (String c1 r)) as Hrange.
      assert (E1 : exists ns, 0 <= ns < Second /\
                GoTimeParse.Parse "15:04:05" (clock_hms h m s +:+ String sep (String c1 r))
                = Ok (GoTimeParse.Date0 (GoTimeParse.mkFields h m s ns))).
      { unfold GoTimeParse.Parse, clock_hms. rewrite !append_assoc_r.
        parse_step'.
        number_then_range; [lia|]. rewrite append_cons, append_nil. parse_step'.
        number_then_range; [lia|]. rewrite append_cons, append_nil. parse_step'.
        number_then_range; [lia|]. rewrite Hsep, Hc1. parse_step'.
        destruct (GoTimeParse.spanDigits (String c1 r)) as [ds rest].
        simpl in Hrest, Hrange. subst rest. parse_step'.
        exists (GoTimeParse.parseNanoseconds ds).
        split; [now apply parseNanoseconds_range | reflexivity]. }
      destruct E1 as (ns & Hns & E1). unfold parseTime. rewrite E1.
      destruct (Date0_clock h m s ns Hh24 Hm Hs Hns) as (-> & -> & ->). reflexivity. }
    split; [apply (Hfrac "."%char) | apply (Hfrac ","%char)]; reflexivity.
  - intros Hm1.
    assert (E1 : exists e, GoTimeParse.Parse "15:04:05"
                   (two_digits h +:+ ":" +:+ one_digit m) = Err e).
    { unfold GoTimeParse.Parse. parse_step'.
      number_then_range; [lia|]. rewrite append_cons, append_nil. parse_step'.
      unfold one_digit, GoTimeParse.getnum.
      destruct (digit_char m Hm1) as [-> _]. eauto. }
    assert (E2 : exists e, GoTimeParse.Parse "15:04"
                   (two_digits h +:+ ":" +:+ one_digit m) = Err e).
    { unfold GoTimeParse.Parse. parse_step'.
      number_then_range; [lia|]. rewrite append_cons, append_nil. parse_step'.
      unfold one_digit, GoTimeParse.getnum.
      destruct (digit_char m Hm1) as [-> _]. eauto. }
    destruct E1 as [e E1], E2 as [e' E2]. unfold parseTime. rewrite E1, E2. eauto.
Qed.

Lemma parseTime_accepts_variants_witness :
  parseTime "9:05" = Ok (NewAtTime 9 5 0) /\
  parseTime "09:05:07.250" = Ok (NewAtTime 9 5 7).
Proof.
  destruct (parseTime_accepts_variants 9 5 7 "250") as (H1 & _ & H3 & _); try lia.
  split; [exact H1|]. apply H3; [discriminate | reflexivity].
Defined.

(* ===================================================================== *)
(** ** The further properties at concrete inputs                          *)
(* ===================================================================== *)

Lemma GetJob_agrees_with_GetJobs_witness :
  resp_status (fst (GetJob Reference.libs Reference.scheduler Reference.idA
                      Reference.world0)) = 200 /\
  snd (GetJob Reference.libs Reference.scheduler Reference.idA Reference.world0)
  = snd (GetJobs Reference.libs Reference.scheduler Reference.world0).
Proof.
  destruct (GetJob_agrees_with_GetJobs Reference.libs Reference.scheduler
              Reference.idA 42%N Reference.world0 eq_refl) as (Hfound & _ & _ & Hsame).
  split; [|exact Hsame].
  apply Hfound. exists (Reference.tenSecondJob 42%N "heartbeat" Reference.noon).
  split; [now left | reflexivity].
Defined.

Lemma RunJob_outcomes_witness :
  fst (RunJob Reference.libs Reference.scheduler Reference.idA Reference.world0)
  = respondJSON 200 (BodyMap {[ "message" := "Job executed" ]}) /\
  fst (RunJob Reference.libs Reference.scheduler "00000000-0000-0000-0000-00000000002b"
         Reference.world0)
  = respondError 404 "Job not found".
Proof.
  destruct (RunJob_outcomes Reference.libs Reference.scheduler Reference.idA
              Reference.world0) as (_ & _ & Hrun).
  destruct (RunJob_outcomes Reference.libs Reference.scheduler
              "00000000-0000-0000-0000-00000000002b" Reference.world0) as (_ & Habs & _).
  split.
  - apply (Hrun 42%N [] (Reference.tenSecondJob 42%N "heartbeat" Reference.noon) []);
      try reflexivity. constructor.
  - apply (Habs 43%N eq_refl). repeat constructor. discriminate.
Defined.

Lemma CreateJob_status_characterised_witness :
  resp_status (fst (CreateJob Reference.libs Reference.scheduler
                      (Ok (mkCreateJobRequest "x" "weekly" 1 "" "" []))
                      Reference.world0)) = 400.
Proof.
  apply (CreateJob_status_characterised Reference.libs Reference.scheduler
           (Ok (mkCreateJobRequest "x" "weekly" 1 "" "" [])) Reference.world0).
  right; right; right; right. simpl. repeat split; discriminate.
Defined.

Lemma CreateJob_success_witness :
  let req := mkCreateJobRequest "backup" "cron" 0 "0 3 * * *" "" ["nightly"] in
  resp_status (fst (CreateJob Reference.libs Reference.scheduler (Ok req)
                      Reference.world0)) = 201 /\
  jobOptionsOf req = [WithName "backup"; WithTags ["nightly"]].
Proof.
  cbv zeta.
  destruct (CreateJob_success Reference.libs Reference.scheduler
              (mkCreateJobRequest "backup" "cron" 0 "0 3 * * *" "" ["nightly"])
              (CronJob "0 3 * * *" false)
              (mkJob 43%N "backup" ["nightly"] (0, None) (0, None) (fun _ => ([], None)))
              (Reference.mkState
                 (Reference.rs_jobs (w_sched Reference.world0) ++
                  [mkJob 43%N "backup" ["nightly"] (0, None) (0, None)
                     (fun _ => ([], None))])
                 44%N true)
              Reference.world0)
    as (Hrun & _ & Htags & _); [discriminate | reflexivity | reflexivity |].
  split; [now rewrite Hrun | apply Htags; discriminate].
Defined.

Lemma duration_interval_wraps_witness :
  jobDefinitionOf (mkCreateJobRequest "j" "duration" 10 "" "" [])
  = inr (DurationJob (10 * Second)) /\
  jobDefinitionOf (mkCreateJobRequest "j" "duration" 9223372037 "" "" [])
  = inr (DurationJob (9223372037 * Second - 2 ^ 64)).
Proof.
  destruct (duration_interval_wraps (mkCreateJobRequest "j" "duration" 10 "" "" [])
              eq_refl) as (Hsmall & _).
  destruct (duration_interval_wraps (mkCreateJobRequest "j" "duration" 9223372037 "" "" [])
              eq_refl) as (_ & Hlarge & _).
  split; [apply Hsmall; simpl; lia | apply Hlarge; simpl; lia].
Defined.

Lemma daily_definition_from_clock_witness :
  jobDefinitionOf (mkCreateJobRequest "j" "daily" 2 "" "06:45:30" [])
  = inr (DailyJob 2 [NewAtTime 6 45 30]).
Proof.
  assert (Hi : 0 < req_Interval (mkCreateJobRequest "j" "daily" 2 "" "06:45:30" []))
    by (simpl; lia).
  assert (Hh : 0 <= 6 < 24) by lia.
  assert (Hm : 0 <= 45 < 60) by lia.
  assert (Hs : 0 <= 30 < 60) by lia.
  destruct (daily_definition_from_clock
              (mkCreateJobRequest "j" "daily" 2 "" "06:45:30" []) 6 45 30
              eq_refl Hi Hh Hm Hs) as [Hhms _].
  apply Hhms. reflexivity.
Defined.

Lemma DeleteJob_outcomes_witness :
  fst (DeleteJob Reference.libs Reference.scheduler Reference.idA Reference.world0)
  = respondJSON 200 (BodyMap {[ "message" := "Job deleted successfully" ]}).
Proof.
  destruct (DeleteJob_outcomes Reference.libs Reference.scheduler Reference.idA
              Reference.world0) as (_ & _ & Hok).
  destruct (Hok 42%N eq_refl) as (_ & Hbody & _). apply Hbody. reflexivity.
Defined.

Lemma tick_writes_once_to_each_witness :
  exists events,
    w_trace (snd (broadcastTick Reference.libs Reference.scheduler Reference.secondGone
                    Reference.watchedWorld))
    = EvSched CallJobs :: events /\
    List.length (writes_of events) = 2%nat /\ closes_of events = [2%positive].
Proof.
  destruct (tick_writes_once_to_each Reference.libs Reference.scheduler
              Reference.secondGone Reference.watchedWorld)
    as (events & clients & Ht & Hw & Hc & _ & _ & _).
  - intros He. apply (f_equal (fun m => m !! 1%positive)) in He. discriminate He.
  - exists events. split; [exact Ht|].
    assert (E : events = skipn 1 (w_trace (snd (broadcastTick Reference.libs
                  Reference.scheduler Reference.secondGone Reference.watchedWorld))))
      by (rewrite Ht; reflexivity).
    rewrite E. vm_compute. split; reflexivity.
Defined.

Lemma wsConnect_registers_and_pushes_witness :
  size (wsClients (snd (wsConnect Reference.libs Reference.scheduler 3%positive
                          Reference.watchedWorld))) = 3%nat.
Proof.
  destruct (wsConnect_registers_and_pushes Reference.libs Reference.scheduler
              3%positive Reference.watchedWorld) as (_ & _ & Hsize & _).
  rewrite Hsize; reflexivity.
Defined.

Lemma HandleWebSocket_round_trip_witness :
  wsClients (snd (HandleWebSocket Reference.libs Reference.scheduler (Ok 3%positive)
                    Reference.watchedWorld))
  = wsClients Reference.watchedWorld.
Proof.
  destruct (HandleWebSocket_round_trip Reference.libs Reference.scheduler
              Reference.watchedWorld) as (_ & Hback & _).
  apply Hback. reflexivity.
Defined.


(* ===================================================================== *)
(** ** The example program seen through the schedule descriptor           *)
(* ===================================================================== *)

Lemma inferSchedule_of_name (job : Job) (label : string * string) (runs : list Time) :
  inferFromName (job_Name job) = Some label -> inferSchedule job runs = label.
Proof. intros H. unfold inferSchedule. now rewrite H. Qed.

Lemma inferSchedule_of_gap (job : Job) (t0 : Time) (d : Duration) (rest : list Time) :
  inferFromName (job_Name job) = None -> minDuration <= d <= maxDuration ->
  inferSchedule job (t0 :: @cons Time (t0 + d) rest) = inferFromInterval d.
Proof. intros H Hd. unfold inferSchedule. now rewrite H, Sub_add. Qed.

(** X22: for each of the fourteen jobs that the example program
    registers, the label that inferSchedule gives to a job of that name,
    from two consecutive runs of its definition, says what the definition
    says: "Every N seconds", possibly followed by a remark, for the real
    interval N of every DurationJob (from the name table for six of them,
    from the distance of the runs for "fast-5s-job", "event-listener-job",
    "data-processor-job" and "health-check-job"), "Daily", "Weekly: Mon,
    Wed, Fri" and "Random: 5-15s" for the daily, weekly and random jobs,
    and for the cron job ("Every minute", "Duration: 1m"), which the
    every/minute row gives it before the cron row is tried. *)
Theorem example_jobs_are_described (job : Job) (t0 t1 : Time) (rest : list Time) :
  forall ex, In ex Examples.examples ->
    job_Name job = Examples.ex_name ex ->
    Examples.consecutive ex t0 t1 ->
    Examples.describes ex (inferSchedule job (t0 :: t1 :: rest)).
Proof.
  intros ex Hin. unfold Examples.examples in Hin. cbn [In] in Hin.
  repeat (destruct Hin as [<- | Hin]); try contradiction;
    cbv [Examples.describes Examples.consecutive Examples.ex_definition Examples.ex_name];
    intros Hname Hcons; try subst t1;
    first
      [ rewrite (inferSchedule_of_name job _ _ ltac:(rewrite Hname; vm_compute; reflexivity));
        first [ vm_compute; reflexivity
              | exists ""; vm_compute; reflexivity
              | exists " (singleton)"; vm_compute; reflexivity
              | exists " (limited)"; vm_compute; reflexivity ]
      | match goal with
        | |- context [inferSchedule job (t0 :: t0 + ?d :: rest)] =>
          rewrite (inferSchedule_of_gap job t0 d rest
                     ltac:(rewrite Hname; vm_compute; reflexivity)
                     ltac:(vm_compute; split; discriminate))
        end;
        exists ""; vm_compute; reflexivity ].
Qed.

Lemma example_jobs_are_described_witness :
  let job := mkJob 7%N "cron-every-minute" [] (0, None) (0, None) (fun _ => ([], None)) in
  inferSchedule job [0; Minute] = ("Every minute", "Duration: 1m").
Proof.
  cbv zeta.
  apply (example_jobs_are_described
           (mkJob 7%N "cron-every-minute" [] (0, None) (0, None) (fun _ => ([], None)))
           0 Minute []
           (Examples.mkExample (Examples.CronJob "* * * * *" false) "cron-every-minute"
              ["cron"; "periodic"] [])).
  - simpl. tauto.
  - reflexivity.
  - reflexivity.
Defined.

(* ===================================================================== *)
(** ** Properties of the page script                                      *)
(* ===================================================================== *)

Module WebUIFacts.
Import WebUI.

Lemma cleanUp_fold (ids : gset string) (l : list string) (acc : gset string) (id : string) :
  id ∈ fold_left (fun acc id => if bool_decide (id ∈ ids) then acc else acc ∖ {[ id ]}) l acc
  <-> id ∈ acc /\ (id ∈ l -> id ∈ ids).
Proof.
  revert acc. induction l as [|x l IH]; intros acc; simpl.
  - split; [intros H; split; [exact H | intros Hin; inversion Hin] | tauto].
  - rewrite IH. rewrite elem_of_cons.
    destruct (bool_decide_reflect (x ∈ ids)) as [Hx|Hx].
    + split; intros [Ha Hl]; (split; [exact Ha|]).
      * intros [->|Hin]; [exact Hx | now apply Hl].
      * intros Hin. apply Hl. now right.
    + rewrite elem_of_difference, elem_of_singleton.
      split.
      * intros [[Ha Hne] Hl]. split; [exact Ha|].
        intros [->|Hin]; [now elim Hne | now apply Hl].
      * intros [Ha Hl]. split; [split; [exact Ha|] | intros Hin; apply Hl; now right].
        intros ->. apply Hx, Hl. now left.
Qed.

Lemma cleanUp_spec (js : list JobData) (expanded : gset string) (id : string) :
  id ∈ cleanUp js expanded <-> id ∈ expanded /\ exists job, In job js /\ jd_ID job = id.
Proof.
  unfold cleanUp. destruct js as [|j js'].
  - simpl. split; [intros H; now apply not_elem_of_empty in H|].
    intros [_ (job & [] & _)].
  - set (js := j :: js'). change (0 <? List.length js)%nat with true. cbv iota zeta.
    rewrite cleanUp_fold, elem_of_elements, elem_of_list_to_set.
    rewrite list_elem_of_In, in_map_iff.
    split.
    + intros [Hin Hids]. split; [exact Hin|].
      destruct (Hids Hin) as (job & Hid & Hjob). eauto.
    + intros [Hin (job & Hjob & Hid)]. split; [exact Hin|]. intros _. eauto.
Qed.

Lemma rendered_expanded_inv (p : Page) (id : string) :
  id ∈ expandedSchedules (renderJobs p) ->
  id ∈ expandedSchedules p /\ exists job, In job (jobs p) /\ jd_ID job = id.
Proof. apply cleanUp_spec. Qed.

(** X23: when renderJobs runs, an id stays in expandedSchedules exactly
    when it was there before and some job of the current list has it: the
    ids of jobs that are gone are forgotten, the expanded state of the jobs
    that remain is kept, nothing is added, and an empty job list empties
    the set; a message that is not of type "jobs" changes nothing. *)
Theorem render_keeps_expanded_of_current_jobs (p : Page) (id : string) :
  (id ∈ expandedSchedules (renderJobs p) <->
   id ∈ expandedSchedules p /\ exists job, In job (jobs p) /\ jd_ID job = id) /\
  (jobs p = [] -> expandedSchedules (renderJobs p) = ∅) /\
  (forall data,
     id ∈ expandedSchedules (onmessage (JobsMessage (Some data)) p) <->
     id ∈ expandedSchedules p /\ exists job, In job data /\ jd_ID job = id) /\
  expandedSchedules (onmessage (JobsMessage None) p) = ∅ /\
  onmessage NotJSON p = p /\ onmessage OtherType p = p.
Proof.
  refine (conj _ (conj _ (conj _ (conj _ (conj _ _))))); try reflexivity.
  - apply cleanUp_spec.
  - intros He. simpl. unfold cleanUp. now rewrite He.
  - intros data. apply cleanUp_spec.
Qed.

Lemma rendered_lookup {A : Type} (f : string -> A) (cards : list JobData) (id : string) :
  (list_to_map (map (fun job => (jd_ID job, f (jd_ID job))) cards) : gmap string A) !! id
  = if bool_decide (id ∈ map jd_ID cards) then Some (f id) else None.
Proof.
  induction cards as [|c cards IH]; cbn [map].
  - rewrite list_to_map_nil, lookup_empty.
    now rewrite bool_decide_eq_false_2 by apply not_elem_of_nil.
  - rewrite list_to_map_cons, lookup_insert.
    destruct (decide (jd_ID c = id)) as [->|Hne].
    + now rewrite bool_decide_eq_true_2 by apply list_elem_of_here.
    + rewrite IH. apply (f_equal (fun b : bool => if b then Some (f id) else None)).
      apply bool_decide_ext. rewrite elem_of_cons.
      split; [now right | intros [E|Hin]; [congruence | exact Hin]].
Qed.

Lemma listed_cards (id : string) (js : list JobData) :
  id ∈ map jd_ID (List.filter hasUpcoming js) <-> listed id js.
Proof.
  unfold listed. rewrite list_elem_of_In, in_map_iff. split.
  - intros (job & Hid & Hin). apply filter_In in Hin as [Hin Hup].
    exists job. repeat split; try assumption.
    unfold hasUpcoming in Hup. intros He. rewrite He in Hup. discriminate.
  - intros (job & Hin & Hid & Hne). exists job. split; [exact Hid|].
    apply filter_In. split; [exact Hin|]. unfold hasUpcoming.
    destruct (jd_NextRuns job); [now elim Hne | reflexivity].
Qed.

Lemma render_display (p : Page) (id : string) :
  scheduleDisplay (renderJobs p) !! id =
  if bool_decide (id ∈ map jd_ID (List.filter hasUpcoming (jobs p))) then
    Some (if bool_decide (id ∈ expandedSchedules (renderJobs p)) then "block" else "none")
  else None.
Proof.
  unfold renderJobs. simpl.
  pose (f := fun i : string =>
               if bool_decide (i ∈ cleanUp (jobs p) (expandedSchedules p))
               then "block" else "none").
  exact (rendered_lookup f (List.filter hasUpcoming (jobs p)) id).
Qed.

Lemma render_icon (p : Page) (id : string) :
  toggleIcon (renderJobs p) !! id =
  if bool_decide (id ∈ map jd_ID (List.filter hasUpcoming (jobs p))) then
    Some (if bool_decide (id ∈ expandedSchedules (renderJobs p))
          then expandedIcon else collapsedIcon)
  else None.
Proof.
  unfold renderJobs. simpl.
  pose (f := fun i : string =>
               if bool_decide (i ∈ cleanUp (jobs p) (expandedSchedules p))
               then expandedIcon else collapsedIcon).
  exact (rendered_lookup f (List.filter hasUpcoming (jobs p)) id).
Qed.

(** X24: after renderJobs the list of upcoming runs of a job is in the
    document exactly when the job has upcoming runs, shown ("block") when
    its id is in expandedSchedules and hidden ("none") otherwise;
    toggleSchedule on such a job succeeds and flips both the display and
    the membership in expandedSchedules, and it raises an error for an id
    that has no such list in the document. *)
Theorem toggle_flips_rendered_schedule (p : Page) (id : string) :
  (listed id (jobs p) ->
   scheduleDisplay (renderJobs p) !! id
   = Some (if bool_decide (id ∈ expandedSchedules (renderJobs p))
           then "block" else "none") /\
   exists p1, toggleSchedule id (renderJobs p) = Some p1 /\
     (id ∈ expandedSchedules p1 <-> id ∉ expandedSchedules (renderJobs p)) /\
     scheduleDisplay p1 !! id
     = Some (if bool_decide (id ∈ expandedSchedules p1) then "block" else "none") /\
     (forall other, other <> id ->
        (other ∈ expandedSchedules p1 <-> other ∈ expandedSchedules (renderJobs p)) /\
        scheduleDisplay p1 !! other = scheduleDisplay (renderJobs p) !! other)) /\
  (~ listed id (jobs p) ->
   scheduleDisplay (renderJobs p) !! id = None /\
   toggleSchedule id (renderJobs p) = None).
Proof.
  split.
  - intros Hl. apply listed_cards in Hl.
    pose proof (render_display p id) as Hd. pose proof (render_icon p id) as Hi.
    rewrite bool_decide_eq_true_2 in Hd, Hi by exact Hl.
    split; [exact Hd|]. unfold toggleSchedule. rewrite Hd, Hi.
    destruct (bool_decide_reflect (id ∈ expandedSchedules (renderJobs p))) as [He|He].
    + simpl. eexists. split; [reflexivity|]. simpl.
      refine (conj _ (conj _ _)).
      * rewrite elem_of_difference, elem_of_singleton. tauto.
      * rewrite lookup_insert_eq.
        rewrite bool_decide_eq_false_2; [reflexivity|].
        rewrite elem_of_difference, elem_of_singleton. tauto.
      * intros other Hne. split.
        -- rewrite elem_of_difference, elem_of_singleton. tauto.
        -- now apply lookup_insert_ne.
    + simpl. eexists. split; [reflexivity|]. simpl.
      refine (conj _ (conj _ _)).
      * rewrite elem_of_union, elem_of_singleton. tauto.
      * rewrite lookup_insert_eq.
        rewrite bool_decide_eq_true_2; [reflexivity|].
        rewrite elem_of_union, elem_of_singleton. tauto.
      * intros other Hne. split.
        -- rewrite elem_of_union, elem_of_singleton. tauto.
        -- now apply lookup_insert_ne.
  - intros Hn. rewrite <- listed_cards in Hn.
    pose proof (render_display p id) as Hd.
    rewrite bool_decide_eq_false_2 in Hd by exact Hn.
    split; [exact Hd|]. unfold toggleSchedule. now rewrite Hd.
Qed.

(** X25: the expanded state survives the refresh that every "jobs"
    message causes: after a schedule was toggled open, any later message
    that still lists the job with upcoming runs renders it open again, and
    one that no longer carries a job of that id forgets it; toggling a
    rendered schedule twice restores the expanded set, the display and the
    icon it had. *)
Theorem expanded_state_survives_refresh (p p1 : Page) (id : string) :
  toggleSchedule id (renderJobs p) = Some p1 ->
  (id ∉ expandedSchedules (renderJobs p) ->
   forall data, listed id data ->
     scheduleDisplay (onmessage (JobsMessage (Some data)) p1) !! id = Some "block" /\
     toggleIcon (onmessage (JobsMessage (Some data)) p1) !! id = Some expandedIcon) /\
  (forall data, (forall job, In job data -> jd_ID job <> id) ->
     id ∉ expandedSchedules (onmessage (JobsMessage (Some data)) p1)) /\
  (exists p2, toggleSchedule id p1 = Some p2 /\
     expandedSchedules p2 = expandedSchedules (renderJobs p) /\
     scheduleDisplay p2 = scheduleDisplay (renderJobs p) /\
     toggleIcon p2 = toggleIcon (renderJobs p)).
Proof.
  intros Ht.
  assert (Hl : id ∈ map jd_ID (List.filter hasUpcoming (jobs p))).
  { destruct (bool_decide_reflect (id ∈ map jd_ID (List.filter hasUpcoming (jobs p))))
      as [H|H]; [exact H|].
    pose proof (render_display p id) as Hd.
    rewrite bool_decide_eq_false_2 in Hd by exact H.
    unfold toggleSchedule in Ht. rewrite Hd in Ht. discriminate. }
  pose proof (render_display p id) as Hd. pose proof (render_icon p id) as Hi.
  rewrite bool_decide_eq_true_2 in Hd, Hi by exact Hl.
  unfold toggleSchedule in Ht. rewrite Hd, Hi in Ht.
  destruct (bool_decide_reflect (id ∈ expandedSchedules (renderJobs p))) as [He|He];
    simpl in Ht; injection Ht as <-.
  - refine (conj _ (conj _ _)).
    + intros Hn. now elim Hn.
    + intros data Hgone Hin. apply cleanUp_spec in Hin as [_ (job & Hjob & Hid)].
      exact (Hgone job Hjob Hid).
    + unfold toggleSchedule. simpl. rewrite !lookup_insert_eq. simpl.
      eexists. split; [reflexivity|]. simpl. refine (conj _ (conj _ _)).
      * apply set_eq. intros x.
        rewrite elem_of_union, elem_of_difference, elem_of_singleton.
        destruct (decide (x = id)) as [->|]; tauto.
      * rewrite insert_insert_eq. now apply insert_id.
      * rewrite insert_insert_eq. now apply insert_id.
  - refine (conj _ (conj _ _)).
    + intros _ data Hdata.
      set (q := mkPage data ({[id]} ∪ expandedSchedules (renderJobs p))
                  (<[id:="block"]> (scheduleDisplay (renderJobs p)))
                  (<[id:=expandedIcon]> (toggleIcon (renderJobs p)))
                  (jobCount (renderJobs p))).
      change (scheduleDisplay (renderJobs q) !! id = Some "block" /\
              toggleIcon (renderJobs q) !! id = Some expandedIcon).
      assert (Hexp : id ∈ expandedSchedules (renderJobs q)).
      { apply cleanUp_spec. split.
        - subst q. simpl. rewrite elem_of_union, elem_of_singleton. now left.
        - destruct Hdata as (job & Hin & Hid & _). eauto. }
      assert (Hcards : id ∈ map jd_ID (List.filter hasUpcoming (jobs q)))
        by (apply listed_cards; exact Hdata).
      rewrite render_display, render_icon.
      rewrite (bool_decide_eq_true_2 _ Hcards), (bool_decide_eq_true_2 _ Hexp).
      split; reflexivity.
    + intros data Hgone Hin. apply cleanUp_spec in Hin as [_ (job & Hjob & Hid)].
      exact (Hgone job Hjob Hid).
    + unfold toggleSchedule. simpl. rewrite !lookup_insert_eq. simpl.
      eexists. split; [reflexivity|]. simpl. refine (conj _ (conj _ _)).
      * apply set_eq. intros x.
        rewrite elem_of_difference, elem_of_union, elem_of_singleton.
        destruct (decide (x = id)) as [->|]; tauto.
      * rewrite insert_insert_eq. now apply insert_id.
      * rewrite insert_insert_eq. now apply insert_id.
Qed.

Lemma sample_listed : listed (jd_ID sampleJob) [sampleJob].
Proof. exists sampleJob. repeat split; [now left | discriminate]. Qed.

Lemma sample_collapsed : jd_ID sampleJob ∉ expandedSchedules (renderJobs samplePage).
Proof.
  intros H.
  apply (rendered_expanded_inv samplePage) in H as [H _].
  apply (rendered_expanded_inv
           (mkPage [sampleJob] ∅ ∅ ∅ (Some 0%nat))) in H as [H _].
  now apply not_elem_of_empty in H.
Qed.

Lemma render_keeps_expanded_of_current_jobs_witness :
  expandedSchedules
    (renderJobs (mkPage [] {[ jd_ID sampleJob ]} ∅ ∅ None)) = ∅.
Proof.
  destruct (render_keeps_expanded_of_current_jobs
              (mkPage [] {[ jd_ID sampleJob ]} ∅ ∅ None) (jd_ID sampleJob))
    as (_ & Hempty & _).
  apply Hempty. reflexivity.
Defined.

Lemma toggle_flips_rendered_schedule_witness :
  scheduleDisplay (renderJobs samplePage) !! jd_ID sampleJob = Some "none" /\
  toggleSchedule "no-such-job" (renderJobs samplePage) = None.
Proof.
  destruct (toggle_flips_rendered_schedule samplePage (jd_ID sampleJob))
    as [Hshown _].
  destruct (toggle_flips_rendered_schedule samplePage "no-such-job") as [_ Hmissing].
  split.
  - destruct (Hshown sample_listed) as [Hd _]. rewrite Hd.
    now rewrite (bool_decide_eq_false_2 _ sample_collapsed).
  - apply Hmissing. intros (job & [<- | []] & Hid & _). discriminate Hid.
Defined.

Lemma sample_opened :
  exists opened, toggleSchedule (jd_ID sampleJob) (renderJobs samplePage) = Some opened.
Proof.
  unfold toggleSchedule.
  pose proof (render_display samplePage (jd_ID sampleJob)) as Hd.
  pose proof (render_icon samplePage (jd_ID sampleJob)) as Hi.
  assert (Hl : jd_ID sampleJob ∈ map jd_ID (List.filter hasUpcoming (jobs samplePage)))
    by (apply listed_cards, sample_listed).
  rewrite (bool_decide_eq_true_2 _ Hl) in Hd, Hi. rewrite Hd, Hi.
  destruct (String.eqb _ "none"); eauto.
Qed.

Lemma expanded_state_survives_refresh_witness :
  exists opened,
    toggleSchedule (jd_ID sampleJob) (renderJobs samplePage) = Some opened /\
    scheduleDisplay (onmessage (JobsMessage (Some [sampleJob])) opened)
      !! jd_ID sampleJob = Some "block".
Proof.
  destruct sample_opened as [opened Hopened].
  exists opened. split; [exact Hopened|].
  destruct (expanded_state_survives_refresh samplePage opened (jd_ID sampleJob) Hopened)
    as (Hopen & _).
  apply (Hopen sample_collapsed [sampleJob] sample_listed).
Defined.

End WebUIFacts.
